(** * AI-RESUME-Matcher: the search and ranking core of [nlp-service/vector_store.py]

    A shallow embedding of [VectorStore]: role detection, skill extraction,
    Jaccard overlap, index construction with its three persisted artifacts,
    loading with its fingerprint check, and the search pipeline (role
    pre-filter, candidate loop with deduplication, composite scoring,
    adaptive threshold, final ordering); with it the corpus validator of
    [nlp-service/ingest.py] and the HTTP handlers of [nlp-service/app.py].

    Modelling conventions.
    - Python [str] is [string]; texts are taken to be ASCII, so [str.lower]
      only moves the letters A-Z.
    - Python [set] is stdpp's [gset]; the job-id set of the search loop is a
      [gset Z].
    - Python [int] is [Z] (row indices coming back from the vector index can
      be negative, and pandas' [iloc] then counts from the end).
    - Python [float] scores are represented by the rational number they
      denote ([Qc], canonical rationals, so that equal values are equal
      terms).  Comparisons of floats are exact on these values; the rounding
      of sums, products and quotients is not represented.
    - Raising an exception is the [Raise] branch of a small error monad; the
      store object and the files it writes are threaded explicitly.
    - The embedding provider and the vector index are external: they appear
      as oracles carried by the environment and by the index handle. *)

From Stdlib Require Import QArith Qcanon ZArith Lia String Ascii List.
From stdpp Require Import gmap strings list sorting.

Open Scope Z_scope.

(** ** Python primitives used by the store *)

Module Py.

(** [c.lower()] on one ASCII character. *)
Definition lower_ascii (c : ascii) : ascii :=
  let n := N_of_ascii c in
  if ((65 <=? n) && (n <=? 90))%N then ascii_of_N (n + 32) else c.

(** [s.lower()] *)
Fixpoint lower (s : string) : string :=
  match s with
  | EmptyString => EmptyString
  | String c s' => String (lower_ascii c) (lower s')
  end.

(** [k in t] for strings: [k] occurs in [t] as a substring. *)
Fixpoint contains (k t : string) : bool :=
  String.prefix k t ||
  match t with
  | EmptyString => false
  | String _ t' => contains k t'
  end.

(** [s.split(sep)] for a one-character separator: the pieces between the
    separators, empty pieces included. *)
Fixpoint split_on (sep : ascii) (s : string) : list string :=
  match s with
  | EmptyString => [EmptyString]
  | String c s' =>
      if Ascii.eqb c sep then EmptyString :: split_on sep s'
      else match split_on sep s' with
           | [] => [String c EmptyString]
           | p :: ps => String c p :: ps
           end
  end.

(** [min(a, b)] on two floats: the first argument unless the second is
    strictly smaller. *)
Definition min (a b : Qc) : Qc := if bool_decide (b < a)%Qc then b else a.

(** [a / b] on two integers, [b] not zero: true division. *)
Definition true_div (a b : Z) : Qc := (Q2Qc (inject_Z a) / Q2Qc (inject_Z b))%Qc.

(** [l[:k]]: a negative bound counts from the end of the list. *)
Definition slice_to {A} (l : list A) (k : Z) : list A :=
  if 0 <=? k then take (Z.to_nat k) l
  else take (Z.to_nat (Z.of_nat (length l) + k)) l.

(** [len(l)] as a Python integer. *)
Definition len {A} (l : list A) : Z := Z.of_nat (length l).

(** The exceptions the store can raise. *)
Inductive exn : Type :=
| ValueError (msg : string)
| FileNotFoundError (msg : string)
| KeyError (key : string)
| IndexError
| AttributeError
| ProviderError
| IOError (what : string)
| AssertionError.

(** Computations that return or raise. *)
Inductive result (A : Type) : Type :=
| Ok (a : A)
| Raise (e : exn).
Arguments Ok {A} a.
Arguments Raise {A} e.

Definition bind {A B} (m : result A) (k : A → result B) : result B :=
  match m with
  | Ok a => k a
  | Raise e => Raise e
  end.

Definition is_ok {A} (m : result A) : bool :=
  match m with Ok _ => true | Raise _ => false end.

End Py.

Import Py.

(** [x ← m; k] runs [m] and, unless it raised, continues with [k]. *)
#[global] Instance result_ret : MRet result := @Ok.
#[global] Instance result_bind : MBind result := λ A B k m, Py.bind m k.

(** ** Role classifier *)

(** The two keyword sets are local to [detect_role] (the attributes
    [FULLSTACK] and [DEVOPS] set in the constructor are not read by it). *)
Definition fullstack_keywords : gset string :=
  {[ "full stack"; "full-stack"; "react"; "angular"; "vue"; "spring boot";
     "node"; "express"; "typescript"; "javascript"; "java"; "frontend";
     "backend"; "web developer"; "software engineer"; "developer" ]}.

Definition devops_keywords : gset string :=
  {[ "devops"; "sre"; "site reliability"; "terraform"; "ansible"; "jenkins";
     "kubernetes"; "eks"; "helm"; "argo"; "ci/cd"; "docker"; "infrastructure";
     "platform engineer"; "cloud engineer"; "aws"; "azure"; "gcp" ]}.

(** [sum(1 for k in keywords if k in t)] *)
Definition hits (keywords : gset string) (t : string) : Z :=
  Z.of_nat (size (filter (λ k, contains k t = true) keywords)).

Definition fs_hits (text : string) : Z := hits fullstack_keywords (lower text).
Definition dv_hits (text : string) : Z := hits devops_keywords (lower text).

Definition detect_role (text : string) : string :=
  let fs := fs_hits text in
  let dv := dv_hits text in
  if (fs =? 0) && (dv =? 0) then "general"
  else if dv * 2 <? fs then "fullstack"
  else if fs * 2 <? dv then "devops"
  else "general".

(** ** Skill extractor *)

Definition tech_skills : list string :=
  [ "java"; "python"; "javascript"; "typescript"; "react"; "angular"; "vue";
    "spring boot"; "node.js"; "express"; "postgresql"; "mongodb"; "redis";
    "aws"; "azure"; "gcp"; "docker"; "kubernetes"; "jenkins"; "git";
    "hibernate"; "junit"; "jdbc"; "html"; "css"; "bootstrap" ].

Definition extract_skills (resume_text : string) : gset string :=
  let text_lower := lower resume_text in
  foldl (λ skills skill,
           if contains skill text_lower then skills ∪ {[skill]} else skills)
        ∅ tech_skills.

(** ** Jaccard similarity *)

Definition _jaccard_similarity (set1 set2 : gset string) : Qc :=
  if bool_decide (set1 = ∅) && bool_decide (set2 = ∅) then Q2Qc 0
  else
    let intersection := Z.of_nat (size (set1 ∩ set2)) in
    let union := Z.of_nat (size (set1 ∪ set2)) in
    if 0 <? union then true_div intersection union else Q2Qc 0.

(** ** Data model *)

(** A text cell of a data frame: [None] is pandas' NaN, what an empty CSV
    field is read as. *)
Definition cell : Type := option string.

(** One row of the job corpus ([jobs_enhanced.csv] or [jobs.csv]). *)
Record CsvRow : Type := {
  csv_id : Z;
  csv_title : cell;
  csv_company : cell;
  csv_location : cell;
  csv_jd_text : cell;
  csv_skills : cell
}.

(** The corpus as read by [pd.read_csv]: the header and the rows, under the
    default index 0, 1, ..., n-1. *)
Record DataFrame : Type := {
  columns : list string;
  rows : list CsvRow
}.

(** One row of [job_metadata].  [skills] is [None] when the frame has no
    such column (the key is then missing from [to_dict()]). *)
Record JobMeta : Type := {
  job_id : Z;
  title : cell;
  company : cell;
  location : cell;
  skills : option cell
}.

(** A job dictionary after [job_info.update(...)]. *)
Record SearchResult : Type := {
  job_info : JobMeta;
  score : Qc;
  similarity : Qc;
  skillOverlap : Qc
}.

Definition Vec : Type := list Qc.

(** The embedding provider: [encode] maps texts to vectors, or raises. *)
Record Model : Type := {
  encode : list cell → result (list Vec)
}.

(** The vector index handle: dimension [d] and the external search, which
    for a batch holding the query vector and a count [k] answers with
    [zip(scores[0], indices[0])], the (score, row index) pairs of the first
    query, best inner product first, or raises. *)
Record VectorIndex : Type := {
  d : Z;
  ix_search : list Vec → Z → result (list (Qc * Z))
}.

(** The dictionary [meta] that [_save_model_fingerprint] dumps. *)
Record Fingerprint : Type := {
  fp_model_name : string;
  fp_embedding_dim : option Z;
  fp_source_csv : string
}.

(** A JSON document as [json.load] returns it: [None], a bool, an int, a
    float (the rational it denotes; NaN and the infinities are not
    represented), a string, a list, or a dict, given by the members of the
    object in the order of the text. *)
#[local] Set Warnings "-register-all".
Inductive json : Type :=
| JNull
| JBool (b : bool)
| JInt (n : Z)
| JFloat (x : Qc)
| JStr (s : string)
| JList (items : list json)
| JDict (members : list (string * json)).
#[local] Set Warnings "register-all".

(** What is in [model_meta.json]: text that [json.load] parses, or anything
    that makes [open] or [json.load] raise. *)
Inductive meta_file : Type :=
| JsonText (v : json)
| Unreadable.

(** [json.dump(meta, f)], read back. *)
Definition json_dump (meta : Fingerprint) : json :=
  JDict [ ("model_name", JStr (fp_model_name meta));
          ("embedding_dim",
           match fp_embedding_dim meta with Some n => JInt n | None => JNull end);
          ("source_csv", JStr (fp_source_csv meta)) ].

(** The files under [data_dir]. *)
Record Files : Type := {
  jobs_enhanced_csv : option DataFrame;
  jobs_csv : option DataFrame;
  jobs_faiss : option VectorIndex;         (* index_path *)
  jobs_meta_parquet : option (list JobMeta);  (* metadata_path *)
  model_meta_json : option meta_file       (* model_meta_path *)
}.

(** The attributes of a [VectorStore] object that the methods read or
    assign. *)
Record VectorStore : Type := {
  model_name : string;
  model : option Model;
  index : option VectorIndex;
  job_metadata : option (list JobMeta)
}.

(** What lies outside the store: the provider factory, the index
    constructor, vector normalisation (it needs square roots), and whether
    each write to disk goes through. *)
Record Env : Type := {
  SentenceTransformer : string → result Model;
  IndexFlatIP : Z → list Vec → VectorIndex;
  _normalize_embeddings : list Vec → list Vec;
  write_index_ok : bool;
  to_parquet_ok : bool;
  json_dump_ok : bool
}.

(** [VectorStore(model_name)] *)
Definition __init__ (name : string) : VectorStore :=
  {| model_name := name; model := None; index := None; job_metadata := None |}.

(** ** Data-frame access *)

(** [frame.iloc[idx]]: positional, a negative position counts from the end,
    anything outside raises [IndexError]. *)
Definition iloc {A} (frame : list A) (idx : Z) : result A :=
  let pos := if 0 <=? idx then idx else len frame + idx in
  if pos <? 0 then Raise IndexError
  else match frame !! Z.to_nat pos with
       | Some r => Ok r
       | None => Raise IndexError
       end.

(** [df[col]] for a column that must exist. *)
Definition require_column (df : DataFrame) (col : string) : result unit :=
  if bool_decide (col ∈ columns df) then Ok () else Raise (KeyError col).

(** [df[metadata_cols].copy()], row by row. *)
Definition meta_of_row (with_skills : bool) (r : CsvRow) : JobMeta :=
  {| job_id := csv_id r; title := csv_title r; company := csv_company r;
     location := csv_location r;
     skills := if with_skills then Some (csv_skills r) else None |}.

(** The corpus file: [jobs_enhanced.csv] first, [jobs.csv] as fallback.  The
    result carries the base name of the path that was chosen. *)
Definition find_csv (fs : Files) : option (string * DataFrame) :=
  match jobs_enhanced_csv fs with
  | Some df => Some ("jobs_enhanced.csv", df)
  | None =>
      match jobs_csv fs with
      | Some df => Some ("jobs.csv", df)
      | None => None
      end
  end.

(** ** Index builder *)

(** [build_index] assigns attributes of the store and writes files, and it
    can raise half-way: a state and error monad over the store and the
    files. *)
Definition World : Type := VectorStore * Files.
Definition M (A : Type) : Type := World → result A * World.

#[global] Instance M_ret : MRet M := λ A a w, (Ok a, w).
#[global] Instance M_bind : MBind M := λ A B k m w,
  match m w with
  | (Ok a, w') => k a w'
  | (Raise e, w') => (Raise e, w')
  end.

Definition raise {A} (e : exn) : M A := λ w, (Raise e, w).
Definition lift {A} (r : result A) : M A := λ w, (r, w).
Definition get_self : M VectorStore := λ w, (Ok (fst w), w).
Definition get_files : M Files := λ w, (Ok (snd w), w).
Definition set_self (f : VectorStore → VectorStore) : M unit :=
  λ w, (Ok (), (f (fst w), snd w)).
Definition set_files (f : Files → Files) : M unit :=
  λ w, (Ok (), (fst w, f (snd w))).

Definition set_model (m : Model) (s : VectorStore) : VectorStore :=
  {| model_name := model_name s; model := Some m; index := index s;
     job_metadata := job_metadata s |}.
Definition set_index (ix : VectorIndex) (s : VectorStore) : VectorStore :=
  {| model_name := model_name s; model := model s; index := Some ix;
     job_metadata := job_metadata s |}.
Definition set_job_metadata (md : list JobMeta) (s : VectorStore) : VectorStore :=
  {| model_name := model_name s; model := model s; index := index s;
     job_metadata := Some md |}.

Definition write_jobs_faiss (ix : VectorIndex) (fs : Files) : Files :=
  {| jobs_enhanced_csv := jobs_enhanced_csv fs; jobs_csv := jobs_csv fs;
     jobs_faiss := Some ix; jobs_meta_parquet := jobs_meta_parquet fs;
     model_meta_json := model_meta_json fs |}.
Definition write_jobs_meta_parquet (md : list JobMeta) (fs : Files) : Files :=
  {| jobs_enhanced_csv := jobs_enhanced_csv fs; jobs_csv := jobs_csv fs;
     jobs_faiss := jobs_faiss fs; jobs_meta_parquet := Some md;
     model_meta_json := model_meta_json fs |}.
Definition write_model_meta_json (fp : Fingerprint) (fs : Files) : Files :=
  {| jobs_enhanced_csv := jobs_enhanced_csv fs; jobs_csv := jobs_csv fs;
     jobs_faiss := jobs_faiss fs; jobs_meta_parquet := jobs_meta_parquet fs;
     model_meta_json := Some (JsonText (json_dump fp)) |}.

Section Build.

Variable env : Env.

Definition _load_model : M unit :=
  self ← get_self;
  match model self with
  | Some _ => mret ()
  | None =>
      m ← lift (SentenceTransformer env (model_name self));
      set_self (set_model m)
  end.

Definition _save_index : M unit :=
  self ← get_self;
  match index self with
  | Some ix =>
      if write_index_ok env then set_files (write_jobs_faiss ix)
      else raise (IOError "jobs.faiss")
  | None => raise (IOError "jobs.faiss")
  end.

Definition _save_metadata : M unit :=
  self ← get_self;
  match job_metadata self with
  | Some md =>
      if to_parquet_ok env then set_files (write_jobs_meta_parquet md)
      else raise (IOError "jobs_meta.parquet")
  | None => raise AttributeError
  end.

Definition _save_model_fingerprint (source_csv : string) : M unit :=
  self ← get_self;
  let meta :=
    {| fp_model_name := model_name self;
       fp_embedding_dim := d <$> index self;
       fp_source_csv := source_csv |} in
  if json_dump_ok env then set_files (write_model_meta_json meta)
  else raise (IOError "model_meta.json").

(** [embeddings.shape[1]] *)
Definition dimension_of (embeddings : list Vec) : result Z :=
  match embeddings with
  | [] => Raise IndexError
  | v :: _ => Ok (len v)
  end.

Definition build_index : M unit :=
  _load_model;;
  fs ← get_files;
  match find_csv fs with
  | None => raise (FileNotFoundError "Jobs CSV file not found")
  | Some (csv_name, df) =>
      let with_skills := bool_decide ("skills" ∈ columns df) in
      lift (mapM (require_column df) ["id"; "title"; "company"; "location"]);;
      set_self (set_job_metadata (meta_of_row with_skills <$> rows df));;
      lift (require_column df "jd_text");;
      let job_descriptions := csv_jd_text <$> rows df in
      self ← get_self;
      match model self with
      | None => raise AttributeError
      | Some m =>
          embeddings ← lift (encode m job_descriptions);
          let embeddings := _normalize_embeddings env embeddings in
          dimension ← lift (dimension_of embeddings);
          set_self (set_index (IndexFlatIP env dimension embeddings));;
          _save_index;;
          _save_metadata;;
          _save_model_fingerprint csv_name
      end
  end.

End Build.

(** [get_job_count] *)
Definition get_job_count (self : VectorStore) : Z :=
  match job_metadata self with
  | Some md => len md
  | None => 0
  end.

(** ** Search engine *)

(** The alternatives of the two title patterns, in lower case;
    [full[- ]?stack] is spelled out. *)
Definition fullstack_title_pattern : list string :=
  [ "fullstack"; "full-stack"; "full stack"; "frontend"; "backend";
    "software engineer"; "java developer"; "web developer"; "developer" ].

Definition devops_title_pattern : list string :=
  [ "devops"; "sre"; "site reliability"; "platform"; "infra"; "cloud engineer" ].

(** [series.str.contains(pattern, case=False, na=False)] on one cell. *)
Definition str_contains (alternatives : list string) (c : cell) : bool :=
  match c with
  | None => false
  | Some t => existsb (λ a, contains a (lower t)) alternatives
  end.

(** A frame together with its index labels. *)
Definition labelled {A} (frame : list A) : list (Z * A) :=
  imap (λ i r, (Z.of_nat i, r)) frame.

(** [filtered_metadata]: the rows kept by the role mask, under their
    original labels. *)
Definition role_filter (role : string) (md : list JobMeta) : list (Z * JobMeta) :=
  if bool_decide (role = "fullstack") then
    filter (λ p, str_contains fullstack_title_pattern (title p.2) = true) (labelled md)
  else if bool_decide (role = "devops") then
    filter (λ p, str_contains devops_title_pattern (title p.2) = true) (labelled md)
  else labelled md.

(** [idx in filtered_metadata.index] *)
Definition in_index (idx : Z) (filtered : list (Z * JobMeta)) : bool :=
  bool_decide (idx ∈ filtered.*1).

(** The role gate of the candidate loop: [true] means the candidate is
    skipped. *)
Definition role_gate (role : string) (filtered : list (Z * JobMeta)) (idx : Z) : bool :=
  (0 <? len filtered) && negb (in_index idx filtered)
  && negb (bool_decide (role = "general")).

Definition min_threshold (role : string) : Qc :=
  if bool_decide (role = "fullstack") then Q2Qc 0.25
  else if bool_decide (role = "devops") then Q2Qc 0.22
  else Q2Qc 0.20.

Definition composite_score (semantic_score skill_score : Qc) : Qc :=
  Py.min ((Q2Qc 0.70 * semantic_score + Q2Qc 0.30 * skill_score) * Q2Qc 1.1)%Qc
         (Q2Qc 1.0).

(** The threshold test of the loop: [true] means [continue], the candidate
    is dropped. *)
Definition below_threshold (role : string) (n_results top_k : Z) (composite : Qc) : bool :=
  bool_decide (composite < min_threshold role)%Qc
  && ((top_k <=? n_results) || bool_decide (composite < Q2Qc 0.15)%Qc).

(** [c.lower()] on a cell: NaN is a float and has no such method. *)
Definition cell_lower (c : cell) : result string :=
  match c with
  | Some t => Ok (lower t)
  | None => Raise AttributeError
  end.

(** The skill set of a job: the stored [skills] when the key is present and
    the value is truthy, else the skills found in the description. *)
Definition job_skills_of (info : JobMeta) (jd_text : cell) : result (gset string) :=
  let from_description :=
    t ← cell_lower jd_text; Ok (extract_skills t) in
  match skills info with
  | Some None => Raise AttributeError   (* NaN is truthy *)
  | Some (Some s) =>
      if bool_decide (s = "") then from_description
      else Ok (list_to_set (split_on "," (lower s)))
  | None => from_description
  end.

Record LoopState : Type := {
  results : list SearchResult;
  seen_jobs : gset Z
}.

Inductive flow : Type :=
| Continue (st : LoopState)
| Break (st : LoopState).

Section Loop.

Variable md : list JobMeta.                 (* self.job_metadata *)
Variable filtered : list (Z * JobMeta).     (* filtered_metadata *)
Variable df : DataFrame.                    (* the corpus, read again *)
Variable role : string.
Variable top_k : Z.
Variable resume_skills : gset string.

(** One iteration of the candidate loop. *)
Definition body (st : LoopState) (cand : Qc * Z) : result flow :=
  let '(similarity_score, idx) := cand in
  if (len md <=? idx) || bool_decide (idx ∈ seen_jobs st) then Ok (Continue st)
  else
    info ← iloc md idx;
    let jid := job_id info in
    if bool_decide (jid ∈ seen_jobs st) then Ok (Continue st)
    else
      let seen := seen_jobs st ∪ {[jid]} in
      if role_gate role filtered idx then
        Ok (Continue {| results := results st; seen_jobs := seen |})
      else
        row ← iloc (rows df) idx;
        require_column df "jd_text";;
        _ ← cell_lower (csv_jd_text row);         (* job_desc *)
        _ ← cell_lower (title info);              (* job_title *)
        job_skills ← job_skills_of info (csv_jd_text row);
        let skill_overlap := _jaccard_similarity resume_skills job_skills in
        let composite := composite_score similarity_score skill_overlap in
        if below_threshold role (len (results st)) top_k composite then
          Ok (Continue {| results := results st; seen_jobs := seen |})
        else
          let r := {| job_info := info; score := composite;
                      similarity := similarity_score;
                      skillOverlap := skill_overlap |} in
          let st' := {| results := results st ++ [r]; seen_jobs := seen |} in
          if top_k <=? len (results st') then Ok (Break st') else Ok (Continue st').

(** [for ... in zip(scores[0], indices[0])] *)
Fixpoint candidate_loop (cands : list (Qc * Z)) (st : LoopState) : result LoopState :=
  match cands with
  | [] => Ok st
  | c :: cs =>
      f ← body st c;
      match f with
      | Continue st' => candidate_loop cs st'
      | Break st' => Ok st'
      end
  end.

End Loop.

(** [results.sort(key=lambda x: x['score'], reverse=True)]: stable, highest
    score first. *)
Fixpoint insert_by_score (x : SearchResult) (l : list SearchResult) : list SearchResult :=
  match l with
  | [] => [x]
  | y :: l' =>
      if bool_decide (score x < score y)%Qc then y :: insert_by_score x l'
      else x :: y :: l'
  end.

Definition sort_by_score (l : list SearchResult) : list SearchResult :=
  foldr insert_by_score [] l.

(** The URL-validation loop (validation itself is switched off): copy jobs
    until [top_k] of them are collected. *)
Fixpoint validate (top_k : Z) (jobs validated : list SearchResult) : list SearchResult :=
  match jobs with
  | [] => validated
  | job :: rest =>
      let validated := validated ++ [job] in
      if top_k <=? len validated then validated else validate top_k rest validated
  end.

(** The number of neighbours asked of the vector index. *)
Definition search_k (top_k : Z) (md : list JobMeta) : Z :=
  Z.min (top_k * 20) (len md).

Section Search.

Variable env : Env.
Variable fs : Files.

Definition search (self : VectorStore) (query : string) (top_k : Z)
    (role : option string) : result (list SearchResult) :=
  match index self, job_metadata self with
  | Some ix, Some md =>
      let role := default (detect_role query) role in
      m ← from_option Ok (Raise AttributeError) (model self);
      query_embedding ← encode m [Some query];
      let query_embedding := _normalize_embeddings env query_embedding in
      let filtered_metadata := role_filter role md in
      cands ← ix_search ix query_embedding (search_k top_k md);
      csv ← from_option Ok (Raise (FileNotFoundError "jobs.csv")) (find_csv fs);
      let df := csv.2 in
      let resume_skills := extract_skills query in
      st ← candidate_loop md filtered_metadata df role top_k resume_skills cands
             {| results := []; seen_jobs := ∅ |};
      let results := sort_by_score (results st) in
      let validated_results :=
        validate top_k (slice_to results (Z.min (top_k * 2) (len results))) [] in
      Ok (slice_to validated_results top_k)
  | _, _ => Raise (ValueError "Index not built. Call build_index() first.")
  end.

End Search.

(** ** Vocabulary for the statements below *)

(** The loop state carried by either outcome of an iteration. *)
Definition flow_state (f : flow) : LoopState :=
  match f with
  | Continue st => st
  | Break st => st
  end.

(** The dictionary appended for a candidate of raw similarity [sim] at a
    row holding [info], whose skill set is [job_skills]. *)
Definition result_for (resume_skills : gset string) (sim : Qc) (info : JobMeta)
    (job_skills : gset string) : SearchResult :=
  let skill_overlap := _jaccard_similarity resume_skills job_skills in
  {| job_info := info;
     score := composite_score sim skill_overlap;
     similarity := sim;
     skillOverlap := skill_overlap |}.

(** A candidate gets as far as the threshold test: its row index is in
    range and not in the seen set, its job id is new, the role gate lets it
    through, and every field the scoring reads is there. *)
Definition reaches_scoring (md : list JobMeta) (filtered : list (Z * JobMeta))
    (df : DataFrame) (role : string) (st : LoopState) (idx : Z)
    (info : JobMeta) (job_skills : gset string) : Prop :=
  idx < len md ∧ (idx ∉ seen_jobs st)
  ∧ iloc md idx = Ok info ∧ (job_id info ∉ seen_jobs st)
  ∧ role_gate role filtered idx = false
  ∧ ∃ row, iloc (rows df) idx = Ok row
      ∧ "jd_text" ∈ columns df
      ∧ is_ok (cell_lower (csv_jd_text row)) = true
      ∧ is_ok (cell_lower (title info)) = true
      ∧ job_skills_of info (csv_jd_text row) = Ok job_skills.

(** The job ids of a result list, in order. *)
Definition result_ids (rs : list SearchResult) : list Z :=
  (λ r, job_id (job_info r)) <$> rs.

(** ** A small corpus and cooperative collaborators *)

Definition demo_rows : list CsvRow :=
  [ {| csv_id := 1; csv_title := Some "Java Backend Developer";
       csv_company := Some "Acme"; csv_location := Some "Remote";
       csv_jd_text := Some "Build services in Java and Spring Boot";
       csv_skills := Some "java,spring" |};
    {| csv_id := 2; csv_title := Some "DevOps Engineer";
       csv_company := Some "Initech"; csv_location := Some "Austin";
       csv_jd_text := Some "Run Terraform and Docker pipelines";
       csv_skills := Some "terraform,docker" |};
    {| csv_id := 3; csv_title := Some "Data Analyst";
       csv_company := Some "Globex"; csv_location := Some "Berlin";
       csv_jd_text := Some "Reports with Python and PostgreSQL";
       csv_skills := Some "" |} ].

Definition demo_df : DataFrame :=
  {| columns := ["id"; "title"; "company"; "location"; "jd_text"; "skills"];
     rows := demo_rows |}.

Definition demo_files : Files :=
  {| jobs_enhanced_csv := None; jobs_csv := Some demo_df; jobs_faiss := None;
     jobs_meta_parquet := None; model_meta_json := None |}.

(** A provider that embeds every text as the same unit vector. *)
Definition demo_model : Model :=
  {| encode := λ texts, Ok ((λ _, [Q2Qc 1; Q2Qc 0]) <$> texts) |}.

(** An index that answers every query with the first [k] entries of a fixed
    ranking. *)
Definition demo_index (ranking : list (Qc * Z)) : VectorIndex :=
  {| d := 2; ix_search := λ _ k, Ok (take (Z.to_nat k) ranking) |}.

Definition demo_ranking : list (Qc * Z) :=
  [ (Q2Qc 0.9, 0); (Q2Qc 0.6, 1); (Q2Qc 0.4, 2) ].

Definition demo_env (parquet_ok : bool) : Env :=
  {| SentenceTransformer := λ _, Ok demo_model;
     IndexFlatIP := λ _ _, demo_index demo_ranking;
     _normalize_embeddings := λ vs, vs;
     write_index_ok := true;
     to_parquet_ok := parquet_ok;
     json_dump_ok := true |}.

Definition demo_md : list JobMeta := meta_of_row true <$> demo_rows.

Definition demo_store (ranking : list (Qc * Z)) : VectorStore :=
  {| model_name := "all-MiniLM-L6-v2"; model := Some demo_model;
     index := Some (demo_index ranking); job_metadata := Some demo_md |}.

(** An iteration accepts its candidate: it returns, and the result list has
    grown by the candidate's dictionary [r]. *)
Definition accepted (md : list JobMeta) (filtered : list (Z * JobMeta))
    (df : DataFrame) (role : string) (top_k : Z) (resume_skills : gset string)
    (st : LoopState) (cand : Qc * Z) (r : SearchResult) : Prop :=
  ∃ f, body md filtered df role top_k resume_skills st cand = Ok f
       ∧ results (flow_state f) = results st ++ [r].

(** The loop state before the first candidate. *)
Definition initial_state : LoopState := {| results := []; seen_jobs := ∅ |}.

(** The three demo jobs as metadata rows, and the skill sets the loop
    derives for them. *)
Definition demo_job0 : JobMeta :=
  {| job_id := 1; title := Some "Java Backend Developer"; company := Some "Acme";
     location := Some "Remote"; skills := Some (Some "java,spring") |}.
Definition demo_job1 : JobMeta :=
  {| job_id := 2; title := Some "DevOps Engineer"; company := Some "Initech";
     location := Some "Austin"; skills := Some (Some "terraform,docker") |}.
Definition demo_job2 : JobMeta :=
  {| job_id := 3; title := Some "Data Analyst"; company := Some "Globex";
     location := Some "Berlin"; skills := Some (Some "") |}.

Definition demo_skills0 : gset string := {[ "java"; "spring" ]}.
Definition demo_skills1 : gset string := {[ "terraform"; "docker" ]}.
Definition demo_skills2 : gset string := {[ "python"; "postgresql" ]}.

(** Decidable equality on the data of the model, for closed checks. *)
#[global] Instance exn_eq_dec : EqDecision exn.
Proof. solve_decision. Defined.
#[global] Instance result_eq_dec {A} `{EqDecision A} : EqDecision (result A).
Proof. solve_decision. Defined.
#[global] Instance CsvRow_eq_dec : EqDecision CsvRow.
Proof. solve_decision. Defined.
#[global] Instance JobMeta_eq_dec : EqDecision JobMeta.
Proof. solve_decision. Defined.
#[global] Instance SearchResult_eq_dec : EqDecision SearchResult.
Proof. solve_decision. Defined.
#[global] Instance LoopState_eq_dec : EqDecision LoopState.
Proof. solve_decision. Defined.
#[global] Instance flow_eq_dec : EqDecision flow.
Proof. solve_decision. Defined.
#[global] Instance Fingerprint_eq_dec : EqDecision Fingerprint.
Proof. solve_decision. Defined.

(** The role a search works with: the caller's, or the detected one. *)
Definition effective_role (query : string) (role : option string) : string :=
  default (detect_role query) role.

(** A result that the loop appended for one of the candidates [cands]. *)
Definition scored_from (md : list JobMeta) (filtered : list (Z * JobMeta))
    (df : DataFrame) (role : string) (top_k : Z) (resume_skills : gset string)
    (cands : list (Qc * Z)) (r : SearchResult) : Prop :=
  ∃ sim idx info job_skills st,
    (sim, idx) ∈ cands
    ∧ reaches_scoring md filtered df role st idx info job_skills
    ∧ r = result_for resume_skills sim info job_skills
    ∧ below_threshold role (len (results st)) top_k (score r) = false.

(** What a search that returns has read and run: the metadata, the corpus
    file, the candidates the vector index answered with for
    [k = search_k top_k md], and the state its candidate loop ended in. *)
Definition search_run (env : Env) (fs : Files) (self : VectorStore)
    (query : string) (top_k : Z) (role : option string)
    (md : list JobMeta) (df : DataFrame) (cands : list (Qc * Z))
    (st : LoopState) : Prop :=
  let role := effective_role query role in
  job_metadata self = Some md
  ∧ (∃ ix m qe, index self = Some ix ∧ model self = Some m
       ∧ encode m [Some query] = Ok qe
       ∧ ix_search ix (_normalize_embeddings env qe) (search_k top_k md) = Ok cands)
  ∧ (∃ name, find_csv fs = Some (name, df))
  ∧ candidate_loop md (role_filter role md) df role top_k (extract_skills query)
      cands initial_state = Ok st.

(** The conditions under which nothing in a search can raise: the store is
    loaded, the provider embeds the query, the vector index answers the
    request for [min(top_k * 20, corpus_size)] neighbours with row indices
    that [iloc] can resolve, the corpus file is there, row-aligned with the
    metadata, and no text the loop reads is NaN. *)
Definition search_ready (env : Env) (fs : Files) (self : VectorStore)
    (query : string) (top_k : Z) (md : list JobMeta) : Prop :=
  job_metadata self = Some md
  ∧ ∃ ix m qe cands name df,
      index self = Some ix ∧ model self = Some m
      ∧ encode m [Some query] = Ok qe
      ∧ ix_search ix (_normalize_embeddings env qe)
          (Z.min (top_k * 20) (len md)) = Ok cands
      ∧ (∀ sim idx, (sim, idx) ∈ cands → - len md ≤ idx)
      ∧ find_csv fs = Some (name, df)
      ∧ "jd_text" ∈ columns df
      ∧ length (rows df) = length md
      ∧ Forall (λ row, csv_jd_text row ≠ None) (rows df)
      ∧ Forall (λ info, title info ≠ None ∧ skills info ≠ Some None) md.

(** A malformed corpus: two rows carry the same job id. *)
Definition dup_rows : list CsvRow :=
  [ {| csv_id := 7; csv_title := Some "Backend Developer";
       csv_company := Some "Acme"; csv_location := Some "Remote";
       csv_jd_text := Some "Java services"; csv_skills := Some "java" |};
    {| csv_id := 7; csv_title := Some "Backend Developer (repost)";
       csv_company := Some "Acme"; csv_location := Some "Remote";
       csv_jd_text := Some "Java services"; csv_skills := Some "java" |} ].

Definition dup_files : Files :=
  {| jobs_enhanced_csv := None;
     jobs_csv := Some {| columns := columns demo_df; rows := dup_rows |};
     jobs_faiss := None; jobs_meta_parquet := None; model_meta_json := None |}.

Definition dup_store : VectorStore :=
  {| model_name := "all-MiniLM-L6-v2"; model := Some demo_model;
     index := Some (demo_index [ (Q2Qc 0.9, 0); (Q2Qc 0.8, 1) ]);
     job_metadata := Some (meta_of_row true <$> dup_rows) |}.

Definition dup_job0 : JobMeta :=
  {| job_id := 7; title := Some "Backend Developer"; company := Some "Acme";
     location := Some "Remote"; skills := Some (Some "java") |}.

Definition demo_query : string := "Java Spring Boot backend engineer".

(** The two scoring formulas in the words of the specification, to be
    compared with [_jaccard_similarity] and [composite_score]. *)
Definition jaccard_formula (A B : gset string) : Qc :=
  if bool_decide (A = ∅ ∧ B = ∅) then Q2Qc 0
  else true_div (Z.of_nat (size (A ∩ B))) (Z.of_nat (size (A ∪ B))).

Definition composite_formula (raw_similarity skill_overlap : Qc) : Qc :=
  let boosted :=
    (Q2Qc 1.1 * (Q2Qc 0.70 * raw_similarity + Q2Qc 0.30 * skill_overlap))%Qc in
  if bool_decide (boosted ≤ Q2Qc 1.0)%Qc then boosted else Q2Qc 1.0.

(** Which of the three artifacts are on disk: index blob, metadata,
    fingerprint. *)
Definition artifacts (fs : Files) : bool * bool * bool :=
  (bool_decide (is_Some (jobs_faiss fs)),
   bool_decide (is_Some (jobs_meta_parquet fs)),
   bool_decide (is_Some (model_meta_json fs))).

(** A fresh store next to the demo corpus, nothing built yet. *)
Definition demo_world : World := (__init__ "all-MiniLM-L6-v2", demo_files).

(** ** Loading a persisted index *)

(** The records that the fingerprint check writes to the log: the warning
    of [_load_model_fingerprint], and the two warnings and the info line of
    [load_index] that follow its call.  The other log lines of [load_index]
    are not represented. *)
Inductive log_record : Type :=
| FingerprintLoadFailed        (* warning: Failed to load model fingerprint *)
| ModelMismatch (expected : string) (built_with : json)       (* warning *)
| DimensionMismatch (expected : Z) (built_with : json)        (* warning *)
| NoFingerprintFound.          (* info: No fingerprint found - assuming ... *)

(** [_load_model_fingerprint]: the parsed document; [None] when the file is
    not there and, after a warning, when reading it raises. *)
Definition _load_model_fingerprint : M (option json * list log_record) :=
  fs ← get_files;
  match model_meta_json fs with
  | None => mret (None, [])
  | Some (JsonText v) => mret (Some v, [])
  | Some Unreadable => mret (None, [FingerprintLoadFailed])
  end.

(** [if v:] *)
Definition truthy (v : json) : bool :=
  match v with
  | JNull => false
  | JBool b => b
  | JInt n => negb (n =? 0)
  | JFloat x => negb (bool_decide (x = Q2Qc 0))
  | JStr s => negb (bool_decide (s = ""))
  | JList items => match items with [] => false | _ => true end
  | JDict members => match members with [] => false | _ => true end
  end.

(** The value under [key] in a dict, [default] without one; a key written
    more than once in the file has its last value. *)
Fixpoint dict_get (members : list (string * json)) (key : string) (default : json)
    : json :=
  match members with
  | [] => default
  | (k, v) :: rest => dict_get rest key (if bool_decide (k = key) then v else default)
  end.

(** [v.get(key, default)]: only a dict has the method. *)
Definition py_get (v : json) (key : string) (default : json) : result json :=
  match v with
  | JDict members => Ok (dict_get members key default)
  | _ => Raise AttributeError
  end.

(** [v != s] for a string [s] and [v != n] for an int [n]: a bool compares
    as the int 0 or 1, a float by its value, any other kind differs. *)
Definition ne_str (v : json) (s : string) : bool :=
  match v with
  | JStr t => bool_decide (t ≠ s)
  | _ => true
  end.

Definition ne_int (v : json) (n : Z) : bool :=
  match v with
  | JInt m => bool_decide (m ≠ n)
  | JBool b => bool_decide ((if b then 1 else 0) ≠ n)
  | JFloat x => bool_decide (x ≠ Q2Qc (inject_Z n))
  | _ => true
  end.

(** The fingerprint check of [load_index], from [if fingerprint:] on.  A
    missing key reads as [None]; in the message it shows as UNKNOWN. *)
Definition fingerprint_check (name : string) (ix : VectorIndex)
    (fingerprint : option json) : result (list log_record) :=
  match fingerprint with
  | Some v =>
      if truthy v then
        built_name ← py_get v "model_name" JNull;
        log1 ← (if ne_str built_name name then
                  shown ← py_get v "model_name" (JStr "UNKNOWN");
                  Ok [ModelMismatch name shown]
                else Ok []);
        built_dim ← py_get v "embedding_dim" JNull;
        log2 ← (if ne_int built_dim (d ix) then
                  shown ← py_get v "embedding_dim" (JStr "UNKNOWN");
                  Ok [DimensionMismatch (d ix) shown]
                else Ok []);
        Ok (log1 ++ log2)
      else Ok [NoFingerprintFound]
  | None => Ok [NoFingerprintFound]
  end.

Definition required_cols : list string := ["id"; "title"; "company"; "location"].

Section Load.

Variable env : Env.

(** The body of [load_index], inside its [try]: the answer, and the log of
    the fingerprint check.  The metadata is read from the corpus file, never
    from the stored table, and only the four required columns are kept.
    [faiss.read_index] hands back the stored index. *)
Definition load_index_try : M (bool * list log_record) :=
  fs ← get_files;
  match jobs_faiss fs with
  | None => mret (false, [])
  | Some blob =>
      _load_model env;;
      set_self (set_index blob);;
      match find_csv fs with
      | None => mret (false, [])
      | Some (_, df) =>
          if forallb (λ col, bool_decide (col ∈ columns df)) required_cols then
            set_self (set_job_metadata (meta_of_row false <$> rows df));;
            '(fingerprint, log1) ← _load_model_fingerprint;
            self ← get_self;
            log2 ← lift (fingerprint_check (model_name self) blob fingerprint);
            mret (true, log1 ++ log2)
          else mret (false, [])
      end
  end.

(** [load_index]: any exception is caught and answered with [False]; what
    was assigned to the store before it stays assigned.  (The fingerprint
    check has logged nothing when it raises.) *)
Definition load_index (w : World) : (bool * list log_record) * World :=
  match load_index_try w with
  | (Ok b, w') => (b, w')
  | (Raise _, w') => ((false, []), w')
  end.

End Load.

(** ** Corpus validation ([ingest.py]) *)

(** The validator reads the file on its own, and two of its checks are
    about what the fields of the [id] column are before any typing: an
    integer literal, a missing value, or something else (a float, text). *)
Inductive id_field : Type :=
| IntField (n : Z)
| NullField
| OtherField.

Record RawRow : Type := {
  raw_id : id_field;
  raw_title : cell;
  raw_company : cell;
  raw_location : cell;
  raw_jd_text : cell;
  raw_skills : cell
}.

Record RawFrame : Type := {
  raw_columns : list string;
  raw_rows : list RawRow
}.



Definition is_null (c : cell) : bool :=
  match c with
  | None => true
  | Some _ => false
  end.

(** [df[col].isnull().any()] *)
Definition has_null (col : string) (df : RawFrame) : bool :=
  if bool_decide (col = "id") then
    existsb (λ r, match raw_id r with NullField => true | _ => false end)
      (raw_rows df)
  else if bool_decide (col = "title") then
    existsb (λ r, is_null (raw_title r)) (raw_rows df)
  else if bool_decide (col = "company") then
    existsb (λ r, is_null (raw_company r)) (raw_rows df)
  else if bool_decide (col = "location") then
    existsb (λ r, is_null (raw_location r)) (raw_rows df)
  else if bool_decide (col = "jd_text") then
    existsb (λ r, is_null (raw_jd_text r)) (raw_rows df)
  else if bool_decide (col = "skills") then
    existsb (λ r, is_null (raw_skills r)) (raw_rows df)
  else false.

(** An integer that fits the 64-bit signed type. *)
Definition fits_int64 (n : Z) : bool :=
  (- 2 ^ 63 <=? n) && (n <? 2 ^ 63).

(** [df['id'].dtype in ['int64', 'int32']].  [read_csv] types a column as
    int64 when it has a row and every field is an integer literal that fits
    64 bits; it never chooses int32.  With a missing value the column is
    float64, with a larger integer uint64 or object, with anything else
    float64 or object, and a frame without rows has columns of dtype
    object. *)
Definition id_dtype_is_int (df : RawFrame) : bool :=
  match raw_rows df with
  | [] => false
  | _ =>
      forallb (λ r, match raw_id r with
                    | IntField n => fits_int64 n
                    | _ => false
                    end) (raw_rows df)
  end.

(** The body of [validate_jobs_data], inside its [try].  [file] is what
    is at the path: nothing, or a file that [pd.read_csv] reads as a frame
    or raises on. *)
Definition validate_jobs_data_try (file : option (result RawFrame)) : result bool :=
  match file with
  | None => Ok false
  | Some read =>
      df ← read;
      let required_columns := ["id"; "title"; "company"; "location"; "jd_text"] in
      let missing_columns :=
        filter (λ col, col ∉ raw_columns df) required_columns in
      if bool_decide (missing_columns ≠ []) then Ok false
      else
        let critical_columns := ["id"; "title"; "company"; "jd_text"] in
        if existsb (λ col, has_null col df) critical_columns then Ok false
        else if negb (id_dtype_is_int df) then Ok false
        else Ok true
  end.

(** [validate_jobs_data(csv_path)]: any exception is answered with
    [False]. *)
Definition validate_jobs_data (file : option (result RawFrame)) : bool :=
  match validate_jobs_data_try file with
  | Ok b => b
  | Raise _ => false
  end.

(** ** The HTTP handlers ([app.py]) *)

(** The JSON body of a search request; a field is [None] when the key is
    absent. *)
Record SearchRequest : Type := {
  req_query : option string;
  req_top_k : option Z;
  req_role : option string
}.

Inductive error_message : Type :=
| MissingQuery                (* "Missing 'query' field in request body" *)
| IndexNotBuilt               (* "Index not built. Please call /index/build first" *)
| BuildFailed (e : exn)       (* "Failed to build index: ..." *)
| SearchFailed (e : exn).     (* "Search failed: ..." *)

Inductive payload : Type :=
| BuildSuccess (job_count : Z)
| SearchSuccess (role : string) (count : Z) (results : list SearchResult)
| ErrorBody (message : error_message).

Record Response : Type := {
  status_code : Z;
  body_json : payload
}.

(** The module-level [vector_store] and the files. *)
Definition AppState : Type := option VectorStore * Files.

Definition default_model_name : string := "all-MiniLM-L6-v2".

Section App.

Variable env : Env.

(** [POST /index/build]: the global store is replaced by a new one before
    the build runs. *)
Definition app_build_index (st : AppState) : Response * AppState :=
  match build_index env (__init__ default_model_name, st.2) with
  | (Ok _, (vector_store, fs)) =>
      ({| status_code := 200;
          body_json := BuildSuccess (get_job_count vector_store) |},
       (Some vector_store, fs))
  | (Raise e, (vector_store, fs)) =>
      ({| status_code := 500; body_json := ErrorBody (BuildFailed e) |},
       (Some vector_store, fs))
  end.

(** [POST /search] *)
Definition app_search (st : AppState) (data : option SearchRequest) : Response :=
  let missing_query :=
    {| status_code := 400; body_json := ErrorBody MissingQuery |} in
  match data with
  | None => missing_query
  | Some data =>
      match req_query data with
      | None => missing_query
      | Some query =>
          let top_k := default 5 (req_top_k data) in
          let role := req_role data in
          match st.1 with
          | None =>
              {| status_code := 400; body_json := ErrorBody IndexNotBuilt |}
          | Some vector_store =>
              (* role if role else detect_role(query) *)
              let detected_role :=
                match role with
                | Some r => if bool_decide (r = "") then detect_role query else r
                | None => detect_role query
                end in
              match search env st.2 vector_store query top_k role with
              | Ok results =>
                  {| status_code := 200;
                     body_json :=
                       SearchSuccess detected_role (len results) results |}
              | Raise e =>
                  {| status_code := 500;
                     body_json := ErrorBody (SearchFailed e) |}
              end
          end
      end
  end.

(** The start-up code under [__main__]: a new store tries to load the
    persisted index and stays in place whether or not that worked. *)
Definition app_startup (fs : Files) : AppState :=
  let '(_, (vector_store, fs')) := load_index env (__init__ default_model_name, fs) in
  (Some vector_store, fs').

End App.

(** The last stage of [search], from the accepted results to the returned
    list: sort, copy through the validation loop, cut to [top_k]. *)
Definition final_stage (top_k : Z) (accepted : list SearchResult) : list SearchResult :=
  let results := sort_by_score accepted in
  let validated_results :=
    validate top_k (slice_to results (Z.min (top_k * 2) (len results))) [] in
  slice_to validated_results top_k.

(** The title pattern a role filters by. *)
Definition title_pattern (role : string) : list string :=
  if bool_decide (role = "fullstack") then fullstack_title_pattern
  else devops_title_pattern.

(** A corpus with a skills column and an empty cell in it. *)
Definition nan_rows : list CsvRow :=
  [ {| csv_id := 1; csv_title := Some "Java Developer";
       csv_company := Some "Acme"; csv_location := Some "Remote";
       csv_jd_text := Some "Java services"; csv_skills := None |} ].

Definition nan_files : Files :=
  {| jobs_enhanced_csv := None;
     jobs_csv := Some {| columns := columns demo_df; rows := nan_rows |};
     jobs_faiss := None; jobs_meta_parquet := None; model_meta_json := None |}.

Definition nan_store : VectorStore :=
  {| model_name := "all-MiniLM-L6-v2"; model := Some demo_model;
     index := Some (demo_index [ (Q2Qc 0.9, 0) ]);
     job_metadata := Some (meta_of_row true <$> nan_rows) |}.

(** [self] after [_load_model], or the exception of the model factory. *)
Definition with_model (env : Env) (self : VectorStore) : result VectorStore :=
  match model self with
  | Some _ => Ok self
  | None => m ← SentenceTransformer env (model_name self); Ok (set_model m self)
  end.


(** The demo corpus built from scratch, and the result reloaded into a new
    store. *)
Definition demo_built : World := snd (build_index (demo_env true) demo_world).

Definition demo_reloaded : World :=
  snd (load_index (demo_env true) (__init__ default_model_name, demo_built.2)).

(** A search request for the demo query with an empty role string. *)
Definition demo_request_empty_role : SearchRequest :=
  {| req_query := Some demo_query; req_top_k := None; req_role := Some "" |}.

Definition demo_app_state : AppState := (Some (demo_store demo_ranking), demo_files).

(** A provider that cannot embed anything. *)
Definition failing_model : Model := {| encode := λ _, Raise ProviderError |}.


(** ** Vocabulary for the role classifier *)

(** The keyword count in the words of the specification, to be compared
    with the counters of [detect_role]: [k] occurs in [t] when [t] is some
    text, then [k], then some text; the count of a keyword set on a text is
    the number of its keywords that occur in the lower-cased text. *)
Definition occurs_in (k t : string) : Prop :=
  ∃ before after, t = before +:+ k +:+ after.

Definition keyword_count (keywords : gset string) (text : string) (n : Z) : Prop :=
  ∃ found : gset string,
    (∀ k, k ∈ found ↔ k ∈ keywords ∧ occurs_in k (lower text))
    ∧ n = Z.of_nat (size found).

(** ** Vocabulary for the fingerprint check *)

(** What [_load_model_fingerprint] returns and logs, by the file it finds. *)
Definition fingerprint_of (file : option meta_file) : option json * list log_record :=
  match file with
  | None => (None, [])
  | Some (JsonText v) => (Some v, [])
  | Some Unreadable => (None, [FingerprintLoadFailed])
  end.

(** The warnings of the two comparisons, on the members of a fingerprint
    object. *)
Definition mismatch_warnings (name : string) (ix : VectorIndex)
    (members : list (string * json)) : list log_record :=
  (if ne_str (dict_get members "model_name" JNull) name
   then [ModelMismatch name (dict_get members "model_name" (JStr "UNKNOWN"))]
   else [])
  ++ (if ne_int (dict_get members "embedding_dim" JNull) (d ix)
      then [DimensionMismatch (d ix)
              (dict_get members "embedding_dim" (JStr "UNKNOWN"))]
      else []).

(** ** More collaborators and corpora *)

(** An index that, like the faiss wrapper, asserts [k > 0] before it
    searches. *)
Definition asserting_index (ranking : list (Qc * Z)) : VectorIndex :=
  {| d := 2;
     ix_search := λ _ k,
       if 0 <? k then Ok (take (Z.to_nat k) ranking) else Raise AssertionError |}.

Definition asserting_store : VectorStore :=
  {| model_name := "all-MiniLM-L6-v2"; model := Some demo_model;
     index := Some (asserting_index demo_ranking); job_metadata := Some demo_md |}.

(** A corpus in which the same posting appears under two ids, and an index
    that gives both copies the same similarity. *)
Definition tie_rows : list CsvRow :=
  [ {| csv_id := 101; csv_title := Some "Data Analyst";
       csv_company := Some "Globex"; csv_location := Some "Berlin";
       csv_jd_text := Some "Reports with Python"; csv_skills := Some "python" |};
    {| csv_id := 102; csv_title := Some "Data Analyst";
       csv_company := Some "Globex"; csv_location := Some "Berlin";
       csv_jd_text := Some "Reports with Python"; csv_skills := Some "python" |};
    {| csv_id := 103; csv_title := Some "Java Backend Developer";
       csv_company := Some "Acme"; csv_location := Some "Remote";
       csv_jd_text := Some "Build services in Java and Spring Boot";
       csv_skills := Some "java,spring boot" |} ].

Definition tie_files : Files :=
  {| jobs_enhanced_csv := None;
     jobs_csv := Some {| columns := columns demo_df; rows := tie_rows |};
     jobs_faiss := None; jobs_meta_parquet := None; model_meta_json := None |}.

Definition tie_ranking : list (Qc * Z) :=
  [ (Q2Qc 0.6, 0); (Q2Qc 0.6, 1); (Q2Qc 0.5, 2) ].

Definition tie_store : VectorStore :=
  {| model_name := "all-MiniLM-L6-v2"; model := Some demo_model;
     index := Some (demo_index tie_ranking);
     job_metadata := Some (meta_of_row true <$> tie_rows) |}.

Definition tie_job0 : JobMeta :=
  {| job_id := 101; title := Some "Data Analyst"; company := Some "Globex";
     location := Some "Berlin"; skills := Some (Some "python") |}.
Definition tie_job1 : JobMeta :=
  {| job_id := 102; title := Some "Data Analyst"; company := Some "Globex";
     location := Some "Berlin"; skills := Some (Some "python") |}.
Definition tie_job2 : JobMeta :=
  {| job_id := 103; title := Some "Java Backend Developer"; company := Some "Acme";
     location := Some "Remote"; skills := Some (Some "java,spring boot") |}.

(** The files of the demo build with the fingerprint replaced by the JSON
    text [[1]]. *)
Definition demo_built_with_list_fingerprint : Files :=
  {| jobs_enhanced_csv := jobs_enhanced_csv demo_built.2;
     jobs_csv := jobs_csv demo_built.2;
     jobs_faiss := jobs_faiss demo_built.2;
     jobs_meta_parquet := jobs_meta_parquet demo_built.2;
     model_meta_json := Some (JsonText (JList [JInt 1])) |}.
(** * Properties *)

(** The text scans and the score arithmetic are never unfolded by
    simplification; closed instances are evaluated. *)
Arguments extract_skills : simpl never.
Arguments detect_role : simpl never.
Arguments _jaccard_similarity : simpl never.
Arguments composite_score : simpl never.
Arguments below_threshold : simpl never.
Arguments role_gate : simpl never.
Arguments role_filter : simpl never.

(** ** Examples on concrete texts *)

Example detect_role_fs : detect_role "Senior React and Node developer" = "fullstack".
Proof. vm_compute. reflexivity. Qed.

Example detect_role_dv : detect_role "Terraform, Kubernetes, AWS" = "devops".
Proof. vm_compute. reflexivity. Qed.

Example detect_role_mixed : detect_role "Java developer using Docker and AWS" = "general".
Proof. vm_compute. reflexivity. Qed.

Example extract_skills_ex :
  extract_skills "Java and Spring Boot" = {[ "java"; "spring boot" ]}.
Proof. vm_compute. reflexivity. Qed.

Example jaccard_ex :
  _jaccard_similarity {[ "java"; "react" ]} {[ "java"; "docker" ]} = Q2Qc (1 # 3).
Proof. apply Qc_is_canon. vm_compute. reflexivity. Qed.

Example split_on_ex : split_on "," "java,spring, boot," = ["java"; "spring"; " boot"; ""].
Proof. reflexivity. Qed.

(** ** Role classifier *)

Lemma hits_nonneg keywords t : 0 ≤ hits keywords t.
Proof. unfold hits. lia. Qed.

(** The decision rule over the two counts. *)
Lemma detect_role_cases (t : string) :
  (detect_role t = "fullstack" ∨ detect_role t = "devops" ∨ detect_role t = "general")
  ∧ (fs_hits t = 0 ∧ dv_hits t = 0 → detect_role t = "general")
  ∧ (detect_role t = "fullstack" ↔ 2 * dv_hits t < fs_hits t)
  ∧ (detect_role t = "devops" ↔ 2 * fs_hits t < dv_hits t)
  ∧ (detect_role t = "general" ↔
       ¬ 2 * dv_hits t < fs_hits t ∧ ¬ 2 * fs_hits t < dv_hits t).
Proof.
  pose proof (hits_nonneg fullstack_keywords (lower t)) as Hfs.
  pose proof (hits_nonneg devops_keywords (lower t)) as Hdv.
  fold (fs_hits t) in Hfs. fold (dv_hits t) in Hdv.
  unfold detect_role.
  generalize dependent (fs_hits t). generalize dependent (dv_hits t).
  intros dv Hdv fs Hfs.
  destruct (Z.eqb_spec fs 0) as [Hf0|Hf0];
    destruct (Z.eqb_spec dv 0) as [Hd0|Hd0]; cbn [andb];
    destruct (Z.ltb_spec (dv * 2) fs);
    destruct (Z.ltb_spec (fs * 2) dv).
  all: repeat split; intros; try discriminate; try lia; auto.
Qed.
(** Substring occurrence, as the scan decides it and as the specification
    words it. *)
Lemma prefix_spec (k t : string) :
  String.prefix k t = true ↔ ∃ after, t = k +:+ after.
Proof.
  revert t. induction k as [|a k IH]; intros t.
  - split; [intros _; by exists t|by destruct t].
  - destruct t as [|b t]; cbn [String.prefix].
    + split; [done|]. by intros [after [=]].
    + destruct (ascii_dec a b) as [<-|Hab].
      * rewrite IH. split; intros [after H]; exists after.
        -- cbn. by rewrite H.
        -- by injection H.
      * split; [done|]. intros [after H]. injection H as H _. congruence.
Qed.

Lemma contains_spec (k t : string) : contains k t = true ↔ occurs_in k t.
Proof.
  unfold occurs_in. induction t as [|c t IH]; cbn [contains].
  - rewrite orb_false_r, prefix_spec. split.
    + intros [after H]. by exists "", after.
    + intros ([|? ?] & after & H); [by exists after|discriminate].
  - rewrite orb_true_iff, prefix_spec, IH. split.
    + intros [[after H]|(before & after & H)].
      * by exists "", after.
      * exists (String c before), after. cbn. by rewrite H.
    + intros ([|c' before] & after & H).
      * left. by exists after.
      * right. injection H as _ H. by exists before, after.
Qed.

(** The counter of [detect_role] is the count of the specification, and
    that count is unique. *)
Lemma keyword_count_hits (keywords : gset string) (text : string) :
  keyword_count keywords text (hits keywords (lower text)).
Proof.
  exists (filter (λ k, contains k (lower text) = true) keywords).
  split; [|reflexivity].
  intros k. rewrite elem_of_filter, contains_spec. tauto.
Qed.

Lemma keyword_count_unique (keywords : gset string) (text : string) (n m : Z) :
  keyword_count keywords text n → keyword_count keywords text m → n = m.
Proof.
  intros (found1 & H1 & ->) (found2 & H2 & ->).
  assert (found1 = found2) as ->; [|done].
  apply set_eq. intros k. by rewrite H1, H2.
Qed.

(** C3. For every text, [detect_role] answers fullstack, devops or general.
    With the two keyword counts taken as the specification words them (the
    number of keywords of the set that occur in the lower-cased text), which
    are the counters the code computes: it answers general when both counts
    are zero (so on the empty text), fullstack exactly when the fullstack
    count exceeds twice the devops count, devops exactly when the devops
    count exceeds twice the fullstack count, and general in every other
    case. *)
Theorem detect_role_decision (t : string) (fs dv : Z) :
  keyword_count fullstack_keywords t fs →
  keyword_count devops_keywords t dv →
  (fs_hits t = fs ∧ dv_hits t = dv)
  ∧ (detect_role t = "fullstack" ∨ detect_role t = "devops" ∨ detect_role t = "general")
  ∧ (fs = 0 ∧ dv = 0 → detect_role t = "general")
  ∧ detect_role "" = "general"
  ∧ (detect_role t = "fullstack" ↔ 2 * dv < fs)
  ∧ (detect_role t = "devops" ↔ 2 * fs < dv)
  ∧ (detect_role t = "general" ↔ ¬ 2 * dv < fs ∧ ¬ 2 * fs < dv).
Proof.
  intros Hfs Hdv.
  assert (fs_hits t = fs) as Efs
    by exact (keyword_count_unique _ _ _ _ (keyword_count_hits _ _) Hfs).
  assert (dv_hits t = dv) as Edv
    by exact (keyword_count_unique _ _ _ _ (keyword_count_hits _ _) Hdv).
  destruct (detect_role_cases t) as (H1 & H2 & H3 & H4 & H5).
  rewrite Efs, Edv in H2, H3, H4, H5.
  split; [by split|]. split; [exact H1|]. split; [exact H2|]. split.
  { vm_compute. reflexivity. }
  split; [exact H3|]. split; [exact H4|exact H5].
Qed.

(** ** Jaccard similarity *)

Lemma true_div_self (n : Z) : n ≠ 0 → true_div n n = Q2Qc 1.
Proof.
  intros Hn. unfold true_div, Qcdiv. apply Qcmult_inv_r.
  intros H. apply Q2Qc_eq_iff in H. unfold Qeq in H. simpl in H. lia.
Qed.

(** C8. Jaccard similarity is symmetric, is 1 on a non-empty set paired
    with itself, and is 0 on two empty sets. *)
Theorem jaccard_properties (A B : gset string) :
  _jaccard_similarity A B = _jaccard_similarity B A
  ∧ (A ≠ ∅ → _jaccard_similarity A A = Q2Qc 1.0)
  ∧ _jaccard_similarity ∅ ∅ = Q2Qc 0.0.
Proof.
  split; [|split].
  - unfold _jaccard_similarity.
    assert (A ∩ B = B ∩ A) as -> by apply (comm_L (∩)).
    assert (A ∪ B = B ∪ A) as -> by apply (comm_L (∪)).
    rewrite (andb_comm (bool_decide (A = ∅))). reflexivity.
  - intros HA. unfold _jaccard_similarity.
    rewrite (bool_decide_eq_false_2 _ HA). simpl.
    assert (A ∩ A = A) as -> by apply (idemp_L (∩)).
    assert (A ∪ A = A) as -> by apply (idemp_L (∪)).
    assert (size A ≠ 0%nat) as Hsz by (by apply size_non_empty_iff; intros ->%leibniz_equiv).
    destruct (Z.ltb_spec 0 (Z.of_nat (size A))); [|lia].
    rewrite true_div_self by lia. apply Qc_is_canon. vm_compute. reflexivity.
  - apply Qc_is_canon. vm_compute. reflexivity.
Qed.

Lemma jaccard_properties_witness :
  ({[ "java" ]} : gset string) ≠ ∅
  ∧ _jaccard_similarity {[ "java" ]} {[ "java" ]} = Q2Qc 1.0.
Proof.
  split.
  - apply (bool_decide_unpack _). vm_compute. exact I.
  - apply (jaccard_properties {[ "java" ]} ∅).
    apply (bool_decide_unpack _). vm_compute. exact I.
Defined.

(** ** Adaptive threshold *)

Lemma Qc_const_lt (a b : Qc) : bool_decide (a < b)%Qc = true → (a < b)%Qc.
Proof. apply bool_decide_eq_true_1. Qed.

Lemma floor_lt_min_threshold role : (Q2Qc 0.15 < min_threshold role)%Qc.
Proof.
  unfold min_threshold.
  repeat case_bool_decide; apply Qc_const_lt; vm_compute; reflexivity.
Qed.

Lemma below_threshold_false_iff role n top_k s :
  below_threshold role n top_k s = false
  ↔ (min_threshold role ≤ s)%Qc ∨ (n < top_k ∧ ¬ (s < Q2Qc 0.15)%Qc).
Proof.
  unfold below_threshold.
  rewrite andb_false_iff, orb_false_iff, !bool_decide_eq_false, Z.leb_gt.
  split.
  - intros [H|[H1 H2]]; [left; by apply Qcnot_lt_le | right; done].
  - intros [H|[H1 H2]]; [left; by apply Qcle_not_lt | right; done].
Qed.

Lemma below_threshold_at_floor role n top_k :
  n < top_k → below_threshold role n top_k (Q2Qc 0.15) = false.
Proof.
  intros Hn. apply below_threshold_false_iff. right. split; [done|].
  apply Qcle_not_lt, Qcle_refl.
Qed.

Lemma below_threshold_under_floor role n top_k s :
  (s < Q2Qc 0.15)%Qc → below_threshold role n top_k s = true.
Proof.
  intros Hs. unfold below_threshold.
  rewrite (bool_decide_eq_true_2 _ Hs), orb_true_r, andb_true_r.
  apply bool_decide_eq_true_2.
  eapply Qclt_trans; [exact Hs|apply floor_lt_min_threshold].
Qed.

(** ** The candidate loop, one iteration at a time *)

Section LoopFacts.

Variable md : list JobMeta.
Variable filtered : list (Z * JobMeta).
Variable df : DataFrame.
Variable role : string.
Variable top_k : Z.
Variable resume_skills : gset string.

Abbreviation body' := (body md filtered df role top_k resume_skills).
Abbreviation loop' := (candidate_loop md filtered df role top_k resume_skills).

(** What an iteration that returns can have done: skipped the candidate
    before touching the state, recorded its job id only, or recorded the id
    and appended its dictionary. *)
Lemma body_inv st sim idx f :
  body' st (sim, idx) = Ok f →
  f = Continue st
  ∨ ∃ info, idx < len md ∧ (idx ∉ seen_jobs st) ∧ iloc md idx = Ok info
      ∧ (job_id info ∉ seen_jobs st)
      ∧ let seen := seen_jobs st ∪ {[job_id info]} in
        f = Continue {| results := results st; seen_jobs := seen |}
        ∨ ∃ job_skills,
            reaches_scoring md filtered df role st idx info job_skills
            ∧ let r := result_for resume_skills sim info job_skills in
              let st' := {| results := results st ++ [r]; seen_jobs := seen |} in
              below_threshold role (len (results st)) top_k (score r) = false
              ∧ f = if top_k <=? len (results st') then Break st' else Continue st'.
Proof.
  unfold body. intros H.
  destruct (Z.leb_spec (len md) idx) as [Hr|Hr]; cbn [orb] in H;
    [left; congruence|].
  case_bool_decide as Hseen; [left; congruence|].
  destruct (iloc md idx) as [info|] eqn:Hinfo; cbn in H; [|discriminate].
  case_bool_decide as Hid; [left; congruence|].
  right. exists info. repeat (split; [done|]). cbn zeta.
  destruct (role_gate role filtered idx) eqn:Hgate; [left; congruence|].
  destruct (iloc (rows df) idx) as [row|] eqn:Hrow; cbn in H; [|discriminate].
  unfold require_column in H. case_bool_decide as Hcol; cbn in H; [|discriminate].
  destruct (cell_lower (csv_jd_text row)) eqn:Hjd; cbn in H; [|discriminate].
  destruct (cell_lower (title info)) eqn:Htitle; cbn in H; [|discriminate].
  destruct (job_skills_of info (csv_jd_text row)) as [job_skills|] eqn:Hsk;
    cbn in H; [|discriminate].
  match type of H with
  | (if ?b then _ else _) = _ => destruct b eqn:Hthr
  end; [left; congruence|].
  right. exists job_skills. split.
  - repeat (split; [done|]). exists row. rewrite Hjd, Htitle. done.
  - split; [exact Hthr|]. unfold result_for. cbn. 
    destruct (top_k <=? _); congruence.
Qed.

(** The iteration on a candidate that reaches the threshold test. *)
Lemma body_scoring st sim idx info job_skills :
  reaches_scoring md filtered df role st idx info job_skills →
  let seen := seen_jobs st ∪ {[job_id info]} in
  let r := result_for resume_skills sim info job_skills in
  let st' := {| results := results st ++ [r]; seen_jobs := seen |} in
  body' st (sim, idx) =
    Ok (if below_threshold role (len (results st)) top_k (score r)
        then Continue {| results := results st; seen_jobs := seen |}
        else if top_k <=? len (results st') then Break st' else Continue st').
Proof.
  intros (Hr & Hseen & Hinfo & Hid & Hgate & row & Hrow & Hcol & Hjd & Htitle & Hsk).
  unfold body.
  destruct (Z.leb_spec (len md) idx) as [?|_]; [lia|]. cbn [orb].
  rewrite (bool_decide_eq_false_2 _ Hseen), Hinfo. cbn.
  rewrite (bool_decide_eq_false_2 _ Hid), Hgate, Hrow. cbn.
  unfold require_column. rewrite (bool_decide_eq_true_2 _ Hcol). cbn.
  destruct (cell_lower (csv_jd_text row)); [|discriminate]. cbn.
  destruct (cell_lower (title info)); [|discriminate]. cbn.
  rewrite Hsk. cbn. unfold result_for. cbn.
  repeat match goal with |- context [if ?b then _ else _] => destruct b end;
    reflexivity.
Qed.

(** Invariants of the loop: [P] holds of every state an iteration continues
    from, [Q] of the state the loop ends in. *)
Lemma candidate_loop_inv (P Q : LoopState → Prop) cands :
  (∀ st, P st → Q st) →
  (∀ st c st', c ∈ cands → P st → body' st c = Ok (Continue st') → P st') →
  (∀ st c st', c ∈ cands → P st → body' st c = Ok (Break st') → Q st') →
  ∀ st0 st, P st0 → loop' cands st0 = Ok st → Q st.
Proof.
  intros HPQ Hcont Hbreak.
  assert (∀ cs, cs ⊆ cands → ∀ st0 st, P st0 → loop' cs st0 = Ok st → Q st) as Hgen.
  { induction cs as [|c cs IH]; intros Hsub st0 st HP Hrun; cbn in Hrun.
    - injection Hrun as <-. by apply HPQ.
    - assert (c ∈ cands) as Hc by (apply Hsub; left).
      destruct (body' st0 c) as [[st1|st1]|] eqn:Hbody; cbn in Hrun.
      + eapply IH; [|eapply Hcont; eauto|exact Hrun].
        intros x Hx. apply Hsub. by right.
      + injection Hrun as <-. eapply Hbreak; eauto.
      + discriminate. }
  intros st0 st. by apply Hgen.
Qed.

End LoopFacts.

Lemma accepted_iff md filtered df role top_k resume_skills st sim idx info job_skills :
  reaches_scoring md filtered df role st idx info job_skills →
  let r := result_for resume_skills sim info job_skills in
  accepted md filtered df role top_k resume_skills st (sim, idx) r
  ↔ below_threshold role (len (results st)) top_k (score r) = false.
Proof.
  intros Hreach r. unfold accepted.
  rewrite (body_scoring _ _ _ _ _ _ _ _ _ _ _ Hreach). fold r.
  destruct (below_threshold role (len (results st)) top_k (score r)); split.
  - intros (f & [= <-] & Hres). cbn in Hres.
    apply (f_equal length) in Hres. rewrite length_app in Hres. cbn in Hres. lia.
  - discriminate.
  - done.
  - intros _. eexists. split; [reflexivity|]. by destruct (top_k <=? _).
Qed.

(** C1. The role thresholds are 0.25, 0.22 and 0.20.  A candidate that
    reaches the threshold test with composite score s is accepted exactly
    when s is at least the role threshold, or fewer than top_k results have
    been accepted and s is not below 0.15.  So a score of exactly 0.15 is
    accepted while the result count is below top_k, and a score below 0.15
    is never accepted. *)
Theorem threshold_acceptance md filtered df role top_k resume_skills st sim idx
    info job_skills :
  reaches_scoring md filtered df role st idx info job_skills →
  let r := result_for resume_skills sim info job_skills in
  let s := score r in
  let acc := accepted md filtered df role top_k resume_skills st (sim, idx) r in
  (min_threshold "fullstack" = Q2Qc 0.25
   ∧ min_threshold "devops" = Q2Qc 0.22
   ∧ min_threshold "general" = Q2Qc 0.20)
  ∧ (acc ↔ (min_threshold role ≤ s)%Qc
            ∨ (len (results st) < top_k ∧ ¬ (s < Q2Qc 0.15)%Qc))
  ∧ (s = Q2Qc 0.15 → len (results st) < top_k → acc)
  ∧ ((s < Q2Qc 0.15)%Qc → ¬ acc).
Proof.
  intros Hreach r s acc.
  pose proof (accepted_iff _ _ _ _ top_k resume_skills _ sim _ _ _ Hreach) as Hacc.
  cbn zeta in Hacc. fold r in Hacc. fold s acc in Hacc.
  split; [|split; [|split]].
  - repeat split; vm_compute; reflexivity.
  - rewrite Hacc. apply below_threshold_false_iff.
  - intros Hs Hn. apply Hacc. rewrite Hs. by apply below_threshold_at_floor.
  - intros Hs Ha. apply Hacc in Ha.
    rewrite (below_threshold_under_floor _ _ _ _ Hs) in Ha. discriminate.
Qed.

(** Closed facts are settled by evaluation. *)
Ltac by_compute :=
  first [ apply (bool_decide_unpack _); vm_compute; exact I
        | vm_compute; reflexivity ].

Lemma demo_reaches_scoring0 :
  reaches_scoring demo_md (role_filter "general" demo_md) demo_df "general"
    initial_state 0 demo_job0 demo_skills0.
Proof.
  unfold reaches_scoring.
  split; [by_compute|]. split; [apply not_elem_of_empty|].
  split; [by_compute|]. split; [apply not_elem_of_empty|].
  split; [by_compute|].
  exists {| csv_id := 1; csv_title := Some "Java Backend Developer";
            csv_company := Some "Acme"; csv_location := Some "Remote";
            csv_jd_text := Some "Build services in Java and Spring Boot";
            csv_skills := Some "java,spring" |}.
  split; [by_compute|]. split; [by_compute|].
  split; [by_compute|]. split; by_compute.
Qed.

Lemma threshold_acceptance_witness :
  reaches_scoring demo_md (role_filter "general" demo_md) demo_df "general"
    initial_state 0 demo_job0 demo_skills0
  ∧ accepted demo_md (role_filter "general" demo_md) demo_df "general" 5 ∅
      initial_state (Q2Qc 0.9, 0) (result_for ∅ (Q2Qc 0.9) demo_job0 demo_skills0).
Proof.
  split; [exact demo_reaches_scoring0|].
  destruct (threshold_acceptance _ _ _ _ 5 ∅ _ (Q2Qc 0.9) _ _ _
              demo_reaches_scoring0) as (_ & Hiff & _).
  apply Hiff. left. by_compute.
Defined.

(** ** A composite score of 0.18 *)

Lemma demo_reaches_scoring2 :
  reaches_scoring demo_md (role_filter "general" demo_md) demo_df "general"
    initial_state 2 demo_job2 demo_skills2.
Proof.
  unfold reaches_scoring.
  split; [by_compute|]. split; [apply not_elem_of_empty|].
  split; [by_compute|]. split; [apply not_elem_of_empty|].
  split; [by_compute|].
  exists {| csv_id := 3; csv_title := Some "Data Analyst";
            csv_company := Some "Globex"; csv_location := Some "Berlin";
            csv_jd_text := Some "Reports with Python and PostgreSQL";
            csv_skills := Some "" |}.
  split; [by_compute|]. split; [by_compute|].
  split; [by_compute|]. split; by_compute.
Qed.

Lemma demo_score_018 :
  score (result_for ∅ (Q2Qc (18 # 77)) demo_job2 demo_skills2) = Q2Qc 0.18.
Proof. by_compute. Qed.

(** C2, as stated, fails: with no result accepted yet and top_k = 5, the
    general-role candidate at row 2 has composite score 0.18 and the
    iteration appends it. *)
Lemma score_018_is_accepted :
  let r := result_for ∅ (Q2Qc (18 # 77)) demo_job2 demo_skills2 in
  score r = Q2Qc 0.18
  ∧ len (results initial_state) < 5
  ∧ body demo_md (role_filter "general" demo_md) demo_df "general" 5 ∅
      initial_state (Q2Qc (18 # 77), 2)
    = Ok (Continue {| results := [r]; seen_jobs := {[ 3 ]} |}).
Proof.
  cbv zeta. split; [by_compute|]. split; by_compute.
Qed.

Lemma score_018_below_every_threshold role : (Q2Qc 0.18 < min_threshold role)%Qc.
Proof.
  unfold min_threshold.
  repeat case_bool_decide; apply Qc_const_lt; vm_compute; reflexivity.
Qed.

(** C2, amended. For any role, a candidate whose composite score is 0.18
    is accepted exactly when fewer than top_k results have been accepted so
    far: 0.18 is below every role threshold but not below the 0.15 floor,
    so it is dropped only once top_k results are in. *)
Theorem score_018_accepted_iff_room md filtered df role top_k resume_skills st
    sim idx info job_skills :
  reaches_scoring md filtered df role st idx info job_skills →
  let r := result_for resume_skills sim info job_skills in
  score r = Q2Qc 0.18 →
  accepted md filtered df role top_k resume_skills st (sim, idx) r
  ↔ len (results st) < top_k.
Proof.
  intros Hreach r Hs. unfold r in *. clear r.
  rewrite (accepted_iff _ _ _ _ top_k resume_skills _ sim _ _ _ Hreach).
  rewrite Hs, below_threshold_false_iff. split.
  - intros [H|[H _]]; [|done].
    by apply Qcle_not_lt in H; destruct H; apply score_018_below_every_threshold.
  - intros H. right. split; [done|]. apply Qcle_not_lt. by_compute.
Qed.

Lemma score_018_accepted_iff_room_witness :
  reaches_scoring demo_md (role_filter "general" demo_md) demo_df "general"
    initial_state 2 demo_job2 demo_skills2
  ∧ score (result_for ∅ (Q2Qc (18 # 77)) demo_job2 demo_skills2) = Q2Qc 0.18
  ∧ (accepted demo_md (role_filter "general" demo_md) demo_df "general" 5 ∅
       initial_state (Q2Qc (18 # 77), 2)
       (result_for ∅ (Q2Qc (18 # 77)) demo_job2 demo_skills2)
     ↔ len (results initial_state) < 5).
Proof.
  split; [exact demo_reaches_scoring2|]. split; [exact demo_score_018|].
  exact (score_018_accepted_iff_room _ _ _ _ 5 ∅ _ (Q2Qc (18 # 77)) _ _ _
           demo_reaches_scoring2 demo_score_018).
Defined.

(** ** From the loop to the returned list *)

Lemma insert_by_score_perm x l : insert_by_score x l ≡ₚ x :: l.
Proof.
  induction l as [|y l IH]; cbn; [done|].
  case_bool_decide; [|done]. rewrite IH. apply Permutation_swap.
Qed.

Lemma sort_by_score_perm l : sort_by_score l ≡ₚ l.
Proof.
  induction l as [|x l IH]; cbn; [done|].
  rewrite insert_by_score_perm. by constructor.
Qed.

Lemma validate_take top_k jobs validated :
  ∃ n, validate top_k jobs validated = validated ++ take n jobs.
Proof.
  revert validated. induction jobs as [|job rest IH]; intros validated; cbn.
  - exists 0%nat. by rewrite app_nil_r.
  - destruct (top_k <=? len (validated ++ [job])).
    + by exists 1%nat.
    + destruct (IH (validated ++ [job])) as [n Hn]. exists (S n).
      rewrite Hn, <- app_assoc. done.
Qed.

Lemma slice_to_take {A} (l : list A) k : ∃ n, slice_to l k = take n l.
Proof. unfold slice_to. destruct (0 <=? k); eauto. Qed.

Lemma slice_to_length {A} (l : list A) k : 0 ≤ k → len (slice_to l k) ≤ k.
Proof.
  intros Hk. unfold slice_to, len.
  destruct (Z.leb_spec 0 k); [|lia]. rewrite length_take. lia.
Qed.

Lemma bind_Ok_inv {A B} (m : result A) (k : A → result B) b :
  (m ≫= k) = Ok b → ∃ a, m = Ok a ∧ k a = Ok b.
Proof. destruct m as [a|e]; [eauto|discriminate]. Qed.

Lemma from_option_Ok_inv {A} (o : option A) e a :
  from_option Ok (Raise e) o = Ok a → o = Some a.
Proof. destruct o; cbn; congruence. Qed.

(** A search that returns went through every stage, and what it returns is
    a prefix of the accepted results in score order. *)
Lemma search_inv env fs self query top_k role rs :
  search env fs self query top_k role = Ok rs →
  ∃ md df cands st,
    search_run env fs self query top_k role md df cands st
    ∧ (0 ≤ top_k → len rs ≤ top_k)
    ∧ ∃ n, rs = take n (sort_by_score (results st)).
Proof.
  unfold search, search_run. intros H.
  destruct (index self) as [ix|]; [|discriminate].
  destruct (job_metadata self) as [md|]; [|discriminate].
  apply bind_Ok_inv in H as (m & Hm%from_option_Ok_inv & H).
  apply bind_Ok_inv in H as (qe & Hqe & H).
  apply bind_Ok_inv in H as (cands & Hcands & H).
  apply bind_Ok_inv in H as ([name df] & Hcsv%from_option_Ok_inv & H).
  apply bind_Ok_inv in H as (st & Hloop & H).
  injection H as <-.
  exists md, df, cands, st. split; [|split].
  - split; [done|]. split; [by exists ix, m, qe|]. split; [by exists name|].
    exact Hloop.
  - apply slice_to_length.
  - destruct (slice_to_take
      (validate top_k
         (slice_to (sort_by_score (results st))
            (Z.min (top_k * 2) (len (sort_by_score (results st))))) []) top_k)
      as [n1 ->].
    destruct (validate_take top_k
         (slice_to (sort_by_score (results st))
            (Z.min (top_k * 2) (len (sort_by_score (results st))))) [])
      as [n2 ->].
    destruct (slice_to_take (sort_by_score (results st))
            (Z.min (top_k * 2) (len (sort_by_score (results st))))) as [n3 ->].
    rewrite app_nil_l, !take_take. eauto.
Qed.

(** ** Invariants of the candidate loop *)

Section LoopInvariants.

Variable md : list JobMeta.
Variable filtered : list (Z * JobMeta).
Variable df : DataFrame.
Variable role : string.
Variable top_k : Z.
Variable resume_skills : gset string.

Abbreviation body'' := (body md filtered df role top_k resume_skills).
Abbreviation loop'' := (candidate_loop md filtered df role top_k resume_skills).

(** The three shapes of [body_inv], on the result list and the seen set. *)
Lemma body_effect st sim idx f :
  body'' st (sim, idx) = Ok f →
  (results (flow_state f) = results st ∧ seen_jobs st ⊆ seen_jobs (flow_state f))
  ∨ ∃ info job_skills,
      reaches_scoring md filtered df role st idx info job_skills
      ∧ let r := result_for resume_skills sim info job_skills in
        below_threshold role (len (results st)) top_k (score r) = false
        ∧ results (flow_state f) = results st ++ [r]
        ∧ seen_jobs (flow_state f) = seen_jobs st ∪ {[job_id info]}
        ∧ (f = Break (flow_state f) ↔ top_k ≤ len (results st) + 1).
Proof.
  intros H. apply body_inv in H as [->|(info & Hr & Hseen & Hinfo & Hid & H)].
  { left. done. }
  cbn zeta in H. destruct H as [->|(job_skills & Hreach & Hthr & ->)].
  { left. cbn. split; [done|]. set_solver. }
  right. exists info, job_skills. split; [done|]. cbn zeta. split; [done|].
  unfold len. cbn [results]. rewrite length_app. cbn [length].
  destruct (Z.leb_spec top_k (Z.of_nat (length (results st) + 1))); cbn;
    repeat split; try done; try lia; try discriminate.
Qed.

Lemma loop_results_scored cands st :
  loop'' cands initial_state = Ok st →
  Forall (scored_from md filtered df role top_k resume_skills cands) (results st).
Proof.
  set (P := λ s : LoopState,
         Forall (scored_from md filtered df role top_k resume_skills cands) (results s)).
  assert (∀ s c f, c ∈ cands → P s → body'' s c = Ok f → P (flow_state f)) as Hstep.
  { intros s [sim idx] f Hc HP Hb. unfold P in *.
    apply body_effect in Hb as [[-> _]|(info & job_skills & Hreach & Hb)]; [done|].
    cbn zeta in Hb. destruct Hb as (Hthr & -> & _).
    apply Forall_app. split; [done|]. apply Forall_singleton.
    exists sim, idx, info, job_skills, s. done. }
  apply (candidate_loop_inv _ _ _ _ _ _ P P); [done| | |by constructor].
  - intros s c s' Hc HP Hb. apply (Hstep s c (Continue s')); done.
  - intros s c s' Hc HP Hb. apply (Hstep s c (Break s')); done.
Qed.

Lemma loop_results_nodup cands st :
  loop'' cands initial_state = Ok st →
  NoDup (result_ids (results st))
  ∧ ∀ i, i ∈ result_ids (results st) → i ∈ seen_jobs st.
Proof.
  set (P := λ s : LoopState,
         NoDup (result_ids (results s))
         ∧ ∀ i, i ∈ result_ids (results s) → i ∈ seen_jobs s).
  assert (∀ s c f, P s → body'' s c = Ok f → P (flow_state f)) as Hstep.
  { intros s [sim idx] f [Hnd Hsub] Hb. unfold P.
    apply body_effect in Hb as [[-> Hseen]|(info & job_skills & Hreach & Hb)].
    { split; [done|]. intros i Hi. apply Hseen, Hsub, Hi. }
    cbn zeta in Hb. destruct Hb as (_ & -> & -> & _).
    destruct Hreach as (_ & _ & _ & Hid & _).
    unfold result_ids in *. rewrite fmap_app. cbn. split.
    - apply NoDup_app. split; [done|]. split; [|apply NoDup_singleton].
      intros i Hi ->%list_elem_of_singleton. apply Hid, Hsub, Hi.
    - intros i [Hi| ->%list_elem_of_singleton]%elem_of_app; [|set_solver].
      apply elem_of_union_l, Hsub, Hi. }
  apply (candidate_loop_inv _ _ _ _ _ _ P P); [done| | |].
  - intros s c s' _ HP Hb. apply (Hstep s c (Continue s')); done.
  - intros s c s' _ HP Hb. apply (Hstep s c (Break s')); done.
  - split; [constructor|]. cbn. intros i Hi. by apply elem_of_nil in Hi.
Qed.

Lemma loop_results_length cands st :
  0 < top_k → loop'' cands initial_state = Ok st → len (results st) ≤ top_k.
Proof.
  intros Hk.
  apply (candidate_loop_inv _ _ _ _ _ _
           (λ s, len (results s) < top_k) (λ s, len (results s) ≤ top_k)).
  - intros s Hs. lia.
  - intros s [sim idx] s' _ HP Hb. cbn beta in HP |- *.
    apply body_effect in Hb as [[Hres _]|(info & job_skills & _ & Hb)].
    { cbn in Hres. by rewrite Hres. }
    cbn zeta in Hb. destruct Hb as (_ & Hres & _ & Hbreak). cbn in Hres, Hbreak.
    rewrite Hres. unfold len in *. rewrite length_app. cbn [length].
    destruct (Z.le_gt_cases top_k (Z.of_nat (length (results s)) + 1)) as [Hle|Hgt];
      [|lia].
    apply Hbreak in Hle. discriminate.
  - intros s [sim idx] s' _ HP Hb. cbn beta in HP |- *.
    apply body_effect in Hb as [[Hres _]|(info & job_skills & _ & Hb)].
    { cbn in Hres. rewrite Hres. lia. }
    cbn zeta in Hb. destruct Hb as (_ & Hres & _ & _). cbn in Hres.
    rewrite Hres. unfold len in *. rewrite length_app. cbn [length]. lia.
  - unfold len. cbn. lia.
Qed.

End LoopInvariants.

(** ** Facts about frames *)

Lemma iloc_Ok_inv {A} (frame : list A) idx x :
  iloc frame idx = Ok x →
  x ∈ frame ∧ (0 ≤ idx → frame !! Z.to_nat idx = Some x).
Proof.
  unfold iloc. intros H.
  destruct (Z.leb_spec 0 idx) as [Hi|Hi].
  - destruct (Z.ltb_spec idx 0); [lia|].
    destruct (frame !! Z.to_nat idx) as [y|] eqn:Hy; [|discriminate].
    injection H as <-. split; [|done]. by eapply list_elem_of_lookup_2.
  - destruct (len frame + idx <? 0); [discriminate|].
    destruct (frame !! Z.to_nat (len frame + idx)) as [y|] eqn:Hy; [|discriminate].
    injection H as <-. split; [|lia]. by eapply list_elem_of_lookup_2.
Qed.

Lemma iloc_in_range {A} (frame : list A) idx :
  - len frame ≤ idx < len frame → ∃ x, iloc frame idx = Ok x.
Proof.
  unfold iloc, len. intros Hr.
  destruct (Z.leb_spec 0 idx) as [Hi|Hi].
  - destruct (Z.ltb_spec idx 0); [lia|].
    destruct (lookup_lt_is_Some_2 frame (Z.to_nat idx)) as [x ->]; [lia|eauto].
  - destruct (Z.ltb_spec (Z.of_nat (length frame) + idx) 0); [lia|].
    destruct (lookup_lt_is_Some_2 frame (Z.to_nat (Z.of_nat (length frame) + idx)))
      as [x ->]; [lia|eauto].
Qed.

Lemma elem_of_labelled {A} (frame : list A) i x :
  (i, x) ∈ labelled frame ↔ 0 ≤ i ∧ frame !! Z.to_nat i = Some x.
Proof.
  unfold labelled. rewrite elem_of_lookup_imap. split.
  - intros (n & y & [= -> ->] & Hy). rewrite Nat2Z.id. split; [lia|done].
  - intros [Hi Hx]. exists (Z.to_nat i), x. split; [|done]. f_equal. lia.
Qed.

Lemma role_filter_labelled role md p : p ∈ role_filter role md → p ∈ labelled md.
Proof.
  unfold role_filter. repeat case_bool_decide; try done;
    by intros [_ ?]%list_elem_of_filter.
Qed.

(** ** Shape of the returned list *)

Lemma take_sort_elem n l r : r ∈ take n (sort_by_score l) → r ∈ l.
Proof.
  intros Hr. apply (subseteq_take n) in Hr.
  by rewrite sort_by_score_perm in Hr.
Qed.

Lemma take_sort_nodup n l :
  NoDup (result_ids l) → NoDup (result_ids (take n (sort_by_score l))).
Proof.
  intros Hnd. unfold result_ids in *. rewrite fmap_take.
  eapply sublist_NoDup; [|apply sublist_take].
  by rewrite sort_by_score_perm.
Qed.

(** Every returned result was appended by the loop of that search, and the
    returned job ids are pairwise distinct. *)
Lemma search_results env fs self query top_k role rs :
  search env fs self query top_k role = Ok rs →
  ∃ md df cands st,
    search_run env fs self query top_k role md df cands st
    ∧ (0 ≤ top_k → len rs ≤ top_k)
    ∧ NoDup (result_ids rs)
    ∧ Forall (scored_from md (role_filter (effective_role query role) md) df
                (effective_role query role) top_k (extract_skills query) cands) rs.
Proof.
  intros (md & df & cands & st & Hrun & Hlen & n & ->)%search_inv.
  exists md, df, cands, st. split; [done|]. split; [done|].
  destruct Hrun as (_ & _ & _ & Hloop). split.
  - apply take_sort_nodup. by apply loop_results_nodup in Hloop as [? _].
  - apply loop_results_scored in Hloop.
    rewrite Forall_forall in Hloop |- *.
    intros r Hr%take_sort_elem. by apply Hloop.
Qed.

(** ** Deduplication *)

(** C6. The job ids of the results a search returns are pairwise distinct:
    two positions of the returned list never carry the same job id, so of
    index rows resolving to one id at most one is returned. *)
Theorem search_results_distinct_job_ids env fs self query top_k role rs :
  search env fs self query top_k role = Ok rs →
  NoDup (result_ids rs)
  ∧ ∀ i j r1 r2, rs !! i = Some r1 → rs !! j = Some r2 →
      job_id (job_info r1) = job_id (job_info r2) → i = j.
Proof.
  intros (md & df & cands & st & _ & _ & Hnd & _)%search_results.
  split; [done|]. intros i j r1 r2 Hi Hj Heq.
  eapply NoDup_lookup; [exact Hnd| |].
  - unfold result_ids. rewrite list_lookup_fmap, Hi. reflexivity.
  - unfold result_ids. rewrite list_lookup_fmap, Hj. cbn. by rewrite Heq.
Qed.

Lemma dup_search :
  search (demo_env true) dup_files dup_store "java developer" 5 (Some "general")
  = Ok [ result_for {[ "java" ]} (Q2Qc 0.9) dup_job0 {[ "java" ]} ].
Proof. by_compute. Qed.

Lemma search_results_distinct_job_ids_witness :
  search (demo_env true) dup_files dup_store "java developer" 5 (Some "general")
  = Ok [ result_for {[ "java" ]} (Q2Qc 0.9) dup_job0 {[ "java" ]} ]
  ∧ NoDup (result_ids [ result_for {[ "java" ]} (Q2Qc 0.9) dup_job0 {[ "java" ]} ]).
Proof.
  split; [exact dup_search|].
  exact (proj1 (search_results_distinct_job_ids _ _ _ _ _ _ _ dup_search)).
Defined.

(** ** No raise on a well-formed store *)

Section LoopRuns.

Variable md : list JobMeta.
Variable filtered : list (Z * JobMeta).
Variable df : DataFrame.
Variable role : string.
Variable top_k : Z.
Variable resume_skills : gset string.

Hypothesis Hcol : "jd_text" ∈ columns df.
Hypothesis Haligned : length (rows df) = length md.
Hypothesis Hjd : Forall (λ row, csv_jd_text row ≠ None) (rows df).
Hypothesis Hmd : Forall (λ info, title info ≠ None ∧ skills info ≠ Some None) md.

Lemma body_returns st sim idx :
  - len md ≤ idx →
  ∃ f, body md filtered df role top_k resume_skills st (sim, idx) = Ok f.
Proof.
  intros Hidx. unfold body.
  destruct (Z.leb_spec (len md) idx) as [?|Hlt]; cbn [orb]; [eauto|].
  case_bool_decide; [eauto|].
  destruct (iloc_in_range md idx) as [info Hinfo]; [lia|]. rewrite Hinfo. cbn.
  case_bool_decide; [eauto|].
  destruct (role_gate role filtered idx); [eauto|].
  destruct (iloc_in_range (rows df) idx) as [row Hrow]; [unfold len in *; lia|].
  rewrite Hrow. cbn.
  unfold require_column. rewrite (bool_decide_eq_true_2 _ Hcol). cbn.
  apply iloc_Ok_inv in Hinfo as [Hinfo _]. apply iloc_Ok_inv in Hrow as [Hrow _].
  pose proof (proj1 (Forall_forall _ _) Hjd row Hrow) as Hjd'.
  destruct (proj1 (Forall_forall _ _) Hmd info Hinfo) as [Ht Hs].
  destruct (csv_jd_text row) as [jd|] eqn:Ejd; [|done]. cbn.
  destruct (title info) as [t|]; [|done]. cbn.
  assert (∃ sk, job_skills_of info (Some jd) = Ok sk) as [sk ->].
  { unfold job_skills_of. destruct (skills info) as [[s|]|]; cbn; [|done|eauto].
    case_bool_decide; eauto. }
  cbn. repeat match goal with |- context [if ?b then _ else _] => destruct b end;
    eauto.
Qed.

Lemma candidate_loop_returns cands st :
  (∀ sim idx, (sim, idx) ∈ cands → - len md ≤ idx) →
  ∃ st', candidate_loop md filtered df role top_k resume_skills cands st = Ok st'.
Proof.
  revert st. induction cands as [|[sim idx] cs IH]; intros st Hc;
    cbn [candidate_loop]; [eauto|].
  destruct (body_returns st sim idx) as [f ->]; [apply (Hc sim); left|].
  cbn [mbind result_bind Py.bind].
  destruct f as [st1|st1]; [|eauto].
  apply IH. intros s i Hi. apply (Hc s). by right.
Qed.

End LoopRuns.

(** ** Size of the answer *)

Lemma scored_from_in_md md filtered df role top_k resume_skills cands r :
  scored_from md filtered df role top_k resume_skills cands r → job_info r ∈ md.
Proof.
  intros (sim & idx & info & job_skills & st & _ & Hreach & -> & _).
  destruct Hreach as (_ & _ & Hinfo & _). cbn. by apply iloc_Ok_inv in Hinfo as [? _].
Qed.

Lemma search_ready_returns env fs self query top_k role md :
  search_ready env fs self query top_k md →
  ∃ rs, search env fs self query top_k role = Ok rs.
Proof.
  intros (Hmd & ix & m & qe & cands & name & df & Hix & Hm & Hqe & Hcands & Hidx
          & Hcsv & Hcol & Hal & Hjd & Htitle).
  unfold search. rewrite Hix, Hmd, Hm. cbn [from_option mbind result_bind Py.bind].
  rewrite Hqe. cbn [mbind result_bind Py.bind].
  unfold search_k. rewrite Hcands, Hcsv. cbn [from_option mbind result_bind Py.bind snd].
  destruct (candidate_loop_returns md
              (role_filter (default (detect_role query) role) md) df
              (default (detect_role query) role) top_k (extract_skills query)
              Hcol Hal Hjd Htitle cands {| results := []; seen_jobs := ∅ |} Hidx)
    as [st' ->].
  cbn [mbind result_bind Py.bind]. eauto.
Qed.

(** C7. For a positive top_k, a search returns at most top_k results and at
    most as many as the corpus has rows; the vector index is asked for
    k = min(top_k * 20, corpus_size) neighbours; and on a well-formed store
    whose index answers that request the search returns (it does not raise),
    however much top_k exceeds the corpus size. *)
Theorem search_size_bounds env fs self query top_k role md :
  0 < top_k → job_metadata self = Some md →
  (∀ rs, search env fs self query top_k role = Ok rs →
     len rs ≤ top_k ∧ len rs ≤ len md
     ∧ ∃ ix m qe cands,
         index self = Some ix ∧ model self = Some m
         ∧ encode m [Some query] = Ok qe
         ∧ ix_search ix (_normalize_embeddings env qe)
             (Z.min (top_k * 20) (len md)) = Ok cands)
  ∧ search_k top_k md = Z.min (top_k * 20) (len md)
  ∧ (search_ready env fs self query top_k md →
     ∃ rs, search env fs self query top_k role = Ok rs).
Proof.
  intros Hk Hmd. split; [|split; [reflexivity|apply search_ready_returns]].
  intros rs (md' & df & cands & st & Hrun & Hlen & Hnd & Hsc)%search_results.
  destruct Hrun as (Hmd' & (ix & m & qe & Hix & Hm & Hqe & Hcands) & _ & _).
  assert (md' = md) as -> by congruence.
  split; [apply Hlen; lia|]. split.
  - assert (result_ids rs ⊆+ job_id <$> md) as Hsub.
    { apply NoDup_submseteq; [done|].
      intros i (r & -> & Hr)%list_elem_of_fmap.
      apply list_elem_of_fmap. exists (job_info r). split; [done|].
      rewrite Forall_forall in Hsc. eapply scored_from_in_md, Hsc, Hr. }
    apply submseteq_length in Hsub. unfold result_ids in Hsub.
    rewrite !length_fmap in Hsub. unfold len. lia.
  - exists ix, m, qe, cands. done.
Qed.

(** The boundary case of a corpus of three jobs searched with top_k = 5. *)
Lemma demo_search_ready :
  search_ready (demo_env true) demo_files (demo_store demo_ranking) demo_query 5
    demo_md.
Proof.
  split; [reflexivity|].
  exists (demo_index demo_ranking), demo_model, [[Q2Qc 1; Q2Qc 0]], demo_ranking,
    "jobs.csv"%string, demo_df.
  split; [reflexivity|]. split; [reflexivity|]. split; [reflexivity|].
  split; [by_compute|]. split.
  { assert (Forall (λ c : Qc * Z, - len demo_md ≤ c.2) demo_ranking) as HF
      by by_compute.
    intros sim idx H. exact (proj1 (Forall_forall _ _) HF _ H). }
  split; [reflexivity|]. split; [by_compute|]. split; [reflexivity|].
  split; by_compute.
Qed.

Lemma search_size_bounds_witness :
  0 < 5
  ∧ job_metadata (demo_store demo_ranking) = Some demo_md
  ∧ search_ready (demo_env true) demo_files (demo_store demo_ranking) demo_query 5
      demo_md
  ∧ len demo_md < 5
  ∧ ∃ rs, search (demo_env true) demo_files (demo_store demo_ranking) demo_query 5
            None = Ok rs
          ∧ len rs ≤ 5 ∧ len rs ≤ len demo_md.
Proof.
  split; [lia|]. split; [reflexivity|]. split; [exact demo_search_ready|].
  split; [by_compute|].
  destruct (search_size_bounds (demo_env true) demo_files
              (demo_store demo_ranking) demo_query 5 None demo_md
              ltac:(lia) eq_refl) as (Hbound & _ & Hret).
  destruct (Hret demo_search_ready) as [rs Hrs].
  exists rs. split; [exact Hrs|].
  destruct (Hbound rs Hrs) as (H1 & H2 & _). split; [exact H1|exact H2].
Defined.

(** ** Role gate *)

Lemma elem_of_role_filter_fullstack md p :
  p ∈ role_filter "fullstack" md
  ↔ p ∈ labelled md ∧ str_contains fullstack_title_pattern (title p.2) = true.
Proof.
  unfold role_filter. rewrite bool_decide_eq_true_2 by done.
  rewrite list_elem_of_filter. tauto.
Qed.

Lemma elem_of_role_filter_devops md p :
  p ∈ role_filter "devops" md
  ↔ p ∈ labelled md ∧ str_contains devops_title_pattern (title p.2) = true.
Proof.
  unfold role_filter. rewrite bool_decide_eq_false_2 by done.
  rewrite bool_decide_eq_true_2 by done.
  rewrite list_elem_of_filter. tauto.
Qed.

Lemma role_gate_passed role filtered md idx info :
  role ≠ "general" → filtered ≠ [] →
  (∀ p, p ∈ filtered → p ∈ labelled md) →
  role_gate role filtered idx = false → iloc md idx = Ok info →
  (idx, info) ∈ filtered.
Proof.
  intros Hrole Hne Hsub Hgate Hinfo. unfold role_gate, in_index in Hgate.
  rewrite (bool_decide_eq_false_2 _ Hrole) in Hgate.
  destruct (Z.ltb_spec 0 (len filtered)) as [_|Hlen].
  2:{ destruct filtered; [done|]. unfold len in Hlen. cbn in Hlen. lia. }
  cbn [andb negb] in Hgate. rewrite andb_true_r in Hgate.
  apply negb_false_iff, bool_decide_eq_true_1 in Hgate.
  apply list_elem_of_fmap in Hgate as ([i info'] & -> & Hp). cbn in *.
  pose proof (Hsub _ Hp) as [Hi Hl]%elem_of_labelled.
  apply iloc_Ok_inv in Hinfo as [_ Hinfo]. rewrite (Hinfo Hi) in Hl.
  by injection Hl as ->.
Qed.

(** C5. When the role is fullstack or devops and the title pre-filter keeps
    at least one row, every result a search returns is one of the kept rows
    (so its title matches the role's pattern, case-insensitively); the
    pre-filter keeps exactly the rows whose title matches; with role general
    no row is filtered out and the gate never rejects a candidate. *)
Theorem role_filter_is_hard_gate env fs self query top_k role md :
  (∀ rs, job_metadata self = Some md →
     let r := effective_role query role in
     r = "fullstack" ∨ r = "devops" →
     role_filter r md ≠ [] →
     search env fs self query top_k role = Ok rs →
     ∀ res, res ∈ rs →
       (∃ idx, (idx, job_info res) ∈ role_filter r md)
       ∧ (r = "fullstack" →
          str_contains fullstack_title_pattern (title (job_info res)) = true)
       ∧ (r = "devops" →
          str_contains devops_title_pattern (title (job_info res)) = true))
  ∧ (∀ p, (p ∈ role_filter "fullstack" md
           ↔ p ∈ labelled md
             ∧ str_contains fullstack_title_pattern (title p.2) = true)
          ∧ (p ∈ role_filter "devops" md
             ↔ p ∈ labelled md
               ∧ str_contains devops_title_pattern (title p.2) = true))
  ∧ role_filter "general" md = labelled md
  ∧ (∀ filtered idx, role_gate "general" filtered idx = false).
Proof.
  split; [|split; [|split]].
  - intros rs Hmd r Hr Hne
      (md' & df & cands & st & Hrun & _ & _ & Hsc)%search_results res Hres.
    destruct Hrun as (Hmd' & _). assert (md' = md) as -> by congruence.
    rewrite Forall_forall in Hsc.
    destruct (Hsc res Hres)
      as (sim & idx & info & job_skills & st0 & _ & Hreach & -> & _).
    destruct Hreach as (_ & _ & Hinfo & _ & Hgate & _). fold r in Hgate.
    assert ((idx, info) ∈ role_filter r md) as Hin.
    { eapply role_gate_passed; try done.
      - destruct Hr as [-> | ->]; done.
      - apply role_filter_labelled. }
    cbn. split; [by exists idx|]. split; intros Hr'; rewrite Hr' in Hin.
    + by apply elem_of_role_filter_fullstack in Hin as [_ ?].
    + by apply elem_of_role_filter_devops in Hin as [_ ?].
  - intros p. split;
      [apply elem_of_role_filter_fullstack|apply elem_of_role_filter_devops].
  - unfold role_filter. by rewrite !bool_decide_eq_false_2 by done.
  - intros filtered idx. unfold role_gate.
    rewrite (bool_decide_eq_true_2 ("general" = "general")) by done.
    cbn. by rewrite andb_false_r.
Qed.

Lemma demo_search_fullstack :
  search (demo_env true) demo_files (demo_store demo_ranking) demo_query 5 None
  = Ok [ result_for (extract_skills demo_query) (Q2Qc 0.9) demo_job0 demo_skills0 ].
Proof. by_compute. Qed.

Lemma role_filter_is_hard_gate_witness :
  job_metadata (demo_store demo_ranking) = Some demo_md
  ∧ effective_role demo_query None = "fullstack"
  ∧ role_filter (effective_role demo_query None) demo_md ≠ []
  ∧ search (demo_env true) demo_files (demo_store demo_ranking) demo_query 5 None
    = Ok [ result_for (extract_skills demo_query) (Q2Qc 0.9) demo_job0 demo_skills0 ]
  ∧ ∃ idx, (idx, demo_job0) ∈ role_filter (effective_role demo_query None) demo_md.
Proof.
  assert (effective_role demo_query None = "fullstack") as Hrole by by_compute.
  assert (role_filter (effective_role demo_query None) demo_md ≠ []) as Hne
    by by_compute.
  split; [reflexivity|]. split; [exact Hrole|]. split; [exact Hne|].
  split; [exact demo_search_fullstack|].
  refine (proj1 (proj1 (role_filter_is_hard_gate (demo_env true) demo_files
            (demo_store demo_ranking) demo_query 5 None demo_md) _ eq_refl
            (or_introl Hrole) Hne demo_search_fullstack
            (result_for (extract_skills demo_query) (Q2Qc 0.9) demo_job0 demo_skills0)
            _)).
  apply list_elem_of_singleton. reflexivity.
Defined.

(** ** Composite score *)

Lemma jaccard_eq_formula A B : _jaccard_similarity A B = jaccard_formula A B.
Proof.
  unfold _jaccard_similarity, jaccard_formula.
  rewrite <- bool_decide_and. case_bool_decide as Hboth; [done|].
  assert (size (A ∪ B) ≠ 0%nat) as Hsz.
  { apply size_non_empty_iff. intros HAB%leibniz_equiv. apply Hboth.
    apply empty_union_L in HAB. done. }
  destruct (Z.ltb_spec 0 (Z.of_nat (size (A ∪ B)))); [done|lia].
Qed.

Lemma composite_eq_formula raw skill :
  composite_score raw skill = composite_formula raw skill.
Proof.
  unfold composite_score, composite_formula, Py.min. cbv zeta.
  assert ((Q2Qc 0.70 * raw + Q2Qc 0.30 * skill) * Q2Qc 1.1
          = Q2Qc 1.1 * (Q2Qc 0.70 * raw + Q2Qc 0.30 * skill))%Qc as -> by ring.
  repeat case_bool_decide; try done.
  - exfalso. eapply Qclt_not_le; eauto.
  - exfalso. match goal with H : ¬ (_ ≤ _)%Qc |- _ => apply H end.
    by apply Qcnot_lt_le.
Qed.

(** C4. Every result a search returns carries the composite score
    min(1.1 * (0.70 * raw_similarity + 0.30 * skillOverlap), 1.0), where the
    raw similarity is the one the vector index gave for the job's row and
    skillOverlap is |intersection| / |union| of the query's skills and the
    job's skills, 0 when both sets are empty. *)
Theorem composite_score_formula env fs self query top_k role rs :
  search env fs self query top_k role = Ok rs →
  ∀ r, r ∈ rs →
    score r = composite_formula (similarity r) (skillOverlap r)
    ∧ ∃ md df cands st idx row job_skills,
        search_run env fs self query top_k role md df cands st
        ∧ (similarity r, idx) ∈ cands
        ∧ iloc md idx = Ok (job_info r)
        ∧ iloc (rows df) idx = Ok row
        ∧ job_skills_of (job_info r) (csv_jd_text row) = Ok job_skills
        ∧ skillOverlap r = jaccard_formula (extract_skills query) job_skills.
Proof.
  intros (md & df & cands & st & Hrun & _ & _ & Hsc)%search_results r Hr.
  rewrite Forall_forall in Hsc.
  destruct (Hsc r Hr) as (sim & idx & info & job_skills & st0 & Hc & Hreach & -> & _).
  destruct Hreach as (_ & _ & Hinfo & _ & _ & row & Hrow & _ & _ & _ & Hsk).
  unfold result_for. cbn [score similarity skillOverlap job_info]. split.
  - apply composite_eq_formula.
  - exists md, df, cands, st, idx, row, job_skills.
    repeat (split; [done|]). apply jaccard_eq_formula.
Qed.

Lemma composite_score_formula_witness :
  search (demo_env true) demo_files (demo_store demo_ranking) demo_query 5 None
  = Ok [ result_for (extract_skills demo_query) (Q2Qc 0.9) demo_job0 demo_skills0 ]
  ∧ score (result_for (extract_skills demo_query) (Q2Qc 0.9) demo_job0 demo_skills0)
    = composite_formula (Q2Qc 0.9) (Q2Qc (1 # 3)).
Proof.
  split; [exact demo_search_fullstack|].
  destruct (composite_score_formula _ _ _ _ _ _ _
              demo_search_fullstack
              (result_for (extract_skills demo_query) (Q2Qc 0.9) demo_job0 demo_skills0))
    as [Hscore _].
  { apply list_elem_of_singleton. reflexivity. }
  rewrite Hscore. by_compute.
Defined.

(** ** Row indices against the set of seen job ids *)

Lemma body_skips_seen_index md filtered df role top_k resume_skills st sim idx :
  idx ∈ seen_jobs st →
  body md filtered df role top_k resume_skills st (sim, idx) = Ok (Continue st).
Proof.
  intros Hseen. unfold body.
  by rewrite (bool_decide_eq_true_2 _ Hseen), orb_true_r.
Qed.

Lemma loop_seen_are_job_ids md filtered df role top_k resume_skills cands st :
  candidate_loop md filtered df role top_k resume_skills cands initial_state = Ok st →
  ∀ j, j ∈ seen_jobs st →
    ∃ sim idx info, (sim, idx) ∈ cands ∧ iloc md idx = Ok info ∧ job_id info = j.
Proof.
  set (P := λ s : LoopState, ∀ j, j ∈ seen_jobs s →
         ∃ sim idx info, (sim, idx) ∈ cands ∧ iloc md idx = Ok info ∧ job_id info = j).
  assert (∀ s c f, c ∈ cands → P s →
            body md filtered df role top_k resume_skills s c = Ok f →
            P (flow_state f)) as Hstep.
  { intros s [sim idx] f Hc HP Hb j.
    apply body_effect in Hb as Heff.
    apply body_inv in Hb as [->|(info & _ & _ & Hinfo & _ & Hb)]; [apply HP|].
    assert (seen_jobs (flow_state f) = seen_jobs s ∪ {[job_id info]}) as ->.
    { cbn zeta in Hb. destruct Hb as [->|(job_skills & _ & _ & ->)]; [done|].
      by destruct (top_k <=? _). }
    intros [Hj| ->%elem_of_singleton]%elem_of_union; [by apply HP|].
    by exists sim, idx, info. }
  apply (candidate_loop_inv _ _ _ _ _ _ P P); [done| | |].
  - intros s c s' Hc HP Hb. apply (Hstep s c (Continue s')); done.
  - intros s c s' Hc HP Hb. apply (Hstep s c (Break s')); done.
  - intros j Hj. cbn in Hj. by apply not_elem_of_empty in Hj.
Qed.

Lemma demo_search_general :
  search (demo_env true) demo_files (demo_store demo_ranking) demo_query 5
    (Some "general")
  = Ok [ result_for (extract_skills demo_query) (Q2Qc 0.9) demo_job0 demo_skills0;
         result_for (extract_skills demo_query) (Q2Qc 0.4) demo_job2 demo_skills2 ].
Proof. by_compute. Qed.

Lemma demo_search_job1_alone :
  search (demo_env true) demo_files (demo_store [ (Q2Qc 0.6, 1) ]) demo_query 5
    (Some "general")
  = Ok [ result_for (extract_skills demo_query) (Q2Qc 0.6) demo_job1 demo_skills1 ].
Proof. by_compute. Qed.

Lemma demo_body_skips_row1 :
  let st := {| results :=
                 [ result_for (extract_skills demo_query) (Q2Qc 0.9) demo_job0
                     demo_skills0 ];
               seen_jobs := {[ 1 ]} |} in
  iloc demo_md 1 = Ok demo_job1
  ∧ (job_id demo_job1 ∉ seen_jobs st)
  ∧ body demo_md (role_filter "general" demo_md) demo_df "general" 5
      (extract_skills demo_query) st (Q2Qc 0.6, 1) = Ok (Continue st).
Proof. cbv zeta. split; [by_compute|]. split; by_compute. Qed.

(** C10. The seen set of the candidate loop holds job ids (each of its
    elements is the id of the metadata row of an earlier candidate), yet a
    candidate is skipped, with no effect on the state, as soon as its row
    index is in that set.  So a job can be left out only because its row
    index equals an earlier job's id: in the demo corpus, whose ids are 1, 2,
    3 on rows 0, 1, 2, the job at row 1 (id 2, not yet seen) is skipped after
    row 0 (id 1) was processed and is missing from the answer, although the
    same candidate is accepted when it comes alone. *)
Theorem row_index_tested_against_job_ids :
  (∀ md filtered df role top_k resume_skills st sim idx,
     idx ∈ seen_jobs st →
     body md filtered df role top_k resume_skills st (sim, idx) = Ok (Continue st))
  ∧ (∀ md filtered df role top_k resume_skills cands st,
       candidate_loop md filtered df role top_k resume_skills cands initial_state
       = Ok st →
       ∀ j, j ∈ seen_jobs st →
         ∃ sim idx info, (sim, idx) ∈ cands ∧ iloc md idx = Ok info ∧ job_id info = j)
  ∧ (let r0 := result_for (extract_skills demo_query) (Q2Qc 0.9) demo_job0 demo_skills0 in
     let r1 := result_for (extract_skills demo_query) (Q2Qc 0.6) demo_job1 demo_skills1 in
     let r2 := result_for (extract_skills demo_query) (Q2Qc 0.4) demo_job2 demo_skills2 in
     let st := {| results := [r0]; seen_jobs := {[ 1 ]} |} in
     iloc demo_md 1 = Ok demo_job1
     ∧ (job_id demo_job1 ∉ seen_jobs st)
     ∧ body demo_md (role_filter "general" demo_md) demo_df "general" 5
         (extract_skills demo_query) st (Q2Qc 0.6, 1) = Ok (Continue st)
     ∧ search (demo_env true) demo_files (demo_store demo_ranking) demo_query 5
         (Some "general") = Ok [r0; r2]
     ∧ search (demo_env true) demo_files (demo_store [ (Q2Qc 0.6, 1) ]) demo_query 5
         (Some "general") = Ok [r1]).
Proof.
  split; [exact body_skips_seen_index|]. split; [exact loop_seen_are_job_ids|].
  cbv zeta. destruct demo_body_skips_row1 as (H1 & H2 & H3).
  split; [exact H1|]. split; [exact H2|]. split; [exact H3|].
  split; [exact demo_search_general|exact demo_search_job1_alone].
Qed.

(** ** Index builder: what a failed build leaves on disk *)

Arguments require_column : simpl never.

(** C9, as stated, fails: the metadata write fails after the index blob was
    written; the build raises, and the blob is on disk without the metadata
    and the fingerprint. *)
Lemma failed_build_leaves_index_blob :
  artifacts (snd demo_world) = (false, false, false)
  ∧ fst (build_index (demo_env false) demo_world) = Raise (IOError "jobs_meta.parquet")
  ∧ artifacts (snd (snd (build_index (demo_env false) demo_world)))
    = (true, false, false).
Proof. split; [by_compute|]. split; by_compute. Qed.

(** Runs of the primitive steps. *)
Lemma M_bind_inv {A B} (m : M A) (k : A → M B) w r w' :
  (m ≫= k) w = (r, w') →
  (∃ e, m w = (Raise e, w') ∧ r = Raise e)
  ∨ (∃ a w1, m w = (Ok a, w1) ∧ k a w1 = (r, w')).
Proof.
  unfold mbind, M_bind. destruct (m w) as [[a|e] w1]; intros H.
  - right. eauto.
  - left. injection H as <- <-. eauto.
Qed.

Lemma lift_inv {A} (x : result A) w r w' : lift x w = (r, w') → r = x ∧ w' = w.
Proof. unfold lift. by intros [= <- <-]. Qed.

Lemma _load_model_inv env w r w' : _load_model env w = (r, w') → snd w' = snd w.
Proof.
  unfold _load_model. intros [(e & [= <- _] & _)|(self & w1 & [= <- <-] & H)]%M_bind_inv.
  destruct (model w.1).
  - by injection H as <- <-.
  - apply M_bind_inv in H as [(e & [_ ->]%lift_inv & _)|(m & w1 & [_ ->]%lift_inv & H)];
      [done|].
    by injection H as <- <-.
Qed.

Lemma _save_index_inv env w r w' :
  _save_index env w = (r, w') →
  (∃ e, r = Raise e ∧ w' = w)
  ∨ (∃ ix, r = Ok () ∧ index w.1 = Some ix ∧ w' = (w.1, write_jobs_faiss ix w.2)).
Proof.
  unfold _save_index.
  intros [(e & [= <- _] & _)|(self & w1 & [= <- <-] & H)]%M_bind_inv.
  destruct (index w.1) as [ix|]; [destruct (write_index_ok env)|];
    injection H as <- <-; eauto.
Qed.

Lemma _save_metadata_inv env w r w' :
  _save_metadata env w = (r, w') →
  (∃ e, r = Raise e ∧ w' = w
        ∧ (job_metadata w.1 = None ∨ to_parquet_ok env = false))
  ∨ (∃ md, r = Ok () ∧ job_metadata w.1 = Some md
       ∧ w' = (w.1, write_jobs_meta_parquet md w.2)).
Proof.
  unfold _save_metadata.
  intros [(e & [= <- _] & _)|(self & w1 & [= <- <-] & H)]%M_bind_inv.
  destruct (job_metadata w.1) as [md|]; [destruct (to_parquet_ok env) eqn:Hp|];
    injection H as <- <-; eauto 6.
Qed.

Lemma _save_model_fingerprint_inv env csv w r w' :
  _save_model_fingerprint env csv w = (r, w') →
  (∃ e, r = Raise e ∧ w' = w ∧ json_dump_ok env = false)
  ∨ (∃ fp, r = Ok () ∧ w' = (w.1, write_model_meta_json fp w.2)).
Proof.
  unfold _save_model_fingerprint.
  intros [(e & [= <- _] & _)|(self & w1 & [= <- <-] & H)]%M_bind_inv.
  destruct (json_dump_ok env) eqn:Hj; injection H as <- <-; eauto 6.
Qed.

(** The persistence sequence at the end of a build, started from a store
    that holds its metadata: the store is not touched, and what is written
    is what the store holds. *)
Lemma save_sequence_inv env csv w r w' :
  is_Some (job_metadata w.1) →
  (_save_index env ≫= λ _, _save_metadata env
                 ≫= λ _, _save_model_fingerprint env csv) w = (r, w') →
  w'.1 = w.1
  ∧ ((∃ e, r = Raise e
        ∧ (w'.2 = w.2
           ∨ (to_parquet_ok env = false
              ∧ ∃ ix, index w.1 = Some ix ∧ w'.2 = write_jobs_faiss ix w.2)
           ∨ (json_dump_ok env = false
              ∧ ∃ ix md, index w.1 = Some ix ∧ job_metadata w.1 = Some md
                  ∧ w'.2 = write_jobs_meta_parquet md (write_jobs_faiss ix w.2))))
     ∨ (∃ ix md fp, r = Ok () ∧ index w.1 = Some ix ∧ job_metadata w.1 = Some md
          ∧ w'.2 = write_model_meta_json fp
                     (write_jobs_meta_parquet md (write_jobs_faiss ix w.2)))).
Proof.
  intros [md0 Hmd0] H.
  apply M_bind_inv in H as [(e & H & ->)|([] & w1 & H1 & H)].
  { apply _save_index_inv in H as [(e' & _ & ->)|(ix & [=] & _)].
    split; [done|]. left. eauto. }
  apply _save_index_inv in H1 as [(e' & [=] & _)|(ix & _ & Hix & ->)].
  apply M_bind_inv in H as [(e & H & ->)|([] & w2 & H2 & H)].
  { apply _save_metadata_inv in H as [(e' & _ & -> & Hwhy)|(md & [=] & _)].
    split; [done|]. left. exists e. split; [done|]. right. left.
    destruct Hwhy as [Hnone|Hp]; [cbn in Hnone; congruence|].
    split; [done|]. by exists ix. }
  apply _save_metadata_inv in H2 as [(e' & [=] & _)|(md & _ & Hmd & ->)].
  cbn [fst] in Hmd.
  apply _save_model_fingerprint_inv in H as [(e & -> & -> & Hj)|(fp & -> & ->)].
  - split; [done|]. left. exists e. split; [done|]. right. right.
    split; [done|]. by exists ix, md.
  - split; [done|]. right. by exists ix, md, fp.
Qed.

(** Every run of [build_index]: it raises with the files as they were, or
    part-way through the persistence sequence, or it returns with all three
    artifacts written; what is on disk is what the store holds. *)
Lemma build_index_inv env w r w' :
  build_index env w = (r, w') →
  (∃ e, r = Raise e
        ∧ (w'.2 = w.2
           ∨ (to_parquet_ok env = false
              ∧ ∃ ix, index w'.1 = Some ix ∧ w'.2 = write_jobs_faiss ix w.2)
           ∨ (json_dump_ok env = false
              ∧ ∃ ix md, index w'.1 = Some ix ∧ job_metadata w'.1 = Some md
                  ∧ w'.2 = write_jobs_meta_parquet md (write_jobs_faiss ix w.2))))
  ∨ (∃ ix md fp, r = Ok () ∧ index w'.1 = Some ix ∧ job_metadata w'.1 = Some md
       ∧ w'.2 = write_model_meta_json fp
                  (write_jobs_meta_parquet md (write_jobs_faiss ix w.2))).
Proof.
  unfold build_index. intros H.
  apply M_bind_inv in H as [(e & H & ->)|([] & w1 & Hload & H)].
  { apply _load_model_inv in H. left. eauto. }
  apply _load_model_inv in Hload.
  apply M_bind_inv in H as [(e & [= <- _] & _)|(fs & w2 & [= <- <-] & H)].
  destruct (find_csv w1.2) as [[csv_name df]|].
  2:{ injection H as <- <-. left. eauto. }
  apply M_bind_inv in H as [(e & [_ ->]%lift_inv & ->)|(? & w2 & [_ ->]%lift_inv & H)].
  { left. eauto. }
  apply M_bind_inv in H as [(e & [= <- _] & _)|([] & w2 & [= <-] & H)].
  apply M_bind_inv in H as [(e & [_ ->]%lift_inv & ->)|(? & w2 & [_ ->]%lift_inv & H)].
  { left. eauto. }
  apply M_bind_inv in H as [(e & [= <- _] & _)|(self & w2 & [= <- <-] & H)].
  cbn [fst] in H. destruct (model _) as [m|].
  2:{ injection H as <- <-. left. eauto. }
  apply M_bind_inv in H as [(e & [_ ->]%lift_inv & ->)|(emb & w2 & [_ ->]%lift_inv & H)].
  { left. eauto. }
  apply M_bind_inv in H as [(e & [_ ->]%lift_inv & ->)|(dim & w2 & [_ ->]%lift_inv & H)].
  { left. eauto. }
  apply M_bind_inv in H as [(e & [= <- _] & _)|([] & w2 & [= <-] & H)].
  apply save_sequence_inv in H as [Hself H]; [|by eexists].
  cbn [fst snd] in H, Hself. rewrite Hload in H. rewrite Hself.
  destruct H as [H|H]; [by left|by right].
Qed.

Lemma build_index_without_corpus env w :
  find_csv w.2 = None →
  ∃ e w', build_index env w = (Raise e, w') ∧ w'.2 = w.2.
Proof.
  intros Hcsv. unfold build_index.
  unfold mbind at 1. unfold M_bind at 1.
  destruct (_load_model env w) as [[[]|e] w1] eqn:Hload;
    apply _load_model_inv in Hload; [|eauto].
  unfold mbind at 1. unfold M_bind at 1. unfold get_files at 1.
  rewrite Hload, Hcsv. unfold raise. eauto.
Qed.

Lemma _load_model_run env self fs :
  _load_model env (self, fs)
  = match with_model env self with
    | Ok self1 => (Ok (), (self1, fs))
    | Raise e => (Raise e, (self, fs))
    end.
Proof.
  unfold _load_model, with_model, get_self, set_self, lift, mbind, M_bind, mret,
    M_ret. cbn [fst snd].
  destruct (model self); [done|].
  by destruct (SentenceTransformer env (model_name self)).
Qed.

Lemma with_model_Ok env self self1 :
  with_model env self = Ok self1 →
  is_Some (model self1) ∧ model_name self1 = model_name self
  ∧ index self1 = index self ∧ job_metadata self1 = job_metadata self.
Proof.
  unfold with_model. destruct (model self) as [m|] eqn:Hm.
  - intros [= <-]. rewrite Hm. eauto.
  - destruct (SentenceTransformer env (model_name self)) as [m|]; [|discriminate].
    intros [= <-]. cbn. eauto.
Qed.

(** A run of [build_index] from the point where the model is loaded and the
    corpus file has its columns: the outcome at each step that can fail. *)
Lemma build_index_steps env self fs self1 m name df :
  with_model env self = Ok self1 →
  model self1 = Some m →
  find_csv fs = Some (name, df) →
  Forall (λ col, col ∈ columns df) ["id"; "title"; "company"; "location"; "jd_text"] →
  build_index env (self, fs)
  = let md := meta_of_row (bool_decide ("skills" ∈ columns df)) <$> rows df in
    match encode m (csv_jd_text <$> rows df) with
    | Raise e => (Raise e, (set_job_metadata md self1, fs))
    | Ok emb =>
        match dimension_of (_normalize_embeddings env emb) with
        | Raise e => (Raise e, (set_job_metadata md self1, fs))
        | Ok dim =>
            let ix := IndexFlatIP env dim (_normalize_embeddings env emb) in
            let built := set_index ix (set_job_metadata md self1) in
            if write_index_ok env then
              if to_parquet_ok env then
                if json_dump_ok env then
                  (Ok (),
                   (built,
                    write_model_meta_json
                      {| fp_model_name := model_name self1;
                         fp_embedding_dim := Some (d ix);
                         fp_source_csv := name |}
                      (write_jobs_meta_parquet md (write_jobs_faiss ix fs))))
                else
                  (Raise (IOError "model_meta.json"),
                   (built, write_jobs_meta_parquet md (write_jobs_faiss ix fs)))
              else (Raise (IOError "jobs_meta.parquet"), (built, write_jobs_faiss ix fs))
            else (Raise (IOError "jobs.faiss"), (built, fs))
        end
    end.
Proof.
  intros Hwm Hm Hcsv Hcols. unfold build_index.
  unfold mbind at 1. unfold M_bind at 1. rewrite _load_model_run, Hwm.
  unfold mbind at 1. unfold M_bind at 1. unfold get_files at 1. cbn [snd].
  rewrite Hcsv.
  assert (∀ col, col ∈ ["id"; "title"; "company"; "location"; "jd_text"] →
                 require_column df col = Ok ()) as Hreq.
  { intros col Hcol. unfold require_column.
    rewrite bool_decide_eq_true_2; [done|].
    by apply (proj1 (Forall_forall _ _) Hcols). }
  assert (mapM (require_column df) ["id"; "title"; "company"; "location"]
          = Ok [(); (); (); ()]) as Hmap.
  { cbn [mapM]. rewrite !Hreq by (apply list_elem_of_In; cbn; tauto). reflexivity. }
  unfold mbind at 1. unfold M_bind at 1. unfold lift at 1. rewrite Hmap.
  unfold mbind at 1. unfold M_bind at 1. unfold set_self at 1.
  unfold mbind at 1. unfold M_bind at 1. unfold lift at 1.
  rewrite Hreq by (apply list_elem_of_In; cbn; tauto).
  unfold mbind at 1. unfold M_bind at 1. unfold get_self at 1.
  cbn [fst snd model set_job_metadata]. rewrite Hm. cbv zeta.
  unfold mbind at 1. unfold M_bind at 1. unfold lift at 1.
  destruct (encode m (csv_jd_text <$> rows df)) as [emb|e]; [|reflexivity].
  unfold mbind at 1. unfold M_bind at 1. unfold lift at 1.
  destruct (dimension_of (_normalize_embeddings env emb)) as [dim|e]; [|reflexivity].
  unfold mbind at 1. unfold M_bind at 1. unfold set_self at 1. cbn [fst snd].
  unfold mbind at 1. unfold M_bind at 1.
  unfold _save_index at 1. unfold mbind at 1. unfold M_bind at 1.
  unfold get_self at 1. cbn [fst snd index set_index].
  destruct (write_index_ok env); [|reflexivity].
  unfold set_files at 1. cbn [fst snd].
  unfold mbind at 1. unfold M_bind at 1.
  unfold _save_metadata at 1. unfold mbind at 1. unfold M_bind at 1.
  unfold get_self at 1. cbn [fst snd job_metadata set_index set_job_metadata].
  destruct (to_parquet_ok env); [|reflexivity].
  unfold set_files at 1. cbn [fst snd].
  unfold _save_model_fingerprint. unfold mbind at 1. unfold M_bind at 1.
  unfold get_self at 1. cbn [fst snd].
  destruct (json_dump_ok env); reflexivity.
Qed.

(** C9, amended. A build that fails raises, and nothing is rolled back.
    Every failing run leaves the files as they were, or the new index blob
    alone (the metadata write failed), or blob and metadata without the
    fingerprint (the fingerprint write failed); what is on disk is then what
    the store holds.  A missing corpus raises with the files as they were;
    so does the provider raising on the descriptions (the only place where
    an empty or null description can make the build fail), and so does a
    failing index write.  With the index written, a failing metadata write
    raises and leaves exactly the new blob; with both written, a failing
    fingerprint write raises and leaves exactly blob and metadata.  A build
    that returns has written all three. *)
Theorem build_index_failure_modes env self fs :
  (∀ e self' fs', build_index env (self, fs) = (Raise e, (self', fs')) →
     (fs' = fs
      ∨ (to_parquet_ok env = false
         ∧ ∃ ix, index self' = Some ix ∧ fs' = write_jobs_faiss ix fs)
      ∨ (json_dump_ok env = false
         ∧ ∃ ix md, index self' = Some ix ∧ job_metadata self' = Some md
             ∧ fs' = write_jobs_meta_parquet md (write_jobs_faiss ix fs)))
     ∧ (to_parquet_ok env = true → json_dump_ok env = true → fs' = fs))
  ∧ (find_csv fs = None →
     ∃ e self', build_index env (self, fs) = (Raise e, (self', fs)))
  ∧ (∀ self1 m name df,
       with_model env self = Ok self1 → model self1 = Some m →
       find_csv fs = Some (name, df) →
       Forall (λ col, col ∈ columns df)
         ["id"; "title"; "company"; "location"; "jd_text"] →
       let md := meta_of_row (bool_decide ("skills" ∈ columns df)) <$> rows df in
       (∀ e, encode m (csv_jd_text <$> rows df) = Raise e →
          build_index env (self, fs) = (Raise e, (set_job_metadata md self1, fs)))
       ∧ (∀ emb dim,
            encode m (csv_jd_text <$> rows df) = Ok emb →
            dimension_of (_normalize_embeddings env emb) = Ok dim →
            let ix := IndexFlatIP env dim (_normalize_embeddings env emb) in
            let built := set_index ix (set_job_metadata md self1) in
            (write_index_ok env = false →
             build_index env (self, fs) = (Raise (IOError "jobs.faiss"), (built, fs)))
            ∧ (write_index_ok env = true → to_parquet_ok env = false →
               build_index env (self, fs)
               = (Raise (IOError "jobs_meta.parquet"),
                  (built, write_jobs_faiss ix fs)))
            ∧ (write_index_ok env = true → to_parquet_ok env = true →
               json_dump_ok env = false →
               build_index env (self, fs)
               = (Raise (IOError "model_meta.json"),
                  (built, write_jobs_meta_parquet md (write_jobs_faiss ix fs))))))
  ∧ (∀ self' fs', build_index env (self, fs) = (Ok (), (self', fs')) →
       ∃ ix md fp, index self' = Some ix ∧ job_metadata self' = Some md
         ∧ fs' = write_model_meta_json fp
                   (write_jobs_meta_parquet md (write_jobs_faiss ix fs))).
Proof.
  split; [|split; [|split]].
  - intros e self' fs' [(e' & _ & H)|(ix & md & fp & [=] & _)]%build_index_inv.
    cbn [fst snd] in H. split; [exact H|]. intros Hp Hj.
    destruct H as [H|[(Hp' & _)|(Hj' & _)]]; [done| |]; congruence.
  - intros Hcsv.
    destruct (build_index_without_corpus env (self, fs) Hcsv) as (e & [self' fs'] & H & E).
    cbn [snd] in E. subst fs'. by exists e, self'.
  - intros self1 m name df Hwm Hm Hcsv Hcols. cbv zeta.
    pose proof (build_index_steps env self fs self1 m name df Hwm Hm Hcsv Hcols)
      as Hrun. cbv zeta in Hrun.
    split.
    + intros e He. by rewrite He in Hrun.
    + intros emb dim Hemb Hdim. rewrite Hemb, Hdim in Hrun.
      split; [|split].
      * intros Hi. by rewrite Hi in Hrun.
      * intros Hi Hp. by rewrite Hi, Hp in Hrun.
      * intros Hi Hp Hj. by rewrite Hi, Hp, Hj in Hrun.
  - intros self' fs' [(e' & [=] & _)|(ix & md & fp & _ & Hix & Hmd & Hfs)]%build_index_inv.
    by exists ix, md, fp.
Qed.

Lemma build_index_failure_modes_witness :
  with_model (demo_env false) demo_world.1 = Ok (set_model demo_model demo_world.1)
  ∧ find_csv demo_world.2 = Some ("jobs.csv"%string, demo_df)
  ∧ to_parquet_ok (demo_env false) = false
  ∧ build_index (demo_env false) demo_world
    = (Raise (IOError "jobs_meta.parquet"),
       (set_index (demo_index demo_ranking)
          (set_job_metadata demo_md (set_model demo_model demo_world.1)),
        write_jobs_faiss (demo_index demo_ranking) demo_files)).
Proof.
  split; [reflexivity|]. split; [reflexivity|]. split; [reflexivity|].
  destruct (build_index_failure_modes (demo_env false) demo_world.1 demo_world.2)
    as (_ & _ & H & _).
  destruct (H (set_model demo_model demo_world.1) demo_model "jobs.csv"%string demo_df
              eq_refl eq_refl eq_refl ltac:(by_compute)) as [_ H'].
  destruct (H' [[Q2Qc 1; Q2Qc 0]; [Q2Qc 1; Q2Qc 0]; [Q2Qc 1; Q2Qc 0]] 2
              eq_refl eq_refl) as (_ & H'' & _).
  exact (H'' eq_refl eq_refl).
Defined.

(** ** Further instances *)

Lemma keyword_count_computed (keywords : gset string) (text : string) (n : Z) :
  hits keywords (lower text) = n → keyword_count keywords text n.
Proof. intros <-. apply keyword_count_hits. Defined.

Lemma detect_role_decision_witness :
  (keyword_count fullstack_keywords "Senior React and Node developer" 3
   ∧ keyword_count devops_keywords "Senior React and Node developer" 0
   ∧ detect_role "Senior React and Node developer" = "fullstack")
  ∧ (keyword_count fullstack_keywords "Terraform, Kubernetes, AWS" 0
     ∧ keyword_count devops_keywords "Terraform, Kubernetes, AWS" 3
     ∧ detect_role "Terraform, Kubernetes, AWS" = "devops")
  ∧ (keyword_count fullstack_keywords "Java developer using Docker and AWS" 2
     ∧ keyword_count devops_keywords "Java developer using Docker and AWS" 2
     ∧ detect_role "Java developer using Docker and AWS" = "general")
  ∧ (keyword_count fullstack_keywords "Hello world" 0
     ∧ keyword_count devops_keywords "Hello world" 0
     ∧ detect_role "Hello world" = "general").
Proof.
  assert (keyword_count fullstack_keywords "Hello world" 0) as F4
    by (apply keyword_count_computed; vm_compute; reflexivity).
  assert (keyword_count devops_keywords "Hello world" 0) as D4
    by (apply keyword_count_computed; vm_compute; reflexivity).
  assert (keyword_count fullstack_keywords "Senior React and Node developer" 3) as F1
    by (apply keyword_count_computed; vm_compute; reflexivity).
  assert (keyword_count devops_keywords "Senior React and Node developer" 0) as D1
    by (apply keyword_count_computed; vm_compute; reflexivity).
  assert (keyword_count fullstack_keywords "Terraform, Kubernetes, AWS" 0) as F2
    by (apply keyword_count_computed; vm_compute; reflexivity).
  assert (keyword_count devops_keywords "Terraform, Kubernetes, AWS" 3) as D2
    by (apply keyword_count_computed; vm_compute; reflexivity).
  assert (keyword_count fullstack_keywords "Java developer using Docker and AWS" 2)
    as F3 by (apply keyword_count_computed; vm_compute; reflexivity).
  assert (keyword_count devops_keywords "Java developer using Docker and AWS" 2)
    as D3 by (apply keyword_count_computed; vm_compute; reflexivity).
  split; [|split; [|split]].
  - split; [exact F1|]. split; [exact D1|].
    destruct (detect_role_decision _ _ _ F1 D1) as (_ & _ & _ & _ & H & _).
    apply H. lia.
  - split; [exact F2|]. split; [exact D2|].
    destruct (detect_role_decision _ _ _ F2 D2) as (_ & _ & _ & _ & _ & H & _).
    apply H. lia.
  - split; [exact F3|]. split; [exact D3|].
    destruct (detect_role_decision _ _ _ F3 D3) as (_ & _ & _ & _ & _ & _ & H).
    apply H. lia.
  - split; [exact F4|]. split; [exact D4|].
    destruct (detect_role_decision _ _ _ F4 D4) as (_ & _ & H & _).
    apply H. by split.
Defined.

Lemma row_index_tested_against_job_ids_witness :
  let st := {| results := []; seen_jobs := {[ 1 ]} |} in
  1 ∈ seen_jobs st
  ∧ body demo_md (role_filter "general" demo_md) demo_df "general" 5 ∅ st
      (Q2Qc 0.6, 1) = Ok (Continue st).
Proof.
  cbv zeta.
  assert (1 ∈ seen_jobs {| results := []; seen_jobs := {[ 1 ]} |}) as H
    by (cbn [seen_jobs]; apply elem_of_singleton_2; reflexivity).
  split; [exact H|].
  exact (proj1 row_index_tested_against_job_ids _ _ _ _ _ _ _ _ _ H).
Defined.

(** * Further properties of the code *)

(** ** Jaccard similarity as a number *)

Lemma true_div_canon a b : 0 < b → true_div a b = Q2Qc (a # Z.to_pos b).
Proof.
  intros Hb. apply Qc_is_canon. unfold true_div, Qcdiv, Qcmult, Qcinv, Q2Qc.
  cbn [this]. rewrite !Qred_correct. unfold Qeq, Qmult, Qinv, inject_Z.
  destruct b as [|p|p]; [lia| |lia]. cbn. lia.
Qed.

Lemma true_div_range a b : 0 ≤ a ≤ b → 0 < b →
  (Q2Qc 0 ≤ true_div a b)%Qc ∧ (true_div a b ≤ Q2Qc 1)%Qc.
Proof.
  intros Ha Hb. rewrite true_div_canon by done.
  unfold Qcle, Q2Qc. cbn [this]. rewrite !Qred_correct.
  unfold Qle. cbn. rewrite Z2Pos.id by done. lia.
Qed.

Lemma true_div_eq_1 a b : 0 < b → true_div a b = Q2Qc 1 ↔ a = b.
Proof.
  intros Hb. rewrite true_div_canon by done. rewrite Q2Qc_eq_iff.
  unfold Qeq. cbn. rewrite Z2Pos.id by done. lia.
Qed.

Lemma true_div_eq_0 a b : 0 < b → true_div a b = Q2Qc 0 ↔ a = 0.
Proof.
  intros Hb. rewrite true_div_canon by done. rewrite Q2Qc_eq_iff.
  unfold Qeq. cbn. lia.
Qed.

Lemma jaccard_sizes (A B : gset string) :
  (size (A ∩ B) ≤ size (A ∪ B))%nat.
Proof.
  apply subseteq_size. intros x [Hx _]%elem_of_intersection.
  by apply elem_of_union_l.
Qed.

Lemma jaccard_nonempty_case (A B : gset string) :
  ¬ (A = ∅ ∧ B = ∅) →
  0 < Z.of_nat (size (A ∪ B))
  ∧ _jaccard_similarity A B
    = true_div (Z.of_nat (size (A ∩ B))) (Z.of_nat (size (A ∪ B))).
Proof.
  intros Hne.
  assert (size (A ∪ B) ≠ 0%nat) as Hsz.
  { apply size_non_empty_iff. intros HAB%leibniz_equiv.
    apply empty_union_L in HAB. tauto. }
  split; [lia|].
  rewrite jaccard_eq_formula. unfold jaccard_formula.
  by rewrite bool_decide_eq_false_2.
Qed.

(** The overlap as a fraction of the union. *)
Lemma jaccard_bounds (A B : gset string) :
  (Q2Qc 0 ≤ _jaccard_similarity A B)%Qc ∧ (_jaccard_similarity A B ≤ Q2Qc 1)%Qc.
Proof.
  destruct (decide (A = ∅ ∧ B = ∅)) as [Hboth|Hne].
  - rewrite jaccard_eq_formula. unfold jaccard_formula.
    rewrite bool_decide_eq_true_2 by done.
    split; apply Qcle_ngt; intros H; apply (bool_decide_pack _) in H;
      vm_compute in H; exact H.
  - destruct (jaccard_nonempty_case A B Hne) as [Hpos ->].
    apply true_div_range; [|done]. pose proof (jaccard_sizes A B). lia.
Qed.

(** X1. The skill overlap is a number between 0 and 1. *)
Theorem jaccard_range (A B : gset string) :
  (Q2Qc 0 ≤ _jaccard_similarity A B)%Qc ∧ (_jaccard_similarity A B ≤ Q2Qc 1)%Qc.
Proof. apply jaccard_bounds. Qed.

(** X2. The overlap is 1 exactly for two equal non-empty sets, and 0
    exactly for two sets without a common skill. *)
Theorem jaccard_extremes (A B : gset string) :
  (_jaccard_similarity A B = Q2Qc 1 ↔ A = B ∧ A ≠ ∅)
  ∧ (_jaccard_similarity A B = Q2Qc 0 ↔ A ∩ B = ∅).
Proof.
  destruct (decide (A = ∅ ∧ B = ∅)) as [[-> ->]|Hne].
  - assert (_jaccard_similarity (∅ : gset string) ∅ = Q2Qc 0) as ->
      by (vm_compute; reflexivity).
    split; split.
    + intros H. apply Q2Qc_eq_iff in H. discriminate.
    + intros [_ H]. done.
    + intros _. apply (idemp_L (∩)).
    + done.
  - destruct (jaccard_nonempty_case A B Hne) as [Hpos ->].
    rewrite true_div_eq_1, true_div_eq_0 by done. split; split.
    + intros Hsz. assert (A ∩ B = A ∪ B) as Heq.
      { apply set_subseteq_size_eq; [|lia].
        intros x [Hx _]%elem_of_intersection. by apply elem_of_union_l. }
      assert (A = B) as ->.
      { apply leibniz_equiv. intros x. split; intros Hx.
        - assert (x ∈ A ∩ B) as [_ ?]%elem_of_intersection; [|done].
          rewrite Heq. by apply elem_of_union_l.
        - assert (x ∈ A ∩ B) as [? _]%elem_of_intersection; [|done].
          rewrite Heq. by apply elem_of_union_r. }
      split; [done|]. intros ->. apply Hne. done.
    + intros [-> HA].
      assert (B ∩ B = B) as -> by apply (idemp_L (∩)).
      assert (B ∪ B = B) as -> by apply (idemp_L (∪)). done.
    + intros Hsz. apply leibniz_equiv. apply size_empty_iff. lia.
    + intros ->. by rewrite size_empty.
Qed.

(** ** Skill extraction and role detection on texts *)

Lemma lower_ascii_idemp c : lower_ascii (lower_ascii c) = lower_ascii c.
Proof. destruct c as [[] [] [] [] [] [] [] []]; vm_compute; reflexivity. Qed.

Lemma lower_idemp t : lower (lower t) = lower t.
Proof.
  induction t as [|c t IH]; cbn; [done|]. by rewrite lower_ascii_idemp, IH.
Qed.

Lemma elem_of_extract_fold (text_lower : string) (l : list string)
    (acc : gset string) s :
  s ∈ foldl (λ skills skill,
               if contains skill text_lower then skills ∪ {[skill]} else skills)
        acc l
  ↔ s ∈ acc ∨ (s ∈ l ∧ contains s text_lower = true).
Proof.
  revert acc. induction l as [|k l IH]; intros acc; cbn [foldl].
  - split; [by left|]. intros [?|[H%elem_of_nil _]]; done.
  - rewrite IH. destruct (contains k text_lower) eqn:Hk.
    + rewrite elem_of_union, elem_of_singleton, elem_of_cons. split.
      * intros [[?| ->]|[? ?]]; eauto.
      * intros [?|[[->|?] ?]]; eauto.
    + rewrite elem_of_cons. split.
      * intros [?|[? ?]]; eauto.
      * intros [?|[[->|?] ?]]; eauto. congruence.
Qed.

(** Membership in the extracted set. *)
Lemma elem_of_extract_skills_iff (resume_text s : string) :
  s ∈ extract_skills resume_text
  ↔ s ∈ tech_skills ∧ contains s (lower resume_text) = true.
Proof.
  unfold extract_skills. rewrite elem_of_extract_fold.
  split; [intros [H%not_elem_of_empty|H]; done|by right].
Qed.

(** X3. A skill is extracted from a text exactly when it belongs to the
    fixed vocabulary and occurs in the lower-cased text as a substring; in
    particular the result is always a subset of the vocabulary. *)
Theorem elem_of_extract_skills (resume_text s : string) :
  s ∈ extract_skills resume_text
  ↔ s ∈ tech_skills ∧ contains s (lower resume_text) = true.
Proof. apply elem_of_extract_skills_iff. Qed.

(** X4. Neither the skill extractor nor the role classifier sees letter
    case: lower-casing the text first changes nothing. *)
Theorem text_scans_ignore_case (t : string) :
  extract_skills (lower t) = extract_skills t
  ∧ detect_role (lower t) = detect_role t.
Proof.
  split.
  - unfold extract_skills. by rewrite lower_idemp.
  - unfold detect_role, fs_hits, dv_hits. by rewrite lower_idemp.
Qed.

Lemma prefix_trans k1 k2 t :
  String.prefix k1 k2 = true → String.prefix k2 t = true →
  String.prefix k1 t = true.
Proof.
  revert k2 t. induction k1 as [|c k1 IH]; intros k2 t H1 H2; [by destruct t|].
  destruct k2 as [|c2 k2]; [discriminate|]. destruct t as [|ct t]; [discriminate|].
  cbn in *. destruct (ascii_dec c c2) as [->|]; [|discriminate].
  destruct (ascii_dec c2 ct) as [->|]; [|discriminate].
  destruct (ascii_dec ct ct); [|done]. eauto.
Qed.

Lemma contains_of_prefix k1 k2 t :
  String.prefix k1 k2 = true → contains k2 t = true → contains k1 t = true.
Proof.
  intros Hp. induction t as [|c t IH]; cbn [contains]; intros H.
  - rewrite orb_false_r in H |- *. by eapply prefix_trans.
  - apply orb_true_iff in H as [H|H]; apply orb_true_iff.
    + left. by eapply prefix_trans.
    + right. by apply IH.
Qed.

(** X5. Matching is by substring, so a longer vocabulary entry drags in the
    shorter one it starts with: every text from which javascript is
    extracted also yields java. *)
Theorem javascript_implies_java (resume_text : string) :
  "javascript" ∈ extract_skills resume_text → "java" ∈ extract_skills resume_text.
Proof.
  rewrite !elem_of_extract_skills_iff. intros [_ H]. split.
  - apply list_elem_of_In. cbn. tauto.
  - eapply contains_of_prefix; [|exact H]. reflexivity.
Qed.

Lemma javascript_implies_java_witness :
  "javascript" ∈ extract_skills "Senior JavaScript engineer"
  ∧ "java" ∈ extract_skills "Senior JavaScript engineer".
Proof.
  assert ("javascript" ∈ extract_skills "Senior JavaScript engineer") as H
    by by_compute.
  split; [exact H|exact (javascript_implies_java _ H)].
Defined.

(** ** Order and extent of the answer *)

Lemma search_inv_final env fs self query top_k role rs :
  search env fs self query top_k role = Ok rs →
  ∃ md df cands st,
    search_run env fs self query top_k role md df cands st
    ∧ rs = final_stage top_k (results st).
Proof.
  unfold search, search_run. intros H.
  destruct (index self) as [ix|]; [|discriminate].
  destruct (job_metadata self) as [md|]; [|discriminate].
  apply bind_Ok_inv in H as (m & Hm%from_option_Ok_inv & H).
  apply bind_Ok_inv in H as (qe & Hqe & H).
  apply bind_Ok_inv in H as (cands & Hcands & H).
  apply bind_Ok_inv in H as ([name df] & Hcsv%from_option_Ok_inv & H).
  apply bind_Ok_inv in H as (st & Hloop & H).
  injection H as <-.
  exists md, df, cands, st. split; [|reflexivity].
  split; [done|]. split; [by exists ix, m, qe|]. split; [by exists name|].
  exact Hloop.
Qed.

Lemma insert_by_score_sorted x l :
  StronglySorted (λ a b, (score b ≤ score a)%Qc) l →
  StronglySorted (λ a b, (score b ≤ score a)%Qc) (insert_by_score x l).
Proof.
  induction 1 as [|y l Hl IH Hy]; cbn; [repeat constructor|].
  case_bool_decide as Hxy.
  - constructor; [done|]. rewrite insert_by_score_perm.
    constructor; [by apply Qclt_le_weak|done].
  - apply Qcnot_lt_le in Hxy. constructor; [by constructor|].
    constructor; [done|]. eapply Forall_impl; [exact Hy|].
    intros z Hz. cbn in Hz. by eapply Qcle_trans.
Qed.

Lemma sort_by_score_sorted l :
  StronglySorted (λ a b, (score b ≤ score a)%Qc) (sort_by_score l).
Proof.
  induction l as [|x l IH]; cbn; [constructor|]. by apply insert_by_score_sorted.
Qed.

(** X6. A search returns its results in order of non-increasing composite
    score. *)
Theorem search_results_sorted env fs self query top_k role rs :
  search env fs self query top_k role = Ok rs →
  ∀ i j a b, (i < j)%nat → rs !! i = Some a → rs !! j = Some b →
    (score b ≤ score a)%Qc.
Proof.
  intros (md & df & cands & st & _ & _ & n & ->)%search_inv i j a b Hij Ha Hb.
  set (l := take n (sort_by_score (results st))) in *.
  assert (StronglySorted (λ a b, (score b ≤ score a)%Qc) l) as Hs.
  { eapply StronglySorted_app_1_l. unfold l.
    erewrite take_drop. apply sort_by_score_sorted. }
  rewrite <- (take_drop j l) in Hs.
  eapply (StronglySorted_app_1_elem_of _ _ _ a b Hs).
  - apply list_elem_of_lookup. exists i. rewrite lookup_take_lt by done. done.
  - apply list_elem_of_lookup. exists 0%nat. rewrite lookup_drop.
    by rewrite Nat.add_0_r.
Qed.

Lemma validate_all top_k jobs validated :
  len (validated ++ jobs) ≤ top_k → validate top_k jobs validated = validated ++ jobs.
Proof.
  revert validated. induction jobs as [|job rest IH]; intros validated Hlen; cbn.
  - by rewrite app_nil_r.
  - unfold len in *. rewrite !length_app in *. cbn [length] in *.
    destruct (Z.leb_spec top_k (Z.of_nat (length validated + 1))) as [Hk|Hk].
    + destruct rest; [done|]. cbn in Hlen. lia.
    + rewrite IH, <- app_assoc; [done|]. rewrite !length_app. cbn. lia.
Qed.

Lemma final_stage_all top_k accepted :
  len accepted ≤ top_k → final_stage top_k accepted = sort_by_score accepted.
Proof.
  intros Hlen. unfold final_stage. cbv zeta.
  assert (length (sort_by_score accepted) = length accepted) as Hl
    by (by rewrite sort_by_score_perm).
  assert (∀ k, len (sort_by_score accepted) ≤ k → 0 ≤ k →
            slice_to (sort_by_score accepted) k = sort_by_score accepted) as Hslice.
  { intros k Hk Hk0. unfold slice_to. destruct (Z.leb_spec 0 k); [|lia].
    apply take_ge. unfold len in Hk. lia. }
  unfold len in *. rewrite (Hslice (Z.min _ _)).
  - rewrite validate_all; [|unfold len; cbn; lia]. cbn [app].
    apply Hslice; unfold len; lia.
  - unfold len. lia.
  - lia.
Qed.

(** X7. For a positive top_k the last stage of a search only sorts: the
    returned list is the list of accepted candidates in score order, none is
    dropped by the validation loop or the final slice. *)
Theorem search_returns_all_accepted env fs self query top_k role rs :
  0 < top_k →
  search env fs self query top_k role = Ok rs →
  ∃ md df cands st,
    search_run env fs self query top_k role md df cands st
    ∧ rs = sort_by_score (results st)
    ∧ rs ≡ₚ results st.
Proof.
  intros Hk (md & df & cands & st & Hrun & ->)%search_inv_final.
  exists md, df, cands, st. split; [done|].
  destruct Hrun as (_ & _ & _ & Hloop).
  apply loop_results_length in Hloop; [|done].
  rewrite final_stage_all by done. split; [done|apply sort_by_score_perm].
Qed.

Lemma search_returns_all_accepted_witness :
  0 < 5
  ∧ search (demo_env true) demo_files (demo_store demo_ranking) demo_query 5
      (Some "general")
    = Ok [ result_for (extract_skills demo_query) (Q2Qc 0.9) demo_job0 demo_skills0;
           result_for (extract_skills demo_query) (Q2Qc 0.4) demo_job2 demo_skills2 ]
  ∧ ∃ md df cands st,
      search_run (demo_env true) demo_files (demo_store demo_ranking) demo_query 5
        (Some "general") md df cands st
      ∧ [ result_for (extract_skills demo_query) (Q2Qc 0.9) demo_job0 demo_skills0;
          result_for (extract_skills demo_query) (Q2Qc 0.4) demo_job2 demo_skills2 ]
        ≡ₚ results st.
Proof.
  split; [lia|]. split; [exact demo_search_general|].
  destruct (search_returns_all_accepted _ _ _ _ 5 _ _ ltac:(lia) demo_search_general)
    as (md & df & cands & st & Hrun & _ & Hperm).
  by exists md, df, cands, st.
Defined.

(** The final slice with a bound of zero or less. *)
Lemma search_nonpositive_inv env fs self query top_k role rs :
  top_k ≤ 0 →
  search env fs self query top_k role = Ok rs → rs = [].
Proof.
  intros Hk (md & df & cands & st & _ & ->)%search_inv_final.
  unfold final_stage. cbv zeta.
  destruct (slice_to (sort_by_score (results st)) _) as [|job rest].
  - cbn. unfold slice_to. by destruct (0 <=? top_k); rewrite take_nil.
  - cbn [validate app]. destruct (Z.leb_spec top_k (len [job])) as [_|Hlt].
    + unfold slice_to. destruct (Z.leb_spec 0 top_k).
      * by replace top_k with 0 by lia.
      * cbn [length]. by replace (Z.to_nat (Z.of_nat 1 + top_k)) with 0%nat by lia.
    + unfold len in Hlt. cbn in Hlt. lia.
Qed.

(** X8. For a top_k of zero or less the search asks the vector index for
    a non-positive number of neighbours.  An index that refuses such a
    request, as the faiss wrapper does by asserting [k > 0], makes the
    search raise: it never returns, and [POST /search] answers 500. *)
Theorem search_nonpositive_top_k_raises env fs self query top_k role :
  top_k ≤ 0 →
  (∀ ix q k, index self = Some ix → k ≤ 0 → is_ok (ix_search ix q k) = false) →
  (∀ md, search_k top_k md ≤ 0)
  ∧ is_ok (search env fs self query top_k role) = false
  ∧ ∀ d, req_query d = Some query → req_top_k d = Some top_k → req_role d = role →
      status_code (app_search env (Some self, fs) (Some d)) = 500.
Proof.
  intros Hk Hix.
  assert (∀ md, search_k top_k md ≤ 0) as Hsk by (intros md; unfold search_k; lia).
  assert (is_ok (search env fs self query top_k role) = false) as Hraise.
  { unfold search. destruct (index self) as [ix|] eqn:Eix; [|done].
    destruct (job_metadata self) as [md|]; [|done]. cbv zeta.
    destruct (model self) as [m|]; [|done].
    cbn [from_option mbind result_bind Py.bind].
    destruct (encode m [Some query]) as [qe|]; [|done].
    cbn [mbind result_bind Py.bind]. cbv zeta.
    specialize (Hix ix (_normalize_embeddings env qe) (search_k top_k md) eq_refl
                  (Hsk md)).
    destruct (ix_search ix (_normalize_embeddings env qe) (search_k top_k md));
      [cbn in Hix; discriminate|reflexivity]. }
  split; [exact Hsk|]. split; [exact Hraise|].
  intros d Hq Htop Hrole. unfold app_search. rewrite Hq, Htop, Hrole.
  cbn [fst snd default]. unfold id. cbv zeta.
  destruct (search env fs self query top_k role);
    [cbn in Hraise; discriminate|reflexivity].
Qed.

Lemma search_nonpositive_top_k_raises_witness :
  0 ≤ 0
  ∧ (∀ ix q k, index asserting_store = Some ix → k ≤ 0 →
       is_ok (ix_search ix q k) = false)
  ∧ is_ok (search (demo_env true) demo_files asserting_store demo_query 0
             (Some "general")) = false.
Proof.
  assert (∀ ix q k, index asserting_store = Some ix → k ≤ 0 →
            is_ok (ix_search ix q k) = false) as Hix.
  { intros ix q k [= <-] Hk. cbn [ix_search asserting_index].
    destruct (Z.ltb_spec 0 k); [lia|reflexivity]. }
  split; [lia|]. split; [exact Hix|].
  exact (proj1 (proj2 (search_nonpositive_top_k_raises (demo_env true) demo_files
                         asserting_store demo_query 0 (Some "general")
                         ltac:(lia) Hix))).
Defined.

Lemma py_min_le_r a b : (Py.min a b ≤ b)%Qc.
Proof.
  unfold Py.min. case_bool_decide as H; [apply Qcle_refl|by apply Qcnot_lt_le].
Qed.

(** X9. Every result a search returns has a composite score between the
    0.15 floor and 1, and a skill overlap between 0 and 1. *)
Theorem search_result_score_range env fs self query top_k role rs :
  search env fs self query top_k role = Ok rs →
  ∀ r, r ∈ rs →
    (Q2Qc 0.15 ≤ score r)%Qc ∧ (score r ≤ Q2Qc 1)%Qc
    ∧ (Q2Qc 0 ≤ skillOverlap r)%Qc ∧ (skillOverlap r ≤ Q2Qc 1)%Qc.
Proof.
  intros (md & df & cands & st & _ & _ & _ & Hsc)%search_results r Hr.
  rewrite Forall_forall in Hsc.
  destruct (Hsc r Hr) as (sim & idx & info & job_skills & st0 & _ & _ & -> & Hthr).
  apply below_threshold_false_iff in Hthr. cbn [score skillOverlap result_for] in *.
  split; [|split; [|apply jaccard_bounds]].
  - destruct Hthr as [Hthr|[_ Hthr]]; [|by apply Qcnot_lt_le].
    eapply Qcle_trans; [|exact Hthr].
    apply Qclt_le_weak, floor_lt_min_threshold.
  - unfold composite_score.
    replace (Q2Qc 1) with (Q2Qc 1.0) by (apply Qc_is_canon; reflexivity).
    apply py_min_le_r.
Qed.

Lemma search_result_score_range_witness :
  search (demo_env true) demo_files (demo_store demo_ranking) demo_query 5 None
  = Ok [ result_for (extract_skills demo_query) (Q2Qc 0.9) demo_job0 demo_skills0 ]
  ∧ (Q2Qc 0.15
     ≤ score (result_for (extract_skills demo_query) (Q2Qc 0.9) demo_job0
                demo_skills0))%Qc.
Proof.
  split; [exact demo_search_fullstack|].
  refine (proj1 (search_result_score_range _ _ _ _ _ _ _ demo_search_fullstack _ _)).
  apply list_elem_of_singleton. reflexivity.
Defined.

(** X10. Candidates are taken first come, first served: once the loop has
    stopped with top_k accepted results, whatever else the index would have
    listed after them has no effect on the outcome. *)
Theorem candidate_loop_ignores_the_rest md filtered df role top_k resume_skills
    cands extra st st' :
  len (results st) < top_k →
  candidate_loop md filtered df role top_k resume_skills cands st = Ok st' →
  top_k ≤ len (results st') →
  candidate_loop md filtered df role top_k resume_skills (cands ++ extra) st
  = Ok st'.
Proof.
  revert st. induction cands as [|[sim idx] cs IH]; intros st Hlt Hrun Hfull.
  - cbn in Hrun. injection Hrun as <-. lia.
  - cbn [candidate_loop app] in *.
    apply bind_Ok_inv in Hrun as (f & Hbody & Hrun). rewrite Hbody.
    cbn [mbind result_bind Py.bind].
    destruct f as [st1|st1]; [|done].
    apply IH; [|done|done].
    apply body_effect in Hbody as [[Hres _]|(info & job_skills & _ & Hb)].
    + cbn in Hres. by rewrite Hres.
    + cbn zeta in Hb. destruct Hb as (_ & Hres & _ & Hbreak). cbn in Hres, Hbreak.
      rewrite Hres. unfold len in *. rewrite length_app. cbn [length].
      destruct (Z.le_gt_cases top_k (Z.of_nat (length (results st)) + 1)) as [Hle|?];
        [|lia].
      apply Hbreak in Hle. discriminate.
Qed.

Lemma candidate_loop_ignores_the_rest_witness :
  let r0 := result_for ∅ (Q2Qc 0.9) demo_job0 demo_skills0 in
  let st' := {| results := [r0]; seen_jobs := {[ 1 ]} |} in
  len (results initial_state) < 1
  ∧ candidate_loop demo_md (role_filter "general" demo_md) demo_df "general" 1 ∅
      [ (Q2Qc 0.9, 0) ] initial_state = Ok st'
  ∧ 1 ≤ len (results st')
  ∧ candidate_loop demo_md (role_filter "general" demo_md) demo_df "general" 1 ∅
      ([ (Q2Qc 0.9, 0) ] ++ [ (Q2Qc 0.8, 2) ]) initial_state = Ok st'.
Proof.
  cbv zeta.
  assert (len (results initial_state) < 1) as H1 by by_compute.
  assert (candidate_loop demo_md (role_filter "general" demo_md) demo_df "general"
            1 ∅ [ (Q2Qc 0.9, 0) ] initial_state
          = Ok {| results := [result_for ∅ (Q2Qc 0.9) demo_job0 demo_skills0];
                  seen_jobs := {[ 1 ]} |}) as H2 by by_compute.
  assert (1 ≤ len (results
            {| results := [result_for ∅ (Q2Qc 0.9) demo_job0 demo_skills0];
               seen_jobs := {[ 1 ]} |})) as H3 by by_compute.
  split; [exact H1|]. split; [exact H2|]. split; [exact H3|].
  exact (candidate_loop_ignores_the_rest _ _ _ _ _ _ _ [ (Q2Qc 0.8, 2) ] _ _ H1 H2 H3).
Defined.

(** X11. The role gate needs a row to gate on: when the role is fullstack
    or devops but no title in the corpus matches its pattern, the gate is
    off, and every result such a search returns has a title that does not
    match. *)
Theorem empty_prefilter_disables_gate env fs self query top_k role md rs :
  job_metadata self = Some md →
  let r := effective_role query role in
  r = "fullstack" ∨ r = "devops" →
  role_filter r md = [] →
  search env fs self query top_k role = Ok rs →
  (∀ idx, role_gate r (role_filter r md) idx = false)
  ∧ ∀ res, res ∈ rs → str_contains (title_pattern r) (title (job_info res)) = false.
Proof.
  intros Hmd r Hr Hempty
    (md' & df & cands & st & Hrun & _ & _ & Hsc)%search_results.
  destruct Hrun as (Hmd' & _). assert (md' = md) as -> by congruence.
  split.
  { intros idx. rewrite Hempty. unfold role_gate. reflexivity. }
  intros res Hres. rewrite Forall_forall in Hsc.
  apply Hsc, scored_from_in_md in Hres.
  apply list_elem_of_lookup in Hres as [i Hi].
  assert ((Z.of_nat i, job_info res) ∈ labelled md) as Hlab.
  { apply elem_of_labelled. rewrite Nat2Z.id. split; [lia|done]. }
  destruct (str_contains (title_pattern r) (title (job_info res))) eqn:Hm; [|done].
  exfalso. assert ((Z.of_nat i, job_info res) ∈ role_filter r md) as Hin.
  { unfold title_pattern in Hm. destruct Hr as [Hr|Hr]; rewrite Hr in Hm |- *.
    - apply elem_of_role_filter_fullstack. done.
    - apply elem_of_role_filter_devops. done. }
  rewrite Hempty in Hin. by apply elem_of_nil in Hin.
Qed.

Lemma dup_search_devops :
  search (demo_env true) dup_files dup_store "java developer" 5 (Some "devops")
  = Ok [ result_for {[ "java" ]} (Q2Qc 0.9) dup_job0 {[ "java" ]} ].
Proof. by_compute. Qed.

Lemma empty_prefilter_disables_gate_witness :
  job_metadata dup_store = Some (meta_of_row true <$> dup_rows)
  ∧ effective_role "java developer" (Some "devops") = "devops"
  ∧ role_filter "devops" (meta_of_row true <$> dup_rows) = []
  ∧ search (demo_env true) dup_files dup_store "java developer" 5 (Some "devops")
    = Ok [ result_for {[ "java" ]} (Q2Qc 0.9) dup_job0 {[ "java" ]} ]
  ∧ str_contains (title_pattern "devops") (title dup_job0) = false.
Proof.
  assert (role_filter "devops" (meta_of_row true <$> dup_rows) = []) as Hempty
    by by_compute.
  split; [reflexivity|]. split; [reflexivity|]. split; [exact Hempty|].
  split; [exact dup_search_devops|].
  refine (proj2 (empty_prefilter_disables_gate (demo_env true) dup_files dup_store
            "java developer" 5 (Some "devops") _ _ eq_refl (or_intror eq_refl)
            Hempty dup_search_devops)
            (result_for {[ "java" ]} (Q2Qc 0.9) dup_job0 {[ "java" ]}) _).
  apply list_elem_of_singleton. reflexivity.
Defined.

(** ** A stored skills cell that is empty *)

(** X12. A stored skills cell that is NaN (an empty CSV field) is truthy
    and has no [lower]: when the first candidate the index lists is such a
    row and it reaches the scoring, the whole search raises
    [AttributeError]. *)
Theorem search_raises_on_nan_skills env fs self query top_k role
    ix m md qe name df sim idx cs info row :
  index self = Some ix → model self = Some m → job_metadata self = Some md →
  encode m [Some query] = Ok qe →
  ix_search ix (_normalize_embeddings env qe) (search_k top_k md)
  = Ok ((sim, idx) :: cs) →
  find_csv fs = Some (name, df) →
  idx < len md → iloc md idx = Ok info → iloc (rows df) idx = Ok row →
  role_gate (effective_role query role)
    (role_filter (effective_role query role) md) idx = false →
  "jd_text" ∈ columns df → csv_jd_text row ≠ None → title info ≠ None →
  skills info = Some None →
  search env fs self query top_k role = Raise AttributeError.
Proof.
  intros Hix Hm Hmd Hqe Hcands Hcsv Hlt Hinfo Hrow Hgate Hcol Hjd Htitle Hsk.
  unfold search. rewrite Hix, Hmd, Hm. cbn [from_option mbind result_bind Py.bind].
  rewrite Hqe. cbn [mbind result_bind Py.bind].
  rewrite Hcands, Hcsv. cbn [from_option mbind result_bind Py.bind snd].
  cbn [candidate_loop]. unfold body at 1.
  destruct (Z.leb_spec (len md) idx) as [?|_]; [lia|]. cbn [orb seen_jobs].
  rewrite bool_decide_eq_false_2 by apply not_elem_of_empty.
  rewrite Hinfo. cbn [mbind result_bind Py.bind].
  rewrite bool_decide_eq_false_2 by apply not_elem_of_empty.
  unfold effective_role in Hgate. rewrite Hgate, Hrow.
  cbn [mbind result_bind Py.bind].
  unfold require_column. rewrite (bool_decide_eq_true_2 _ Hcol).
  cbn [mbind result_bind Py.bind].
  destruct (csv_jd_text row) as [jd|]; [|done].
  destruct (title info) as [t|]; [|done].
  cbn [cell_lower mbind result_bind Py.bind].
  unfold job_skills_of. rewrite Hsk. reflexivity.
Qed.

Lemma search_raises_on_nan_skills_witness :
  search (demo_env true) nan_files nan_store "java developer" 5 (Some "general")
  = Raise AttributeError.
Proof.
  apply (search_raises_on_nan_skills (demo_env true) nan_files nan_store
           "java developer" 5 (Some "general")
           (demo_index [ (Q2Qc 0.9, 0) ]) demo_model (meta_of_row true <$> nan_rows)
           [[Q2Qc 1; Q2Qc 0]] "jobs.csv"
           {| columns := columns demo_df; rows := nan_rows |}
           (Q2Qc 0.9) 0 []
           {| job_id := 1; title := Some "Java Developer"; company := Some "Acme";
              location := Some "Remote"; skills := Some None |}
           {| csv_id := 1; csv_title := Some "Java Developer";
              csv_company := Some "Acme"; csv_location := Some "Remote";
              csv_jd_text := Some "Java services"; csv_skills := None |});
    try reflexivity; try by_compute; try discriminate.
Defined.

(** ** Building, then loading *)

Lemma mapM_require_columns df cols l :
  mapM (require_column df) cols = Ok l → Forall (λ col, col ∈ columns df) cols.
Proof.
  revert l. induction cols as [|col cols IH]; intros l H; [constructor|].
  cbn [mapM] in H.
  apply bind_Ok_inv in H as ([] & Hcol & H).
  apply bind_Ok_inv in H as (l' & Hrest & _).
  constructor; [|by eapply IH].
  unfold require_column in Hcol. by case_bool_decide.
Qed.

(** What a build that returns has done, step by step. *)
Lemma build_index_Ok_inv env self fs self' fs' :
  build_index env (self, fs) = (Ok (), (self', fs')) →
  ∃ name df ix,
    find_csv fs = Some (name, df)
    ∧ (∀ df0, jobs_enhanced_csv fs = Some df0 → name = "jobs_enhanced.csv" ∧ df = df0)
    ∧ Forall (λ col, col ∈ columns df) (required_cols ++ ["jd_text"])
    ∧ index self' = Some ix ∧ is_Some (model self')
    ∧ model_name self' = model_name self
    ∧ job_metadata self'
      = Some (meta_of_row (bool_decide ("skills" ∈ columns df)) <$> rows df)
    ∧ get_job_count self' = len (rows df)
    ∧ fs' = write_model_meta_json
              {| fp_model_name := model_name self;
                 fp_embedding_dim := Some (d ix);
                 fp_source_csv := name |}
              (write_jobs_meta_parquet
                 (meta_of_row (bool_decide ("skills" ∈ columns df)) <$> rows df)
                 (write_jobs_faiss ix fs)).
Proof.
  unfold build_index. intros H.
  apply M_bind_inv in H as [(e & _ & [=])|([] & w1 & Hload & H)].
  rewrite _load_model_run in Hload.
  destruct (with_model env self) as [self1|] eqn:Hwm; [|discriminate].
  injection Hload as <-.
  apply with_model_Ok in Hwm as (Hm1 & Hn1 & _ & _).
  apply M_bind_inv in H as [(e & _ & [=])|(fs0 & w2 & [= <- <-] & H)].
  cbn [snd] in H. destruct (find_csv fs) as [[name df]|] eqn:Hcsv; [|discriminate].
  apply M_bind_inv in H as [(e & _ & [=])|(l & w2 & [Hcols ->]%lift_inv & H)].
  symmetry in Hcols. apply mapM_require_columns in Hcols.
  apply M_bind_inv in H as [(e & _ & [=])|([] & w2 & [= <-] & H)].
  apply M_bind_inv in H as [(e & _ & [=])|([] & w2 & [Hjd ->]%lift_inv & H)].
  apply M_bind_inv in H as [(e & _ & [=])|(self2 & w2 & [= <- <-] & H)].
  cbn [fst] in H. destruct Hm1 as [m Hm1].
  cbn [model set_job_metadata] in H. rewrite Hm1 in H.
  apply M_bind_inv in H as [(e & _ & [=])|(emb & w2 & [_ ->]%lift_inv & H)].
  apply M_bind_inv in H as [(e & _ & [=])|(dim & w2 & [_ ->]%lift_inv & H)].
  apply M_bind_inv in H as [(e & _ & [=])|([] & w2 & [= <-] & H)].
  apply M_bind_inv in H as [(e & _ & [=])|([] & w2 & Hsi & H)].
  apply _save_index_inv in Hsi as [(e & [=] & _)|(ix & _ & Hix & ->)].
  apply M_bind_inv in H as [(e & _ & [=])|([] & w2 & Hsm & H)].
  unfold _save_metadata in Hsm.
  apply M_bind_inv in Hsm as [(e & _ & [=])|(s3 & w3 & [= <- <-] & Hsm)].
  cbn [fst snd job_metadata set_index set_job_metadata] in Hsm.
  destruct (to_parquet_ok env); [|discriminate]. injection Hsm as <-.
  unfold _save_model_fingerprint in H.
  apply M_bind_inv in H as [(e & _ & [=])|(s3 & w3 & [= <- <-] & H)].
  destruct (json_dump_ok env); [|discriminate].
  injection H as <- <-. cbn [fst snd] in *.
  cbn [index set_index] in Hix. injection Hix as <-.
  exists name, df, (IndexFlatIP env dim (_normalize_embeddings env emb)).
  split; [done|]. split.
  { intros df0 Hdf0. unfold find_csv in Hcsv. rewrite Hdf0 in Hcsv.
    by injection Hcsv as <- <-. }
  split.
  { apply Forall_app. split; [exact Hcols|]. apply Forall_singleton.
    unfold require_column in Hjd. by case_bool_decide. }
  split; [done|]. split; [by eexists|]. split; [done|]. split; [done|].
  split.
  - unfold get_job_count. cbn. unfold len. by rewrite length_fmap.
  - cbn. by rewrite Hn1.
Qed.

(** X13. A build that returns has read the corpus file (the enhanced one
    when it exists), holds one metadata row per corpus row, in order, with
    the skills column if the file has one, and has written the index it
    holds, that same metadata and a fingerprint naming the model, the index
    dimension and the file that was read; nothing else on disk changes. *)
Theorem build_index_success env self fs self' fs' :
  build_index env (self, fs) = (Ok (), (self', fs')) →
  ∃ name df ix,
    find_csv fs = Some (name, df)
    ∧ (∀ df0, jobs_enhanced_csv fs = Some df0 → name = "jobs_enhanced.csv" ∧ df = df0)
    ∧ Forall (λ col, col ∈ columns df) (required_cols ++ ["jd_text"])
    ∧ index self' = Some ix ∧ is_Some (model self')
    ∧ model_name self' = model_name self
    ∧ job_metadata self'
      = Some (meta_of_row (bool_decide ("skills" ∈ columns df)) <$> rows df)
    ∧ get_job_count self' = len (rows df)
    ∧ fs' = write_model_meta_json
              {| fp_model_name := model_name self;
                 fp_embedding_dim := Some (d ix);
                 fp_source_csv := name |}
              (write_jobs_meta_parquet
                 (meta_of_row (bool_decide ("skills" ∈ columns df)) <$> rows df)
                 (write_jobs_faiss ix fs)).
Proof. apply build_index_Ok_inv. Qed.

Lemma build_index_success_witness :
  build_index (demo_env true) demo_world
  = (Ok (), snd (build_index (demo_env true) demo_world))
  ∧ get_job_count (snd (build_index (demo_env true) demo_world)).1 = 3
  ∧ artifacts (snd (build_index (demo_env true) demo_world)).2 = (true, true, true).
Proof.
  assert (build_index (demo_env true) (__init__ "all-MiniLM-L6-v2", demo_files)
          = (Ok (),
             ((snd (build_index (demo_env true) demo_world)).1,
              (snd (build_index (demo_env true) demo_world)).2))) as Hrun
    by (vm_compute; reflexivity).
  split; [vm_compute; reflexivity|].
  destruct (build_index_success _ _ _ _ _ Hrun)
    as (name & df & ix & Hcsv & _ & _ & _ & _ & _ & _ & Hcount & Hfs).
  injection Hcsv as <- <-. split; [exact Hcount|].
  rewrite Hfs. reflexivity.
Defined.

(** The fingerprint check, by the kind of document. *)
Lemma fingerprint_check_falsy name ix fingerprint :
  (∀ v, fingerprint = Some v → truthy v = false) →
  fingerprint_check name ix fingerprint = Ok [NoFingerprintFound].
Proof.
  intros H. destruct fingerprint as [v|]; [|done].
  unfold fingerprint_check. by rewrite (H v eq_refl).
Qed.

Lemma fingerprint_check_dict name ix members :
  members ≠ [] →
  fingerprint_check name ix (Some (JDict members))
  = Ok (mismatch_warnings name ix members).
Proof.
  intros Hne. unfold fingerprint_check, mismatch_warnings.
  assert (truthy (JDict members) = true) as -> by (by destruct members).
  cbn [py_get mbind result_bind Py.bind].
  destruct (ne_str _ name); destruct (ne_int _ (d ix)); reflexivity.
Qed.

Lemma fingerprint_check_not_dict name ix v :
  truthy v = true → (∀ members, v ≠ JDict members) →
  fingerprint_check name ix (Some v) = Raise AttributeError.
Proof.
  intros Ht Hnd. unfold fingerprint_check. rewrite Ht.
  destruct v; try reflexivity. by destruct (Hnd members).
Qed.

Lemma truthy_dict members : truthy (JDict members) = true ↔ members ≠ [].
Proof. by destruct members. Qed.

(** Every run of [load_index], case by case. *)
Lemma load_index_cases env self fs :
  load_index env (self, fs)
  = match jobs_faiss fs with
    | None => ((false, []), (self, fs))
    | Some blob =>
        match with_model env self with
        | Raise _ => ((false, []), (self, fs))
        | Ok self1 =>
            let self2 := set_index blob self1 in
            match find_csv fs with
            | None => ((false, []), (self2, fs))
            | Some (_, df) =>
                if forallb (λ col, bool_decide (col ∈ columns df)) required_cols
                then
                  let self3 :=
                    set_job_metadata (meta_of_row false <$> rows df) self2 in
                  match fingerprint_check (model_name self2) blob
                          (fingerprint_of (model_meta_json fs)).1 with
                  | Ok log2 =>
                      ((true, (fingerprint_of (model_meta_json fs)).2 ++ log2),
                       (self3, fs))
                  | Raise _ => ((false, []), (self3, fs))
                  end
                else ((false, []), (self2, fs))
            end
        end
    end.
Proof.
  unfold load_index, load_index_try.
  unfold mbind at 1. unfold M_bind at 1. unfold get_files at 1. cbn [snd].
  destruct (jobs_faiss fs) as [blob|]; [|reflexivity].
  unfold mbind at 1. unfold M_bind at 1. rewrite _load_model_run.
  destruct (with_model env self) as [self1|e]; [|reflexivity].
  unfold mbind at 1. unfold M_bind at 1. unfold set_self at 1. cbn [fst snd].
  destruct (find_csv fs) as [[name df]|]; [|reflexivity].
  destruct (forallb _ required_cols); [|reflexivity]. cbv zeta.
  unfold mbind at 1. unfold M_bind at 1. unfold set_self at 1. cbn [fst snd].
  unfold mbind at 1. unfold M_bind at 1. unfold _load_model_fingerprint.
  unfold mbind at 1. unfold M_bind at 1. unfold get_files at 1. cbn [fst snd].
  destruct (model_meta_json fs) as [[v|]|];
    cbn [mret M_ret fingerprint_of fst snd];
    unfold mbind at 1; unfold M_bind at 1; unfold get_self at 1; cbn [fst snd];
    unfold mbind at 1; unfold M_bind at 1; unfold lift at 1;
    cbn [model_name set_job_metadata set_index];
    destruct (fingerprint_check _ blob _); reflexivity.
Qed.

(** Without an index file [load_index] answers [False] and touches
    neither the store nor the files. *)
Lemma load_index_without_index_file env self fs :
  jobs_faiss fs = None →
  load_index env (self, fs) = ((false, []), (self, fs)).
Proof. intros H. by rewrite load_index_cases, H. Qed.

(** What a load that answers [True] has done. *)
Lemma load_index_true_inv env self fs ws self' fs' :
  load_index env (self, fs) = ((true, ws), (self', fs')) →
  ∃ blob name df,
    jobs_faiss fs = Some blob ∧ find_csv fs = Some (name, df)
    ∧ Forall (λ col, col ∈ columns df) required_cols
    ∧ index self' = Some blob ∧ is_Some (model self')
    ∧ model_name self' = model_name self
    ∧ job_metadata self' = Some (meta_of_row false <$> rows df)
    ∧ (∀ md info, job_metadata self' = Some md → info ∈ md → skills info = None)
    ∧ fs' = fs
    ∧ match model_meta_json fs with
      | None => ws = [NoFingerprintFound]
      | Some Unreadable => ws = [FingerprintLoadFailed; NoFingerprintFound]
      | Some (JsonText v) =>
          if truthy v then
            ∃ members, v = JDict members
              ∧ ws = (if ne_str (dict_get members "model_name" JNull) (model_name self)
                      then [ModelMismatch (model_name self)
                              (dict_get members "model_name" (JStr "UNKNOWN"))]
                      else [])
                     ++ (if ne_int (dict_get members "embedding_dim" JNull) (d blob)
                         then [DimensionMismatch (d blob)
                                 (dict_get members "embedding_dim" (JStr "UNKNOWN"))]
                         else [])
          else ws = [NoFingerprintFound]
      end.
Proof.
  rewrite load_index_cases.
  destruct (jobs_faiss fs) as [blob|]; [|discriminate].
  destruct (with_model env self) as [self1|] eqn:Hwm; [|discriminate].
  apply with_model_Ok in Hwm as (Hm1 & Hn1 & _ & _). cbv zeta.
  destruct (find_csv fs) as [[name df]|]; [|discriminate].
  destruct (forallb _ required_cols) eqn:Hcols; [|discriminate].
  cbn [model_name set_index]. rewrite Hn1.
  destruct (fingerprint_check (model_name self) blob _) as [log2|] eqn:Hcheck;
    [|discriminate].
  intros [= <- <- <-]. exists blob, name, df.
  split; [done|]. split; [done|]. split.
  { apply Forall_forall. intros col Hcol.
    rewrite forallb_forall in Hcols.
    apply list_elem_of_In, Hcols, bool_decide_eq_true_1 in Hcol. done. }
  split; [done|]. split; [done|]. split; [done|]. split; [done|].
  split.
  { intros md info [= <-] (row & -> & _)%list_elem_of_fmap. reflexivity. }
  split; [done|].
  destruct (model_meta_json fs) as [[v|]|]; cbn [fingerprint_of fst snd app] in *.
  - destruct (truthy v) eqn:Ht.
    + destruct v as [| | | | | |members];
        try (rewrite fingerprint_check_not_dict in Hcheck; [discriminate|done|done]).
      exists members. split; [done|].
      rewrite fingerprint_check_dict in Hcheck by (by apply truthy_dict).
      by injection Hcheck as <-.
    + rewrite fingerprint_check_falsy in Hcheck by (by intros ? [= <-]).
      by injection Hcheck as <-.
  - by injection Hcheck as <-.
  - by injection Hcheck as <-.
Qed.

(** X14. When [load_index] answers [True], the store holds the stored
    index, a loaded model, and metadata taken from the corpus file, one row
    per corpus row, none of them with a skills key, and the files are as
    they were.  The fingerprint check has then logged: the no-fingerprint
    line when the file is not there or holds a falsy document; the
    load-failure warning and then that line when the file cannot be read;
    and for a non-empty object exactly the mismatch warnings that apply,
    model name first.  A truthy document that is not an object never leads
    to [True]. *)
Theorem load_index_success env self fs ws self' fs' :
  load_index env (self, fs) = ((true, ws), (self', fs')) →
  ∃ blob name df,
    jobs_faiss fs = Some blob ∧ find_csv fs = Some (name, df)
    ∧ Forall (λ col, col ∈ columns df) required_cols
    ∧ index self' = Some blob ∧ is_Some (model self')
    ∧ model_name self' = model_name self
    ∧ job_metadata self' = Some (meta_of_row false <$> rows df)
    ∧ (∀ md info, job_metadata self' = Some md → info ∈ md → skills info = None)
    ∧ fs' = fs
    ∧ match model_meta_json fs with
      | None => ws = [NoFingerprintFound]
      | Some Unreadable => ws = [FingerprintLoadFailed; NoFingerprintFound]
      | Some (JsonText v) =>
          if truthy v then
            ∃ members, v = JDict members
              ∧ ws = (if ne_str (dict_get members "model_name" JNull) (model_name self)
                      then [ModelMismatch (model_name self)
                              (dict_get members "model_name" (JStr "UNKNOWN"))]
                      else [])
                     ++ (if ne_int (dict_get members "embedding_dim" JNull) (d blob)
                         then [DimensionMismatch (d blob)
                                 (dict_get members "embedding_dim" (JStr "UNKNOWN"))]
                         else [])
          else ws = [NoFingerprintFound]
      end.
Proof. apply load_index_true_inv. Qed.

(** X15. [load_index] never reads the stored metadata table, and the store
    it leaves does not depend on the fingerprint file either.  Its answer
    depends on the fingerprint file in one case only: a file that parses to
    a truthy document that is not an object (a list, a number, a string)
    makes the check raise, and the answer is [False], with the index and the
    metadata already assigned.  In every other case, the file missing,
    unreadable, falsy or an object with whatever members, the answer is the
    one given without the file. *)
Theorem load_index_ignores_fingerprint_and_table env self fs parquet fingerprint :
  let fs2 := {| jobs_enhanced_csv := jobs_enhanced_csv fs; jobs_csv := jobs_csv fs;
                jobs_faiss := jobs_faiss fs; jobs_meta_parquet := parquet;
                model_meta_json := fingerprint |} in
  let fs0 := {| jobs_enhanced_csv := jobs_enhanced_csv fs; jobs_csv := jobs_csv fs;
                jobs_faiss := jobs_faiss fs;
                jobs_meta_parquet := jobs_meta_parquet fs;
                model_meta_json := None |} in
  (load_index env (self, fs2)).2.1 = (load_index env (self, fs0)).2.1
  ∧ ((∀ v, fingerprint = Some (JsonText v) → truthy v = true →
        ∃ members, v = JDict members) →
     (load_index env (self, fs2)).1.1 = (load_index env (self, fs0)).1.1)
  ∧ (∀ v, fingerprint = Some (JsonText v) → truthy v = true →
       (∀ members, v ≠ JDict members) →
       (load_index env (self, fs2)).1.1 = false).
Proof.
  cbv zeta. rewrite !load_index_cases. cbn [jobs_faiss model_meta_json].
  unfold find_csv. cbn [jobs_enhanced_csv jobs_csv].
  destruct (jobs_faiss fs) as [blob|]; [|done].
  destruct (with_model env self) as [self1|]; [|done]. cbv zeta.
  set (csv := match jobs_enhanced_csv fs with
              | Some df => Some ("jobs_enhanced.csv"%string, df)
              | None => match jobs_csv fs with
                        | Some df => Some ("jobs.csv"%string, df)
                        | None => None
                        end
              end).
  destruct csv as [[name df]|]; [|done].
  destruct (forallb _ required_cols); [|done].
  cbn [fingerprint_of fst snd fingerprint_check].
  split; [by destruct (fingerprint_check _ blob _)|]. split.
  - intros Hdict. destruct fingerprint as [[v|]|]; cbn [fingerprint_of fst snd];
      [|done|done].
    destruct (truthy v) eqn:Ht.
    + destruct (Hdict v eq_refl Ht) as [members ->].
      by rewrite fingerprint_check_dict by (by apply truthy_dict).
    + by rewrite fingerprint_check_falsy by (by intros ? [= <-]).
  - intros v -> Ht Hnd. cbn [fingerprint_of fst snd].
    by rewrite fingerprint_check_not_dict.
Qed.





Lemma demo_reload_run :
  load_index (demo_env true) (__init__ default_model_name, demo_built.2)
  = ((true, []), (demo_reloaded.1, demo_built.2)).
Proof. vm_compute. reflexivity. Qed.


Lemma load_index_success_witness :
  load_index (demo_env true) (__init__ default_model_name, demo_built.2)
  = ((true, []), (demo_reloaded.1, demo_built.2))
  ∧ ∀ md info, job_metadata demo_reloaded.1 = Some md → info ∈ md →
      skills info = None.
Proof.
  split; [exact demo_reload_run|].
  destruct (load_index_success _ _ _ _ _ _ demo_reload_run)
    as (blob & name & df & _ & _ & _ & _ & _ & _ & _ & Hsk & _).
  exact Hsk.
Defined.

Lemma load_index_ignores_fingerprint_and_table_witness :
  truthy (JList [JInt 1]) = true
  ∧ (load_index (demo_env true)
       (__init__ default_model_name, demo_built_with_list_fingerprint)).1.1 = false
  ∧ (load_index (demo_env true) (__init__ default_model_name, demo_built.2)).1.1
    = true.
Proof.
  split; [reflexivity|]. split; [|by rewrite demo_reload_run].
  destruct (load_index_ignores_fingerprint_and_table (demo_env true)
              (__init__ default_model_name) demo_built.2
              (jobs_meta_parquet demo_built.2) (Some (JsonText (JList [JInt 1]))))
    as (_ & _ & H).
  exact (H (JList [JInt 1]) eq_refl eq_refl ltac:(discriminate)).
Defined.

(** ** Corpus validation *)

Lemma existsb_false_Forall {A} (f : A → bool) (l : list A) :
  existsb f l = false ↔ Forall (λ x, f x = false) l.
Proof.
  induction l as [|x l IH]; cbn; [split; [constructor|done]|].
  rewrite orb_false_iff, IH, Forall_cons. done.
Qed.

Lemma filter_nil_Forall {A} (P : A → Prop) `{∀ x, Decision (P x)} (l : list A) :
  filter P l = [] ↔ Forall (λ x, ¬ P x) l.
Proof.
  induction l as [|x l IH]; [split; [constructor|done]|].
  rewrite filter_cons, Forall_cons. destruct (decide (P x)).
  - split; [done|]. by intros [? _].
  - rewrite IH. tauto.
Qed.

Lemma is_null_false (c : cell) : is_null c = false ↔ c ≠ None.
Proof. destruct c; cbn; split; congruence. Qed.

(** The dtype test on the [id] column. *)
Lemma id_dtype_is_int_iff (df : RawFrame) :
  id_dtype_is_int df = true
  ↔ raw_rows df ≠ []
    ∧ Forall (λ r, ∃ n, raw_id r = IntField n ∧ - 2 ^ 63 ≤ n < 2 ^ 63) (raw_rows df).
Proof.
  unfold id_dtype_is_int.
  assert (forallb (λ r, match raw_id r with
                        | IntField n => fits_int64 n
                        | _ => false
                        end) (raw_rows df) = true
          ↔ Forall (λ r, ∃ n, raw_id r = IntField n ∧ - 2 ^ 63 ≤ n < 2 ^ 63)
              (raw_rows df)) as Hall.
  { rewrite forallb_forall, Forall_forall. split; intros H r Hr.
    - apply list_elem_of_In, H in Hr. destruct (raw_id r) as [n| |]; try discriminate.
      exists n. split; [done|]. unfold fits_int64 in Hr.
      apply andb_true_iff in Hr as [H1 H2]. lia.
    - apply list_elem_of_In, H in Hr as (n & -> & Hn). unfold fits_int64.
      apply andb_true_iff. split; lia. }
  destruct (raw_rows df) as [|r rows] eqn:E.
  - split; [done|]. by intros [? _].
  - rewrite Hall. split; [by intros ?|by intros [_ ?]].
Qed.

(** The checks of [validate_jobs_data], read backwards. *)
Lemma validate_jobs_data_true_iff (file : option (result RawFrame)) :
  validate_jobs_data file = true
  ↔ ∃ df, file = Some (Ok df)
      ∧ Forall (λ col, col ∈ raw_columns df)
          ["id"; "title"; "company"; "location"; "jd_text"]
      ∧ raw_rows df ≠ []
      ∧ Forall (λ r, (∃ n, raw_id r = IntField n ∧ - 2 ^ 63 ≤ n < 2 ^ 63)
                     ∧ raw_title r ≠ None ∧ raw_company r ≠ None
                     ∧ raw_jd_text r ≠ None)
          (raw_rows df).
Proof.
  unfold validate_jobs_data, validate_jobs_data_try.
  destruct file as [[df|e]|].
  2:{ split; [done|]. by intros (df & [=] & _). }
  2:{ split; [done|]. by intros (df & [=] & _). }
  cbn [mbind result_bind Py.bind]. cbv zeta.
  set (req := ["id"; "title"; "company"; "location"; "jd_text"]).
  assert (filter (λ col, col ∉ raw_columns df) req = []
          ↔ Forall (λ col, col ∈ raw_columns df) req) as Hreq.
  { rewrite filter_nil_Forall. apply Forall_proper; [|done].
    intros col. split; [apply dec_stable|]. by intros ? ?. }
  assert (existsb (λ col, has_null col df) ["id"; "title"; "company"; "jd_text"]
          = existsb (λ r, match raw_id r with NullField => true | _ => false end)
              (raw_rows df)
            || (existsb (λ r, is_null (raw_title r)) (raw_rows df)
                || (existsb (λ r, is_null (raw_company r)) (raw_rows df)
                    || existsb (λ r, is_null (raw_jd_text r)) (raw_rows df))))
    as Hex.
  { cbn [existsb]. rewrite orb_false_r. reflexivity. }
  split.
  - intros H. exists df. split; [done|].
    case_bool_decide as Hmiss; [done|].
    apply Hreq in Hmiss. split; [done|].
    rewrite Hex in H. clear Hex.
    destruct (existsb _ (raw_rows df) || _) eqn:Hnull; [done|].
    destruct (id_dtype_is_int df) eqn:Hid; [|done].
    apply id_dtype_is_int_iff in Hid as [Hrows Hids]. split; [done|].
    rewrite !orb_false_iff, !existsb_false_Forall in Hnull.
    destruct Hnull as (_ & H1 & H2 & H3).
    rewrite Forall_forall in Hids, H1, H2, H3. apply Forall_forall. intros r Hr.
    specialize (Hids r Hr). specialize (H1 r Hr). specialize (H2 r Hr).
    specialize (H3 r Hr). cbn beta in H1, H2, H3.
    rewrite is_null_false in H1, H2, H3. done.
  - intros (df' & [= <-] & Hcols & Hrows & Hall).
    apply Hreq in Hcols. fold req. rewrite Hcols.
    rewrite bool_decide_eq_false_2 by (intros H; by apply H).
    assert (existsb (λ col, has_null col df) ["id"; "title"; "company"; "jd_text"]
            = false) as ->.
    { rewrite Hex, !orb_false_iff, !existsb_false_Forall.
      rewrite !Forall_forall. rewrite Forall_forall in Hall.
      split; [|split; [|split]]; intros r Hr;
        destruct (Hall r Hr) as ((n & Hn & _) & H1 & H2 & H3).
      - by rewrite Hn.
      - by apply is_null_false.
      - by apply is_null_false.
      - by apply is_null_false. }
    assert (id_dtype_is_int df = true) as ->; [|done].
    apply id_dtype_is_int_iff. split; [done|].
    eapply Forall_impl; [exact Hall|]. by intros r (? & _).
Qed.

(** X17. [validate_jobs_data] accepts a corpus exactly when the file
    exists and is read as a frame that has the five required columns and at
    least one row, every id is an integer literal that fits 64 bits (so the
    column is typed int64 and has no missing value), and no row lacks its
    title, company or description; a missing location is accepted. *)
Theorem validate_jobs_data_accepts (file : option (result RawFrame)) :
  validate_jobs_data file = true
  ↔ ∃ df, file = Some (Ok df)
      ∧ Forall (λ col, col ∈ raw_columns df)
          ["id"; "title"; "company"; "location"; "jd_text"]
      ∧ raw_rows df ≠ []
      ∧ Forall (λ r, (∃ n, raw_id r = IntField n ∧ - 2 ^ 63 ≤ n < 2 ^ 63)
                     ∧ raw_title r ≠ None ∧ raw_company r ≠ None
                     ∧ raw_jd_text r ≠ None)
          (raw_rows df).
Proof. apply validate_jobs_data_true_iff. Qed.



(** ** The HTTP handlers *)

Lemma search_without_index env fs self query top_k role :
  index self = None ∨ job_metadata self = None →
  search env fs self query top_k role
  = Raise (ValueError "Index not built. Call build_index() first.").
Proof.
  unfold search. intros [-> | ->]; [done|]. by destruct (index self).
Qed.

Lemma app_search_cases env st data :
  (∃ d q vs, data = Some d ∧ req_query d = Some q ∧ st.1 = Some vs
     ∧ match search env st.2 vs q (default 5 (req_top_k d)) (req_role d) with
       | Ok rs =>
           ∃ role, app_search env st data
                   = {| status_code := 200;
                        body_json := SearchSuccess role (len rs) rs |}
       | Raise e =>
           app_search env st data
           = {| status_code := 500; body_json := ErrorBody (SearchFailed e) |}
       end)
  ∨ ((data ≫= req_query = None ∨ st.1 = None)
     ∧ status_code (app_search env st data) = 400).
Proof.
  unfold app_search. destruct data as [d|]; [|right; split; [by left|done]].
  destruct (req_query d) as [q|] eqn:Hq; [|right; split; [left; cbn; by rewrite Hq|done]].
  destruct st.1 as [vs|] eqn:Hvs; [|right; split; [by right|done]].
  left. exists d, q, vs. repeat (split; [done|]). cbv zeta.
  destruct (search env st.2 vs q (default 5 (req_top_k d)) (req_role d)); eauto.
Qed.

(** X19. [POST /search] answers 200 exactly when the request has a query,
    a store is in place and the search returned; the count it reports is
    then the number of results, and never more than the requested top_k
    (five when none is requested).  A search that raised is answered 500,
    never as a success with zero results. *)
Theorem app_search_success env st data :
  status_code (app_search env st data) = 200 ↔
  ∃ d q vs rs,
    data = Some d ∧ req_query d = Some q ∧ st.1 = Some vs
    ∧ search env st.2 vs q (default 5 (req_top_k d)) (req_role d) = Ok rs
    ∧ (∃ role, body_json (app_search env st data) = SearchSuccess role (len rs) rs)
    ∧ len rs ≤ Z.max 0 (default 5 (req_top_k d)).
Proof.
  destruct (app_search_cases env st data)
    as [(d & q & vs & -> & Hq & Hvs & H)|[_ H]].
  2:{ split; [intros H'; rewrite H in H'; done|].
      intros (d & q & vs & rs & -> & Hq & Hvs & Hs & _).
      unfold app_search in H. rewrite Hq, Hvs in H. cbv zeta in H.
      rewrite Hs in H. done. }
  destruct (search env st.2 vs q (default 5 (req_top_k d)) (req_role d))
    as [rs|e] eqn:Hs.
  - destruct H as [role H]. rewrite H. cbn. split; [intros _|done].
    exists d, q, vs, rs. repeat (split; [done|]). split; [by exists role|].
    destruct (Z.le_gt_cases (default 5 (req_top_k d)) 0) as [Hk|Hk].
    + rewrite (search_nonpositive_inv _ _ _ _ _ _ _ Hk Hs). unfold len. cbn. lia.
    + apply search_inv in Hs as (_ & _ & _ & _ & _ & Hlen & _).
      specialize (Hlen ltac:(lia)). lia.
  - rewrite H. cbn. split; [done|].
    intros (d' & q' & vs' & rs & [= <-] & Hq' & Hvs' & Hs' & _).
    congruence.
Qed.

(** X20. The role a successful answer reports is the role the search ran
    with, unless the request carries an empty role string: then the answer
    reports the detected role while the search ran with the empty one. *)
Theorem app_search_reported_role env st d q vs rs role :
  req_query d = Some q → st.1 = Some vs →
  search env st.2 vs q (default 5 (req_top_k d)) (req_role d) = Ok rs →
  body_json (app_search env st (Some d)) = SearchSuccess role (len rs) rs →
  (req_role d ≠ Some "" → role = effective_role q (req_role d))
  ∧ (req_role d = Some "" →
     role = detect_role q ∧ effective_role q (req_role d) = ""
     ∧ role ≠ effective_role q (req_role d)).
Proof.
  intros Hq Hvs Hs. unfold app_search. rewrite Hq, Hvs. cbv zeta. rewrite Hs.
  cbn [body_json]. intros [= <-]. unfold effective_role.
  destruct (req_role d) as [r|]; cbn [default]; split.
  - intros Hr. rewrite bool_decide_eq_false_2; [done|]. congruence.
  - intros [= ->]. rewrite bool_decide_eq_true_2 by done.
    split; [done|]. split; [done|].
    destruct (detect_role_cases q) as ([H|[H|H]] & _); rewrite H; discriminate.
  - done.
  - discriminate.
Qed.

Lemma demo_search_empty_role :
  search (demo_env true) demo_app_state.2 (demo_store demo_ranking) demo_query
    (default 5 (req_top_k demo_request_empty_role))
    (req_role demo_request_empty_role)
  = Ok [ result_for (extract_skills demo_query) (Q2Qc 0.9) demo_job0 demo_skills0;
         result_for (extract_skills demo_query) (Q2Qc 0.4) demo_job2 demo_skills2 ].
Proof. by_compute. Qed.

Lemma app_search_reported_role_witness :
  req_query demo_request_empty_role = Some demo_query
  ∧ demo_app_state.1 = Some (demo_store demo_ranking)
  ∧ body_json (app_search (demo_env true) demo_app_state
                 (Some demo_request_empty_role))
    = SearchSuccess "fullstack" 2
        [ result_for (extract_skills demo_query) (Q2Qc 0.9) demo_job0 demo_skills0;
          result_for (extract_skills demo_query) (Q2Qc 0.4) demo_job2 demo_skills2 ]
  ∧ "fullstack" ≠ effective_role demo_query (req_role demo_request_empty_role).
Proof.
  assert (body_json (app_search (demo_env true) demo_app_state
                       (Some demo_request_empty_role))
          = SearchSuccess "fullstack" 2
              [ result_for (extract_skills demo_query) (Q2Qc 0.9) demo_job0
                  demo_skills0;
                result_for (extract_skills demo_query) (Q2Qc 0.4) demo_job2
                  demo_skills2 ]) as Hbody by by_compute.
  split; [reflexivity|]. split; [reflexivity|]. split; [exact Hbody|].
  exact (proj2 (proj2 (proj2 (app_search_reported_role (demo_env true)
           demo_app_state demo_request_empty_role demo_query
           (demo_store demo_ranking) _ "fullstack" eq_refl eq_refl
           demo_search_empty_role Hbody) eq_refl))).
Defined.

Lemma build_index_without_corpus_store env self fs :
  find_csv fs = None →
  ∃ e self', build_index env (self, fs) = (Raise e, (self', fs))
             ∧ index self' = index self ∧ job_metadata self' = job_metadata self.
Proof.
  intros Hcsv. unfold build_index.
  unfold mbind at 1. unfold M_bind at 1. rewrite _load_model_run.
  destruct (with_model env self) as [self1|e] eqn:Hwm; [|eauto].
  apply with_model_Ok in Hwm as (_ & _ & Hix & Hmd).
  unfold mbind at 1. unfold M_bind at 1. unfold get_files at 1. cbn [snd].
  rewrite Hcsv. unfold raise. eauto.
Qed.

(** X21. [POST /index/build] replaces the serving store before it builds:
    when the corpus file is missing the build is answered 500, and from then
    on every search request with a query is answered 500 as well, whatever
    store was serving before. *)
Theorem failed_build_stops_search env old fs d q :
  find_csv fs = None → req_query d = Some q →
  let st' := (app_build_index env (old, fs)).2 in
  status_code (app_build_index env (old, fs)).1 = 500
  ∧ st'.2 = fs
  ∧ app_search env st' (Some d)
    = {| status_code := 500;
         body_json :=
           ErrorBody (SearchFailed
             (ValueError "Index not built. Call build_index() first.")) |}.
Proof.
  intros Hcsv Hq. cbv zeta. unfold app_build_index. cbn [snd].
  destruct (build_index_without_corpus_store env (__init__ default_model_name) fs Hcsv)
    as (e & self' & -> & Hix & _).
  cbn [fst snd]. split; [done|]. split; [done|].
  unfold app_search. rewrite Hq. cbn [fst snd]. cbv zeta.
  by rewrite search_without_index by (by left).
Qed.

Lemma failed_build_stops_search_witness :
  let fs := {| jobs_enhanced_csv := None; jobs_csv := None;
               jobs_faiss := None; jobs_meta_parquet := None;
               model_meta_json := None |} in
  find_csv fs = None
  ∧ req_query demo_request_empty_role = Some demo_query
  ∧ status_code
      (app_search (demo_env true)
         (app_build_index (demo_env true) (Some (demo_store demo_ranking), fs)).2
         (Some demo_request_empty_role)) = 500.
Proof.
  cbv zeta. split; [reflexivity|]. split; [reflexivity|].
  destruct (failed_build_stops_search (demo_env true)
              (Some (demo_store demo_ranking))
              {| jobs_enhanced_csv := None; jobs_csv := None;
                 jobs_faiss := None; jobs_meta_parquet := None;
                 model_meta_json := None |}
              demo_request_empty_role demo_query eq_refl eq_refl)
    as (_ & _ & H).
  rewrite H. reflexivity.
Defined.

(** X22. The service started without an index file keeps the new, empty
    store in place: a search request with a query is then answered 500 (the
    search raises), not with the 400 that asks for a build. *)
Theorem startup_without_index env fs d q :
  jobs_faiss fs = None → req_query d = Some q →
  app_startup env fs = (Some (__init__ default_model_name), fs)
  ∧ app_search env (app_startup env fs) (Some d)
    = {| status_code := 500;
         body_json :=
           ErrorBody (SearchFailed
             (ValueError "Index not built. Call build_index() first.")) |}.
Proof.
  intros Hix Hq. unfold app_startup.
  rewrite load_index_cases, Hix.
  split; [done|]. unfold app_search. rewrite Hq. cbn [fst snd]. cbv zeta.
  by rewrite search_without_index by (by left).
Qed.

Lemma startup_without_index_witness :
  jobs_faiss demo_files = None
  ∧ req_query demo_request_empty_role = Some demo_query
  ∧ status_code
      (app_search (demo_env true) (app_startup (demo_env true) demo_files)
         (Some demo_request_empty_role)) = 500.
Proof.
  split; [reflexivity|]. split; [reflexivity|].
  destruct (startup_without_index (demo_env true) demo_files
              demo_request_empty_role demo_query eq_refl eq_refl) as [_ H].
  rewrite H. reflexivity.
Defined.

(** ** Ties in the final order *)

Lemma insert_by_score_filter s x l :
  filter (λ r, score r = s) (insert_by_score x l)
  = filter (λ r, score r = s) (x :: l).
Proof.
  induction l as [|y l IH]; cbn [insert_by_score]; [done|].
  case_bool_decide as Hxy; [|done].
  rewrite (filter_cons _ y), IH, !(filter_cons _ x), (filter_cons _ y).
  destruct (decide (score x = s)) as [Hx|Hx]; [|done].
  destruct (decide (score y = s)) as [Hy|Hy]; [|done].
  exfalso. rewrite Hx, Hy in Hxy. by apply Qclt_not_eq in Hxy.
Qed.

Lemma sort_by_score_stable s l :
  filter (λ r, score r = s) (sort_by_score l) = filter (λ r, score r = s) l.
Proof.
  induction l as [|x l IH]; [done|]. cbn [sort_by_score foldr].
  fold (sort_by_score l). rewrite insert_by_score_filter, !filter_cons, IH. done.
Qed.

(** X23. The final sort is stable: for a positive top_k, the returned
    results that share a composite score appear in the order in which the
    loop accepted them, that is, in the order the index listed them. *)
Theorem search_ties_keep_index_order env fs self query top_k role rs :
  0 < top_k →
  search env fs self query top_k role = Ok rs →
  ∃ md df cands st,
    search_run env fs self query top_k role md df cands st
    ∧ ∀ s, filter (λ r, score r = s) rs = filter (λ r, score r = s) (results st).
Proof.
  intros Hk (md & df & cands & st & Hrun & ->)%search_inv_final.
  exists md, df, cands, st. split; [done|].
  destruct Hrun as (_ & _ & _ & Hloop).
  apply loop_results_length in Hloop; [|done].
  rewrite final_stage_all by done. intros s. apply sort_by_score_stable.
Qed.

(** Two copies of a posting with the same similarity and the same skills
    tie on the composite score; a third job, listed after them by the
    index, scores higher. *)
Lemma tie_search :
  search (demo_env true) tie_files tie_store demo_query 5 (Some "general")
  = Ok [ result_for (extract_skills demo_query) (Q2Qc 0.5) tie_job2
           {[ "java"; "spring boot" ]};
         result_for (extract_skills demo_query) (Q2Qc 0.6) tie_job0 {[ "python" ]};
         result_for (extract_skills demo_query) (Q2Qc 0.6) tie_job1 {[ "python" ]} ].
Proof. by_compute. Qed.

Lemma search_ties_keep_index_order_witness :
  let r0 := result_for (extract_skills demo_query) (Q2Qc 0.6) tie_job0 {[ "python" ]} in
  let r1 := result_for (extract_skills demo_query) (Q2Qc 0.6) tie_job1 {[ "python" ]} in
  let r2 := result_for (extract_skills demo_query) (Q2Qc 0.5) tie_job2
              {[ "java"; "spring boot" ]} in
  0 < 5
  ∧ search (demo_env true) tie_files tie_store demo_query 5 (Some "general")
    = Ok [r2; r0; r1]
  ∧ score r0 = score r1
  ∧ r0 ≠ r1
  ∧ ∃ md df cands st,
      search_run (demo_env true) tie_files tie_store demo_query 5
        (Some "general") md df cands st
      ∧ cands = tie_ranking
      ∧ filter (λ r, score r = score r0) (results st) = [r0; r1].
Proof.
  cbv zeta. split; [lia|]. split; [exact tie_search|].
  split; [by_compute|]. split; [by_compute|].
  destruct (search_ties_keep_index_order _ _ _ _ 5 _ _ ltac:(lia) tie_search)
    as (md & df & cands & st & Hrun & Hties).
  exists md, df, cands, st. split; [exact Hrun|]. split.
  - destruct Hrun as (Hmd & (ix & m & qe & Hix & Hm & Hqe & Hcands) & _).
    injection Hmd as <-. injection Hix as <-. injection Hm as <-.
    injection Hqe as <-. revert Hcands. vm_compute. by intros [= <-].
  - rewrite <- Hties. by_compute.
Defined.

(** ** A build that fails half-way, in memory *)

(** X24. A build on a store that already serves an index assigns the new
    metadata before it embeds the descriptions: when the provider then
    raises, the build raises with the files untouched, but the store is left
    with the metadata of the new corpus next to the index of the old one. *)
Theorem failed_build_mixes_generations env self fs m name df e :
  model self = Some m → find_csv fs = Some (name, df) →
  Forall (λ col, col ∈ columns df) (required_cols ++ ["jd_text"]) →
  encode m (csv_jd_text <$> rows df) = Raise e →
  ∃ self',
    build_index env (self, fs) = (Raise e, (self', fs))
    ∧ index self' = index self
    ∧ job_metadata self'
      = Some (meta_of_row (bool_decide ("skills" ∈ columns df)) <$> rows df).
Proof.
  intros Hm Hcsv Hcols Henc. eexists. unfold build_index.
  unfold mbind at 1. unfold M_bind at 1. rewrite _load_model_run.
  unfold with_model. rewrite Hm.
  unfold mbind at 1. unfold M_bind at 1. unfold get_files at 1. cbn [snd].
  rewrite Hcsv.
  assert (∀ col, col ∈ required_cols ++ ["jd_text"] → require_column df col = Ok ())
    as Hreq.
  { intros col Hcol. unfold require_column.
    rewrite bool_decide_eq_true_2; [done|].
    by apply (proj1 (Forall_forall _ _) Hcols). }
  assert (mapM (require_column df) ["id"; "title"; "company"; "location"]
          = Ok [(); (); (); ()]) as Hmap.
  { cbn [mapM]. rewrite !Hreq by (apply list_elem_of_In; cbn; tauto). reflexivity. }
  unfold mbind at 1. unfold M_bind at 1. unfold lift at 1. rewrite Hmap.
  unfold mbind at 1. unfold M_bind at 1. unfold set_self at 1.
  unfold mbind at 1. unfold M_bind at 1. unfold lift at 1.
  rewrite Hreq by (apply list_elem_of_In; cbn; tauto).
  unfold mbind at 1. unfold M_bind at 1. unfold get_self at 1.
  cbn [fst snd model set_job_metadata]. rewrite Hm.
  unfold mbind at 1. unfold M_bind at 1. unfold lift at 1. rewrite Henc.
  split; [reflexivity|]. split; reflexivity.
Qed.

Lemma failed_build_mixes_generations_witness :
  let self := {| model_name := default_model_name; model := Some failing_model;
                 index := Some (demo_index demo_ranking);
                 job_metadata := Some [] |} in
  ∃ self',
    build_index (demo_env true) (self, demo_files)
    = (Raise ProviderError, (self', demo_files))
    ∧ index self' = index self
    ∧ get_job_count self' = 3.
Proof.
  cbv zeta.
  destruct (failed_build_mixes_generations (demo_env true)
              {| model_name := default_model_name; model := Some failing_model;
                 index := Some (demo_index demo_ranking);
                 job_metadata := Some [] |}
              demo_files failing_model "jobs.csv" demo_df ProviderError
              eq_refl eq_refl ltac:(by_compute) eq_refl)
    as (self' & Hrun & Hix & Hmd).
  exists self'. split; [exact Hrun|]. split; [exact Hix|].
  unfold get_job_count. rewrite Hmd. reflexivity.
Defined.

Lemma search_results_sorted_witness :
  search (demo_env true) demo_files (demo_store demo_ranking) demo_query 5
    (Some "general")
  = Ok [ result_for (extract_skills demo_query) (Q2Qc 0.9) demo_job0 demo_skills0;
         result_for (extract_skills demo_query) (Q2Qc 0.4) demo_job2 demo_skills2 ]
  ∧ (0 < 1)%nat
  ∧ (score (result_for (extract_skills demo_query) (Q2Qc 0.4) demo_job2 demo_skills2)
     ≤ score (result_for (extract_skills demo_query) (Q2Qc 0.9) demo_job0
                demo_skills0))%Qc.
Proof.
  split; [exact demo_search_general|]. split; [lia|].
  exact (search_results_sorted _ _ _ _ _ _ _ demo_search_general 0%nat 1%nat _ _
           ltac:(lia) eq_refl eq_refl).
Defined.
